(** * TeenShare PII scanner: a shallow embedding of [BackEnd/pii_scanner.py]

    The development follows the layout of the Python module: the pattern
    constants, the nine recognizers, [scan_text_for_pii],
    [calculate_risk_level] and [mask_sensitive_data] with its formatters.

    Python's [str] is modelled as a list of 8-bit characters (the Latin-1
    range of Python's code points); the character classes [\d], [\s], [\w]
    and [str.isspace] follow Python's Unicode tables on that range.  Python's
    [int] is [Z].  Code that can raise is written in a small error monad. *)

From Stdlib Require Import List Bool Arith ZArith Lia Ascii String.
From Stdlib Require Import DecimalString Permutation Sorted.
Import ListNotations.

Set Implicit Arguments.

Open Scope string_scope.
Open Scope list_scope.
Open Scope nat_scope.

(* ------------------------------------------------------------------ *)
(** * Strings and exceptions                                           *)
(* ------------------------------------------------------------------ *)

Abbreviation str := (list ascii).

(** String literals are read as character lists. *)
Coercion list_ascii_of_string : string >-> list.

Inductive exn : Type := ValueError.

Inductive result (A : Type) : Type :=
| Ok (a : A)
| Raise (e : exn).

Arguments Ok {A} a.
Arguments Raise {A} e.

Definition bind {A B : Type} (r : result A) (f : A -> result B) : result B :=
  match r with
  | Ok a => f a
  | Raise e => Raise e
  end.

Notation "x <- c ;; k" := (bind c (fun x => k))
  (at level 61, c at next level, right associativity).

(** [for x in xs: acc = body acc x], stopping at the first exception. *)
Fixpoint for_each {A B : Type} (xs : list A) (acc : B)
         (body : B -> A -> result B) : result B :=
  match xs with
  | [] => Ok acc
  | x :: xs' => acc' <- body acc x ;; for_each xs' acc' body
  end.

(* ------------------------------------------------------------------ *)
(** * Character classes                                                *)
(* ------------------------------------------------------------------ *)

Module Char.

Definition code (a : ascii) : nat := nat_of_ascii a.

Definition between (lo hi : nat) (a : ascii) : bool :=
  (lo <=? code a) && (code a <=? hi).

Definition is_chr (c : ascii) (a : ascii) : bool := Ascii.eqb a c.

(** [\d] and [str.isdecimal]: on 8-bit characters only 0-9. *)
Definition isdigit (a : ascii) : bool := between 48 57 a.

Definition isupper_az (a : ascii) : bool := between 65 90 a.
Definition islower_az (a : ascii) : bool := between 97 122 a.
Definition isalpha_az (a : ascii) : bool := isupper_az a || islower_az a.

(** [\s] and [str.isspace]: TAB..CR, FS..US, space, NEL and NBSP. *)
Definition isspace (a : ascii) : bool :=
  between 9 13 a || between 28 32 a
  || Nat.eqb (code a) 133 || Nat.eqb (code a) 160.

(** The whitespace [int()] tolerates around a literal (it does not
    accept FS..US). *)
Definition is_int_space (a : ascii) : bool :=
  between 9 13 a || Nat.eqb (code a) 32
  || Nat.eqb (code a) 133 || Nat.eqb (code a) 160.

(** [\w]: Unicode alphanumerics and the underscore. *)
Definition isword (a : ascii) : bool :=
  isdigit a || isalpha_az a || Nat.eqb (code a) 95
  || Nat.eqb (code a) 170 || Nat.eqb (code a) 178 || Nat.eqb (code a) 179
  || Nat.eqb (code a) 181 || Nat.eqb (code a) 185 || Nat.eqb (code a) 186
  || between 188 190 a || between 192 214 a || between 216 246 a
  || between 248 255 a.

(** Simple case mappings, as far as they stay inside 8 bits. *)
Definition lower (a : ascii) : ascii :=
  if between 65 90 a || between 192 214 a || between 216 222 a
  then ascii_of_nat (code a + 32) else a.

Definition upper (a : ascii) : ascii :=
  if between 97 122 a || between 224 246 a || between 248 254 a
  then ascii_of_nat (code a - 32) else a.

Definition digit_value (a : ascii) : Z := Z.of_nat (code a - 48).

End Char.

(* ------------------------------------------------------------------ *)
(** * Python string operations used by the module                      *)
(* ------------------------------------------------------------------ *)

Module Py.

Fixpoint str_eqb (s t : str) : bool :=
  match s, t with
  | [], [] => true
  | a :: s', b :: t' => Ascii.eqb a b && str_eqb s' t'
  | _, _ => false
  end.

Definition len (s : str) : Z := Z.of_nat (List.length s).

(** [c in s] for a one-character [c]. *)
Definition contains (c : ascii) (s : str) : bool := existsb (Char.is_chr c) s.

(** Slice indices: a negative index counts from the end, and every index
    is clamped to the string. *)
Definition index (n : nat) (i : Z) : nat :=
  Z.to_nat (if (i <? 0)%Z then Z.max 0 (Z.of_nat n + i)
            else Z.min i (Z.of_nat n)).

(** [s[lo:hi]] *)
Definition slice (s : str) (lo hi : Z) : str :=
  let l := index (List.length s) lo in
  let h := index (List.length s) hi in
  firstn (h - l) (skipn l s).

(** [s[:hi]] *)
Definition slice_to (s : str) (hi : Z) : str :=
  firstn (index (List.length s) hi) s.

(** [s[lo:]] *)
Definition slice_from (s : str) (lo : Z) : str :=
  skipn (index (List.length s) lo) s.

Fixpoint dropwhile (p : ascii -> bool) (s : str) : str :=
  match s with
  | [] => []
  | a :: s' => if p a then dropwhile p s' else s
  end.

Definition strip_with (p : ascii -> bool) (s : str) : str :=
  rev (dropwhile p (rev (dropwhile p s))).

(** [s.strip()] *)
Definition strip (s : str) : str := strip_with Char.isspace s.

(** [s.split(sep)] for a one-character separator. *)
Fixpoint split_on (sep : ascii) (s : str) : list str :=
  match s with
  | [] => [[]]
  | a :: s' =>
      if Ascii.eqb a sep then [] :: split_on sep s'
      else match split_on sep s' with
           | w :: ws => (a :: w) :: ws
           | [] => [[a]]
           end
  end.

(** [s.split()]: maximal runs of non-whitespace. *)
Fixpoint split (s : str) : list str :=
  match s with
  | [] => []
  | a :: s' =>
      if Char.isspace a then split s'
      else match s' with
           | [] => [[a]]
           | b :: _ =>
               if Char.isspace b then [a] :: split s'
               else match split s' with
                    | w :: ws => (a :: w) :: ws
                    | [] => [[a]]
                    end
           end
  end.

(** [sep.join(ws)] *)
Fixpoint join (sep : str) (ws : list str) : str :=
  match ws with
  | [] => []
  | [w] => w
  | w :: ws' => w ++ sep ++ join sep ws'
  end.

(** [l[-1]] of a non-empty list of strings. *)
Definition last_item (l : list str) : str := List.last l [].

Definition sum (l : list Z) : Z := fold_left Z.add l 0%Z.

(** The digits of an integer literal: a digit, then digits each
    optionally preceded by a single underscore. *)
Fixpoint int_digits (s : str) (acc : Z) (after_digit : bool) : option Z :=
  match s with
  | [] => if after_digit then Some acc else None
  | a :: s' =>
      if Char.isdigit a
      then int_digits s' (10 * acc + Char.digit_value a)%Z true
      else if Char.is_chr "_" a && after_digit
           then int_digits s' acc false
           else None
  end.

(** [int(s)] *)
Definition int (s : str) : result Z :=
  let body := strip_with Char.is_int_space s in
  let parsed :=
    match body with
    | a :: rest =>
        if Char.is_chr "+" a then int_digits rest 0%Z false
        else if Char.is_chr "-" a
             then option_map Z.opp (int_digits rest 0%Z false)
             else int_digits body 0%Z false
    | [] => None
    end in
  match parsed with
  | Some z => Ok z
  | None => Raise ValueError
  end.

(** [str(n)] for an integer [n]. *)
Definition str_of_int (n : Z) : str :=
  list_ascii_of_string (NilZero.string_of_int (Z.to_int n)).

End Py.

(* ------------------------------------------------------------------ *)
(** * The regular-expression matcher                                   *)
(* ------------------------------------------------------------------ *)

(** The fragment of Python's [re] that the nine patterns use: literals
    and character classes, the word boundary [\b], sequencing,
    alternation, the greedy [?] on a group, and greedy bounded or
    unbounded repetition of a single-character class.  Matching is
    backtracking with Python's priorities: the left alternative first,
    the longer repetition first. *)
Module Re.

Inductive regex : Type :=
| Eps
| Chr (p : ascii -> bool)
| Bnd
| Seq (r1 r2 : regex)
| Alt (r1 r2 : regex)
| Opt (r : regex)
| Rep (p : ascii -> bool) (lo : nat) (hi : option nat).

(** A position in the subject: its offset, the character before it and
    the characters from it on. *)
Record cursor : Type := Cur {
  c_pos : nat;
  c_prev : option ascii;
  c_rest : str
}.

Definition word_opt (o : option ascii) : bool :=
  match o with
  | Some a => Char.isword a
  | None => false
  end.

(** [\b]: exactly one of the two neighbours is a word character. *)
Definition at_boundary (c : cursor) : bool :=
  xorb (word_opt (c_prev c)) (word_opt (hd_error (c_rest c))).

Definition may_repeat (hi : option nat) : bool :=
  match hi with
  | Some O => false
  | _ => true
  end.

(** Greedy repetition of a class: take one more character when the
    class and the upper bound allow it, and fall back to stopping here
    when the lower bound is already met. *)
Fixpoint rep (p : ascii -> bool) (lo : nat) (hi : option nat)
         (pos : nat) (prev : option ascii) (rest : str)
         (k : cursor -> option nat) {struct rest} : option nat :=
  let stop := match lo with
              | O => k (Cur pos prev rest)
              | S _ => None
              end in
  match rest with
  | a :: rest' =>
      if p a && may_repeat hi then
        match rep p (pred lo) (option_map pred hi) (S pos) (Some a) rest' k with
        | Some e => Some e
        | None => stop
        end
      else stop
  | [] => stop
  end.

(** [exec r c k]: match [r] at [c] and continue with [k]; the result is
    the end offset of the whole match, or [None] after all choices have
    been tried. *)
Fixpoint exec (r : regex) (c : cursor) (k : cursor -> option nat)
  : option nat :=
  match r with
  | Eps => k c
  | Chr p =>
      match c_rest c with
      | a :: rest' =>
          if p a then k (Cur (S (c_pos c)) (Some a) rest') else None
      | [] => None
      end
  | Bnd => if at_boundary c then k c else None
  | Seq r1 r2 => exec r1 c (fun c1 => exec r2 c1 k)
  | Alt r1 r2 =>
      match exec r1 c k with
      | Some e => Some e
      | None => exec r2 c k
      end
  | Opt r1 =>
      match exec r1 c k with
      | Some e => Some e
      | None => k c
      end
  | Rep p lo hi => rep p lo hi (c_pos c) (c_prev c) (c_rest c) k
  end.

(** [pattern.match] at one position. *)
Definition match_at (r : regex) (c : cursor) : option nat :=
  exec r c (fun c' => Some (c_pos c')).

(** A match object: its span and the subject it was found in. *)
Record Match : Type := MkMatch {
  m_start : nat;
  m_end : nat;
  m_string : str
}.

(** [match.group()] *)
Definition group (m : Match) : str :=
  Py.slice (m_string m) (Z.of_nat (m_start m)) (Z.of_nat (m_end m)).

(** The scan of [re.finditer]: try every position from left to right;
    after a match, resume at its end ([skip] counts the positions still
    covered by the last match).  None of the patterns of this module
    matches the empty string, so no rule for empty matches is needed:
    after one the scan simply moves on. *)
Fixpoint scan_from (r : regex) (text : str) (pos : nat)
         (prev : option ascii) (rest : str) (skip : nat) : list Match :=
  match skip with
  | S skip' =>
      match rest with
      | a :: rest' => scan_from r text (S pos) (Some a) rest' skip'
      | [] => []
      end
  | O =>
      match match_at r (Cur pos prev rest) with
      | Some e =>
          MkMatch pos e text ::
          match rest with
          | a :: rest' => scan_from r text (S pos) (Some a) rest' (e - pos - 1)
          | [] => []
          end
      | None =>
          match rest with
          | a :: rest' => scan_from r text (S pos) (Some a) rest' 0
          | [] => []
          end
      end
  end.

(** [re.finditer(pattern, text)] *)
Definition finditer (r : regex) (text : str) : list Match :=
  scan_from r text 0 None text 0.

(** [re.IGNORECASE]: a character matches when its lower-case or its
    upper-case form does. *)
Definition fold_case (p : ascii -> bool) (a : ascii) : bool :=
  p (Char.lower a) || p (Char.upper a).

Fixpoint ignorecase (r : regex) : regex :=
  match r with
  | Eps => Eps
  | Chr p => Chr (fold_case p)
  | Bnd => Bnd
  | Seq r1 r2 => Seq (ignorecase r1) (ignorecase r2)
  | Alt r1 r2 => Alt (ignorecase r1) (ignorecase r2)
  | Opt r1 => Opt (ignorecase r1)
  | Rep p lo hi => Rep (fold_case p) lo hi
  end.

(** [re.sub(r'\D', '', s)] *)
Definition remove_non_digits (s : str) : str := filter Char.isdigit s.

(** [re.sub(r'\d', 'X', s)] *)
Definition replace_digits (x : ascii) (s : str) : str :=
  map (fun a => if Char.isdigit a then x else a) s.

(** Pattern-building helpers. *)
Definition lit (c : ascii) : regex := Chr (Char.is_chr c).

Fixpoint word (s : str) : regex :=
  match s with
  | [] => Eps
  | [a] => lit a
  | a :: s' => Seq (lit a) (word s')
  end.

Fixpoint cat (rs : list regex) : regex :=
  match rs with
  | [] => Eps
  | [r] => r
  | r :: rs' => Seq r (cat rs')
  end.

Fixpoint alt (rs : list regex) : regex :=
  match rs with
  | [] => Chr (fun _ => false)
  | [r] => r
  | r :: rs' => Alt r (alt rs')
  end.

Definition one_of (ps : list (ascii -> bool)) (a : ascii) : bool :=
  existsb (fun p => p a) ps.

Definition times (lo hi : nat) (p : ascii -> bool) : regex :=
  Rep p lo (Some hi).
Definition exactly (n : nat) (p : ascii -> bool) : regex := times n n p.
Definition at_least (n : nat) (p : ascii -> bool) : regex := Rep p n None.
Definition plus (p : ascii -> bool) : regex := at_least 1 p.

End Re.

(* ------------------------------------------------------------------ *)
(** * The pattern constants                                            *)
(* ------------------------------------------------------------------ *)

Import Re.

Definition digit : ascii -> bool := Char.isdigit.
Definition dash : ascii -> bool := Char.is_chr "-".

(** [[-.\s]] *)
Definition phone_sep : ascii -> bool :=
  one_of [Char.is_chr "-"; Char.is_chr "."; Char.isspace].

(** [[-\s]] *)
Definition card_sep : ascii -> bool := one_of [Char.is_chr "-"; Char.isspace].

(** [[-/]] *)
Definition date_sep : ascii -> bool := one_of [Char.is_chr "-"; Char.is_chr "/"].

(** [\b\d{3}-?\d{2}-?\d{4}\b] *)
Definition SSN_PATTERN : regex :=
  cat [Bnd; exactly 3 digit; Opt (Chr dash); exactly 2 digit;
       Opt (Chr dash); exactly 4 digit; Bnd].

(** [\b(\+?1[-.\s]?)?(\(?\d{3}\)?[-.\s]?)?\d{3}[-.\s]?\d{4}\b] *)
Definition PHONE_PATTERN : regex :=
  cat [Bnd;
       Opt (cat [Opt (lit "+"); lit "1"; Opt (Chr phone_sep)]);
       Opt (cat [Opt (lit "("); exactly 3 digit; Opt (lit ")");
                 Opt (Chr phone_sep)]);
       exactly 3 digit; Opt (Chr phone_sep); exactly 4 digit; Bnd].

(** [[A-Za-z0-9._%+-]] *)
Definition email_local : ascii -> bool :=
  one_of [Char.isupper_az; Char.islower_az; Char.isdigit; Char.is_chr ".";
          Char.is_chr "_"; Char.is_chr "%"; Char.is_chr "+"; Char.is_chr "-"].

(** [[A-Za-z0-9.-]] *)
Definition email_domain : ascii -> bool :=
  one_of [Char.isupper_az; Char.islower_az; Char.isdigit; Char.is_chr ".";
          Char.is_chr "-"].

(** [[A-Z|a-z]]: the bar is a member of the class. *)
Definition email_tld : ascii -> bool :=
  one_of [Char.isupper_az; Char.is_chr "|"; Char.islower_az].

(** [\b[A-Za-z0-9._%+-]+@[A-Za-z0-9.-]+\.[A-Z|a-z]{2,}\b] *)
Definition EMAIL_PATTERN : regex :=
  cat [Bnd; plus email_local; lit "@"; plus email_domain; lit ".";
       at_least 2 email_tld; Bnd].

(** [\b\d{4}[-\s]?\d{4}[-\s]?\d{4}[-\s]?\d{3,4}\b] *)
Definition CREDIT_CARD_PATTERN : regex :=
  cat [Bnd; exactly 4 digit; Opt (Chr card_sep); exactly 4 digit;
       Opt (Chr card_sep); exactly 4 digit; Opt (Chr card_sep);
       times 3 4 digit; Bnd].

(** [\b(0?[1-9]|1[0-2])[-/](0?[1-9]|[12][0-9]|3[01])[-/](19|20)\d{2}\b] *)
Definition DOB_PATTERN : regex :=
  cat [Bnd;
       alt [cat [Opt (lit "0"); Chr (Char.between 49 57)];
            cat [lit "1"; Chr (Char.between 48 50)]];
       Chr date_sep;
       alt [cat [Opt (lit "0"); Chr (Char.between 49 57)];
            cat [Chr (Char.between 49 50); Chr (Char.between 48 57)];
            cat [lit "3"; Chr (Char.between 48 49)]];
       Chr date_sep;
       alt [word "19"; word "20"];
       exactly 2 digit; Bnd].

(** [\b[A-Z]{1,2}\d{6,8}\b] *)
Definition DRIVERS_LICENSE_PATTERN : regex :=
  cat [Bnd; times 1 2 Char.isupper_az; times 6 8 digit; Bnd].

(** [\b\d{5}(-\d{4})?\b] *)
Definition ZIP_PATTERN : regex :=
  cat [Bnd; exactly 5 digit; Opt (cat [lit "-"; exactly 4 digit]); Bnd].

(** [\b[A-Z][a-z]+\s+[A-Z][a-z]+\b], local to [find_names_ai_style] *)
Definition name_pattern : regex :=
  cat [Bnd; Chr Char.isupper_az; plus Char.islower_az; plus Char.isspace;
       Chr Char.isupper_az; plus Char.islower_az; Bnd].

Definition street_types : list str :=
  map list_ascii_of_string
      ["Street"; "St"; "Avenue"; "Ave"; "Road"; "Rd"; "Drive"; "Dr"; "Lane";
       "Ln"; "Boulevard"; "Blvd"; "Court"; "Ct"; "Way"].

(** [\b\d+\s+[A-Z][a-z]+\s+(Street|St|...|Way)\b], local to
    [find_addresses_ai_style], which compiles it with [re.IGNORECASE] *)
Definition address_pattern : regex :=
  cat [Bnd; plus digit; plus Char.isspace; Chr Char.isupper_az;
       plus Char.islower_az; plus Char.isspace;
       alt (map word street_types); Bnd].

(* ------------------------------------------------------------------ *)
(** * Found entities and the recognizers                               *)
(* ------------------------------------------------------------------ *)

(** The dictionary each recognizer appends: keys [type], [value],
    [start], [end] and [risk]. *)
Record Entity : Type := MkEntity {
  e_type : str;
  e_value : str;
  e_start : Z;
  e_end : Z;
  e_risk : str
}.

Definition start_of (m : Match) : Z := Z.of_nat (m_start m).
Definition end_of (m : Match) : Z := Z.of_nat (m_end m).

(** [len(set(s))] *)
Definition distinct_count (s : str) : Z :=
  Z.of_nat (List.length (nodup ascii_dec s)).

Definition ssn_entity (m : Match) : Entity :=
  MkEntity "ssn" (group m) (start_of m) (end_of m) "critical".

Definition find_social_security_numbers (text : str) : list Entity :=
  fold_left
    (fun entities m =>
       let ssn := group m in
       let digits_only := remove_non_digits ssn in
       if (1 <? distinct_count digits_only)%Z
       then entities ++ [ssn_entity m]
       else entities)
    (finditer SSN_PATTERN text) [].

Definition phone_entity (m : Match) : Entity :=
  MkEntity "phone" (Py.strip (group m)) (start_of m) (end_of m) "high".

Definition find_phone_numbers (text : str) : list Entity :=
  fold_left
    (fun entities m =>
       let phone := group m in
       let digits := remove_non_digits phone in
       if (10 <=? Py.len digits)%Z && (Py.len digits <=? 11)%Z
       then entities ++ [phone_entity m]
       else entities)
    (finditer PHONE_PATTERN text) [].

Definition email_entity (m : Match) : Entity :=
  MkEntity "email" (group m) (start_of m) (end_of m) "medium".

Definition find_email_addresses (text : str) : list Entity :=
  fold_left (fun entities m => entities ++ [email_entity m])
            (finditer EMAIL_PATTERN text) [].

(** [[int(d) for d in str(n)]]; the caller passes [str(n)]. *)
Fixpoint digits_of (s : str) : result (list Z) :=
  match s with
  | [] => Ok []
  | d :: s' =>
      v <- Py.int [d] ;;
      vs <- digits_of s' ;;
      Ok (v :: vs)
  end.

(** [l[i::-2]] read on the reversed list: every other element. *)
Fixpoint every_other {A : Type} (l : list A) : list A :=
  match l with
  | [] => []
  | a :: t =>
      a :: match t with
           | [] => []
           | _ :: t' => every_other t'
           end
  end.

Definition luhn_check (card_number : str) : result bool :=
  digits <- digits_of card_number ;;
  let odd_digits := every_other (rev digits) in
  let even_digits := every_other (tl (rev digits)) in
  checksum <-
    for_each even_digits (Py.sum odd_digits)
      (fun checksum d =>
         ds <- digits_of (Py.str_of_int (d * 2)) ;;
         Ok (checksum + Py.sum ds)%Z) ;;
  Ok (checksum mod 10 =? 0)%Z.

Definition card_entity (m : Match) : Entity :=
  MkEntity "credit_card" (group m) (start_of m) (end_of m) "critical".

Definition find_credit_cards (text : str) : result (list Entity) :=
  for_each (finditer CREDIT_CARD_PATTERN text) []
    (fun entities m =>
       let card_num := group m in
       let digits := remove_non_digits card_num in
       if (13 <=? Py.len digits)%Z && (Py.len digits <=? 16)%Z
       then valid <- luhn_check digits ;;
            Ok (if valid then entities ++ [card_entity m] else entities)
       else Ok entities).

Definition dob_entity (m : Match) : Entity :=
  MkEntity "dob" (group m) (start_of m) (end_of m) "medium".

Definition find_dates_of_birth (text : str) : result (list Entity) :=
  for_each (finditer DOB_PATTERN text) []
    (fun entities m =>
       let date_str := group m in
       year <- Py.int (if Py.contains "/" date_str
                       then Py.last_item (Py.split_on "/" date_str)
                       else Py.last_item (Py.split_on "-" date_str)) ;;
       Ok (if (1940 <=? year)%Z && (year <=? 2015)%Z
           then entities ++ [dob_entity m]
           else entities)).

Definition license_entity (m : Match) : Entity :=
  MkEntity "drivers_license" (group m) (start_of m) (end_of m) "high".

Definition find_drivers_licenses (text : str) : list Entity :=
  fold_left (fun entities m => entities ++ [license_entity m])
            (finditer DRIVERS_LICENSE_PATTERN text) [].

Definition zip_entity (m : Match) : Entity :=
  MkEntity "zip" (group m) (start_of m) (end_of m) "low".

Definition find_zip_codes (text : str) : list Entity :=
  fold_left (fun entities m => entities ++ [zip_entity m])
            (finditer ZIP_PATTERN text) [].

Definition common_words : list str :=
  map list_ascii_of_string
      ["The"; "This"; "That"; "With"; "From"; "Have"; "Been"].

Definition name_entity (m : Match) : Entity :=
  MkEntity "name" (group m) (start_of m) (end_of m) "medium".

Definition find_names_ai_style (text : str) : list Entity :=
  fold_left
    (fun entities m =>
       let name := group m in
       if negb (existsb (fun word => existsb (Py.str_eqb word) (Py.split name))
                        common_words)
       then entities ++ [name_entity m]
       else entities)
    (finditer name_pattern text) [].

Definition address_entity (m : Match) : Entity :=
  MkEntity "address" (group m) (start_of m) (end_of m) "high".

Definition find_addresses_ai_style (text : str) : list Entity :=
  fold_left (fun entities m => entities ++ [address_entity m])
            (finditer (ignorecase address_pattern) text) [].

Definition scan_text_for_pii (text_content : str) : result (list Entity) :=
  let found_entities := [] in
  let found_entities :=
    found_entities ++ find_social_security_numbers text_content in
  let found_entities := found_entities ++ find_phone_numbers text_content in
  let found_entities := found_entities ++ find_email_addresses text_content in
  cards <- find_credit_cards text_content ;;
  let found_entities := found_entities ++ cards in
  dobs <- find_dates_of_birth text_content ;;
  let found_entities := found_entities ++ dobs in
  let found_entities := found_entities ++ find_drivers_licenses text_content in
  let found_entities := found_entities ++ find_zip_codes text_content in
  let found_entities := found_entities ++ find_names_ai_style text_content in
  let found_entities :=
    found_entities ++ find_addresses_ai_style text_content in
  Ok found_entities.

(* ------------------------------------------------------------------ *)
(** * Risk level                                                       *)
(* ------------------------------------------------------------------ *)

Definition risk_weights : list (str * Z) :=
  [("ssn" : str, 30); ("credit_card" : str, 30); ("drivers_license" : str, 20);
   ("phone" : str, 15); ("address" : str, 15); ("email" : str, 10);
   ("dob" : str, 10); ("name" : str, 5); ("zip" : str, 5)]%Z.

(** [d[key]] when [key in d] *)
Fixpoint dict_get (d : list (str * Z)) (key : str) : option Z :=
  match d with
  | [] => None
  | (k, v) :: d' => if Py.str_eqb key k then Some v else dict_get d' key
  end.

Definition calculate_risk_level (found_entities : list Entity) : str * Z :=
  match found_entities with
  | [] => ("Safe" : str, 0%Z)
  | _ =>
      let total_score :=
        fold_left
          (fun total_score entity =>
             match dict_get risk_weights (e_type entity) with
             | Some w => (total_score + w)%Z
             | None => total_score
             end)
          found_entities 0%Z in
      let total_score := Z.min total_score 100 in
      let risk_level : str :=
        if (60 <=? total_score)%Z then "Critical"
        else if (40 <=? total_score)%Z then "High"
        else if (20 <=? total_score)%Z then "Medium"
        else "Low" in
      (risk_level, total_score)
  end.

(* ------------------------------------------------------------------ *)
(** * Masking                                                          *)
(* ------------------------------------------------------------------ *)

Definition mask_email (email : str) : str :=
  match Py.split_on "@" email with
  | [username; domain] =>
      match username with
      | first :: _ => ([first] ++ "***") ++ "@" ++ domain
      | [] => "***@***.com"
      end
  | _ => "***@***.com"
  end.

Definition mask_phone (phone : str) : str :=
  let digits := remove_non_digits phone in
  if (2 <=? Py.len digits)%Z then
    let last_two := Py.slice_from digits (-2) in
    if Py.contains "(" phone then "(***) ***-**" ++ last_two
    else if Py.contains "-" phone then "***-***-**" ++ last_two
    else "********" ++ last_two
  else "***-***-****".

Definition mask_ssn (ssn : str) : str :=
  let digits := remove_non_digits ssn in
  if (2 <=? Py.len digits)%Z then
    let last_two := Py.slice_from digits (-2) in
    if Py.contains "-" ssn then "***-**-**" ++ last_two
    else "*******" ++ last_two
  else "***-**-****".

Definition mask_credit_card (card : str) : str :=
  let digits := remove_non_digits card in
  if (2 <=? Py.len digits)%Z then
    let last_two := Py.slice_from digits (-2) in
    if Py.contains " " card then "**** **** **** **" ++ last_two
    else if Py.contains "-" card then "****-****-****-**" ++ last_two
    else "**************" ++ last_two
  else "****-****-****-****".

Definition mask_drivers_license (license_num : str) : str :=
  replace_digits "X" license_num.

Definition mask_name (name : str) : str :=
  let masked_words :=
    fold_left
      (fun masked_words word =>
         match word with
         | first :: _ => masked_words ++ [[first] ++ "***"]
         | [] => masked_words
         end)
      (Py.split name) [] in
  Py.join " " masked_words.

(** [sorted(l, key=lambda x: x["start"], reverse=True)]: descending by
    [start], entities with equal [start] keep their order. *)
Fixpoint insert_by_start (x : Entity) (l : list Entity) : list Entity :=
  match l with
  | [] => [x]
  | h :: t =>
      if (e_start x <? e_start h)%Z then h :: insert_by_start x t
      else x :: l
  end.

Definition sorted_by_start_reverse (l : list Entity) : list Entity :=
  fold_right insert_by_start [] l.

Definition masked_value_of (entity : Entity) : str :=
  let entity_type := e_type entity in
  let original_value := e_value entity in
  if Py.str_eqb entity_type "email" then mask_email original_value
  else if Py.str_eqb entity_type "phone" then mask_phone original_value
  else if Py.str_eqb entity_type "ssn" then mask_ssn original_value
  else if Py.str_eqb entity_type "credit_card"
       then mask_credit_card original_value
  else if Py.str_eqb entity_type "drivers_license"
       then mask_drivers_license original_value
  else if Py.str_eqb entity_type "name" then mask_name original_value
  else if Py.str_eqb entity_type "address" then "<ADDRESS>"
  else if Py.str_eqb entity_type "zip" then "<ZIP>"
  else if Py.str_eqb entity_type "dob" then "mm/dd/yyyy"
  else "<REDACTED>".

Definition mask_sensitive_data (original_text : str)
           (found_entities : list Entity) : str :=
  let sorted_entities := sorted_by_start_reverse found_entities in
  fold_left
    (fun masked_text entity =>
       Py.slice_to masked_text (e_start entity)
       ++ masked_value_of entity
       ++ Py.slice_from masked_text (e_end entity))
    sorted_entities original_text.

(* ------------------------------------------------------------------ *)
(** * Specification-side definitions                                   *)
(* ------------------------------------------------------------------ *)

(** ** The language of a pattern

    [lang r prev w nxt]: the word [w] is matched by [r] when the
    character before it is [prev] and the text continues with [nxt]. *)

Definition after (prev : option ascii) (w : str) : option ascii :=
  fold_left (fun _ a => Some a) w prev.

Definition within (hi : option nat) (n : nat) : Prop :=
  match hi with
  | Some h => n <= h
  | None => True
  end.

Inductive lang : regex -> option ascii -> str -> str -> Prop :=
| L_Eps prev nxt : lang Eps prev [] nxt
| L_Chr p a prev nxt : p a = true -> lang (Chr p) prev [a] nxt
| L_Bnd prev nxt :
    xorb (word_opt prev) (word_opt (hd_error nxt)) = true ->
    lang Bnd prev [] nxt
| L_Seq r1 r2 prev w1 w2 nxt :
    lang r1 prev w1 (w2 ++ nxt) ->
    lang r2 (after prev w1) w2 nxt ->
    lang (Seq r1 r2) prev (w1 ++ w2) nxt
| L_AltL r1 r2 prev w nxt : lang r1 prev w nxt -> lang (Alt r1 r2) prev w nxt
| L_AltR r1 r2 prev w nxt : lang r2 prev w nxt -> lang (Alt r1 r2) prev w nxt
| L_OptSome r prev w nxt : lang r prev w nxt -> lang (Opt r) prev w nxt
| L_OptNone r prev nxt : lang (Opt r) prev [] nxt
| L_Rep p lo hi prev w nxt :
    Forall (fun a => p a = true) w ->
    lo <= List.length w ->
    within hi (List.length w) ->
    lang (Rep p lo hi) prev w nxt.

(** The least number of characters a match of [r] consumes. *)
Fixpoint minlen (r : regex) : nat :=
  match r with
  | Eps | Bnd | Opt _ => 0
  | Chr _ => 1
  | Seq r1 r2 => minlen r1 + minlen r2
  | Alt r1 r2 => Nat.min (minlen r1) (minlen r2)
  | Rep _ lo _ => lo
  end.

(** Every non-empty match of [r] starts with a character in [Q]. *)
Fixpoint starts (Q : ascii -> Prop) (r : regex) : Prop :=
  match r with
  | Eps | Bnd => True
  | Chr p | Rep p _ _ => forall a, p a = true -> Q a
  | Seq r1 r2 => starts Q r1 /\ (minlen r1 = 0 -> starts Q r2)
  | Alt r1 r2 => starts Q r1 /\ starts Q r2
  | Opt r1 => starts Q r1
  end.

(** Every non-empty match of [r] ends with a character in [Q]. *)
Fixpoint ends (Q : ascii -> Prop) (r : regex) : Prop :=
  match r with
  | Eps | Bnd => True
  | Chr p | Rep p _ _ => forall a, p a = true -> Q a
  | Seq r1 r2 => ends Q r2 /\ (minlen r2 = 0 -> ends Q r1)
  | Alt r1 r2 => ends Q r1 /\ ends Q r2
  | Opt r1 => ends Q r1
  end.

(** A match of [r] in [text]: the text splits around the matched word. *)
Definition match_of (r : regex) (text : str) (m : Match) : Prop :=
  m_string m = text /\
  exists pre w post,
    text = pre ++ w ++ post /\
    m_start m = List.length pre /\
    m_end m = List.length pre + List.length w /\
    lang r (after None pre) w post.

(** Where an entity of a recognizer comes from. *)
Definition from_match (r : regex) (mk : Match -> Entity) (text : str)
           (f : Entity) : Prop :=
  exists m, match_of r text m /\ f = mk m.

(** A finding is well placed in [text]: its offsets are in range and
    delimit its value. *)
Definition well_placed (text : str) (f : Entity) : Prop :=
  Py.slice text (e_start f) (e_end f) = e_value f /\
  (0 <= e_start f)%Z /\ (e_start f < e_end f)%Z /\
  (e_end f <= Py.len text)%Z.

(** Every 8-bit character, for deciding facts about classes. *)
Definition all_chars : list ascii := map ascii_of_nat (List.seq 0 256).

(** No character belongs to both classes. *)
Definition disjoint (p q : ascii -> bool) : bool :=
  forallb (fun a => negb (p a && q a)) all_chars.

(** ** The weight table, as the specification lists it *)

Definition category_weight (category : str) : Z :=
  if Py.str_eqb category "ssn" then 30
  else if Py.str_eqb category "credit_card" then 30
  else if Py.str_eqb category "drivers_license" then 20
  else if Py.str_eqb category "phone" then 15
  else if Py.str_eqb category "address" then 15
  else if Py.str_eqb category "email" then 10
  else if Py.str_eqb category "dob" then 10
  else if Py.str_eqb category "name" then 5
  else if Py.str_eqb category "zip" then 5
  else 0.

Definition weight_sum (findings : list Entity) : Z :=
  fold_right (fun f acc => (category_weight (e_type f) + acc)%Z) 0%Z findings.

(** The level the code assigns to a clamped score. *)
Definition level_of (score : Z) : str :=
  if (60 <=? score)%Z then "Critical"
  else if (40 <=? score)%Z then "High"
  else if (20 <=? score)%Z then "Medium"
  else "Low".

(** ** The Luhn checksum, as the specification words it *)

(** The digit sum of a doubled digit (a number below 100). *)
Definition digit_sum (n : Z) : Z := (n / 10 + n mod 10)%Z.

(** The total over the digits listed from the end; [position] is the
    1-based position from the end of the first digit of the list. *)
Fixpoint luhn_total (from_end : list Z) (position : nat) : Z :=
  match from_end with
  | [] => 0
  | d :: rest =>
      ((if Nat.odd position then d else digit_sum (2 * d))
       + luhn_total rest (S position))%Z
  end.

Definition luhn_passes (digits : str) : bool :=
  (luhn_total (rev (map Char.digit_value digits)) 1 mod 10 =? 0)%Z.

Definition card_accepted (m : Match) : bool :=
  let digits := remove_non_digits (group m) in
  ((13 <=? Py.len digits)%Z && (Py.len digits <=? 16)%Z)
  && luhn_passes digits.

(** Sums used to relate the loop of [luhn_check] to [luhn_total]. *)
Definition plain_sum (l : list Z) : Z := fold_right Z.add 0%Z l.

Definition doubled_sum (l : list Z) : Z :=
  fold_right (fun d acc => (digit_sum (2 * d) + acc)%Z) 0%Z l.

Definition is_digit_value (d : Z) : Prop := (0 <= d)%Z /\ (d <= 9)%Z.

(** ** Two different digit characters in a digit string *)

Definition has_two_distinct (digits : str) : bool :=
  existsb (fun a => existsb (fun b => negb (Ascii.eqb a b)) digits) digits.

Definition ssn_accepted (m : Match) : bool :=
  has_two_distinct (remove_non_digits (group m)).

(** ** Inputs of the worked examples *)

Definition contact_text : str :=
  "Contact me at john@example.com or call 555-123-4567".

Definition contact_phone : Entity :=
  MkEntity "phone" "555-123-4567" 39 51 "high".

Definition contact_email : Entity :=
  MkEntity "email" "john@example.com" 14 30 "medium".

Definition zip4_text : str := "12345-6789".

Definition zip4_ssn : Entity := MkEntity "ssn" "12345-6789" 0 10 "critical".

Definition zip4_zip : Entity := MkEntity "zip" "12345-6789" 0 10 "low".

Definition mixed_date : str := "03/15-1999".

Definition visa_test_card : str := "4111 1111 1111 1111".

Definition visa_bad_check_digit : str := "4111 1111 1111 1112".

(* ------------------------------------------------------------------ *)
(** * Further specification-side definitions                           *)
(* ------------------------------------------------------------------ *)

(** The severity label each recognizer attaches to its category. *)
Definition category_severity : list (str * str) :=
  [("ssn" : str, "critical" : str); ("phone" : str, "high" : str);
   ("email" : str, "medium" : str); ("credit_card" : str, "critical" : str);
   ("dob" : str, "medium" : str); ("drivers_license" : str, "high" : str);
   ("zip" : str, "low" : str); ("name" : str, "medium" : str);
   ("address" : str, "high" : str)].

(** The recognizer a finding comes from, with the raw match behind it. *)
Definition scan_source (text : str) (f : Entity) : Prop :=
  from_match SSN_PATTERN ssn_entity text f \/
  from_match PHONE_PATTERN phone_entity text f \/
  from_match EMAIL_PATTERN email_entity text f \/
  from_match CREDIT_CARD_PATTERN card_entity text f \/
  from_match DOB_PATTERN dob_entity text f \/
  from_match DRIVERS_LICENSE_PATTERN license_entity text f \/
  from_match ZIP_PATTERN zip_entity text f \/
  from_match name_pattern name_entity text f \/
  from_match (ignorecase address_pattern) address_entity text f.

(** The digits a masked number still shows: the last two of the
    original, when it has at least two. *)
Definition digits_shown (original : str) : str :=
  let digits := remove_non_digits original in
  if (2 <=? Py.len digits)%Z then Py.slice_from digits (-2) else [].

(** Descending by [start]. *)
Definition starts_descend (a b : Entity) : Prop := (e_start b <= e_start a)%Z.

(** The entities of a list that start at [s], in list order. *)
Definition starting_at (s : Z) (l : list Entity) : list Entity :=
  filter (fun e => (e_start e =? s)%Z) l.

(** Findings listed from left to right, from offset [lo] on, inside a text
    of [n] characters: no span is empty and no two spans overlap. *)
Fixpoint separated (n lo : Z) (fs : list Entity) : Prop :=
  match fs with
  | [] => True
  | f :: rest =>
      (lo <= e_start f)%Z /\ (e_start f < e_end f)%Z /\ (e_end f <= n)%Z /\
      separated n (e_end f) rest
  end.

(** The text from [lo] on, with every span of [fs] replaced by the mask
    of its finding. *)
Fixpoint splice (text : str) (lo : Z) (fs : list Entity) : str :=
  match fs with
  | [] => Py.slice_from text lo
  | f :: rest =>
      Py.slice text lo (e_start f) ++ masked_value_of f
      ++ splice text (e_end f) rest
  end.

(** The same for raw matches of one pattern. *)
Fixpoint match_chain (n lo : nat) (ms : list Match) : Prop :=
  match ms with
  | [] => True
  | m :: rest =>
      lo <= m_start m /\ m_start m < m_end m /\ m_end m <= n /\
      match_chain n (m_end m) rest
  end.

(** One replacement step of [mask_sensitive_data]. *)
Definition replace_span (masked_text : str) (entity : Entity) : str :=
  Py.slice_to masked_text (e_start entity)
  ++ masked_value_of entity
  ++ Py.slice_from masked_text (e_end entity).

(** A recognizer keeps the span of the match it reports. *)
Definition keeps_span (mk : Match -> Entity) : Prop :=
  forall m, e_start (mk m) = start_of m /\ e_end (mk m) = end_of m.

(** What the nine recognizers return, in the order of the scan. *)
Definition recognizer_outputs (text : str) : list (result (list Entity)) :=
  [Ok (find_social_security_numbers text); Ok (find_phone_numbers text);
   Ok (find_email_addresses text); find_credit_cards text;
   find_dates_of_birth text; Ok (find_drivers_licenses text);
   Ok (find_zip_codes text); Ok (find_names_ai_style text);
   Ok (find_addresses_ai_style text)].

(** The year test of the date recognizer on one match; a year that
    cannot be read counts as out of range. *)
Definition dob_year_ok (m : Match) : bool :=
  let date_str := group m in
  match Py.int (if Py.contains "/" date_str
                then Py.last_item (Py.split_on "/" date_str)
                else Py.last_item (Py.split_on "-" date_str)) with
  | Ok year => (1940 <=? year)%Z && (year <=? 2015)%Z
  | Raise _ => false
  end.

(** What the digit [d] at position [position] from the end adds to the
    Luhn total. *)
Definition luhn_term (position : nat) (d : Z) : Z :=
  if Nat.odd position then d else digit_sum (2 * d).

(** A string of decimal digits. *)
Definition all_digits (s : str) : Prop := forallb Char.isdigit s = true.

(** The character of a digit value. *)
Definition digit_char (d : Z) : ascii := ascii_of_nat (48 + Z.to_nat d).

(** Every character of every match of [r] is in [Q]. *)
Fixpoint every (Q : ascii -> Prop) (r : regex) : Prop :=
  match r with
  | Eps | Bnd => True
  | Chr p | Rep p _ _ => forall a, p a = true -> Q a
  | Seq r1 r2 | Alt r1 r2 => every Q r1 /\ every Q r2
  | Opt r1 => every Q r1
  end.

(** A string without the character [c]. *)
Definition lacks (c : ascii) (s : str) : Prop := Py.contains c s = false.

(** The value of a string of decimal digits. *)
Definition decimal (s : str) : Z :=
  fold_left (fun acc a => (10 * acc + Char.digit_value a)%Z) s 0%Z.

(** A matched date that has a slash and whose second separator, the
    fifth character from the end, is a dash. *)
Definition slash_then_dash (date_str : str) : bool :=
  Py.contains "/" date_str
  && Char.is_chr "-" (nth (List.length date_str - 5) date_str " "%char).

(** The year of a matched date: its last four characters. *)
Definition year_of (date_str : str) : Z :=
  decimal (Py.slice_from date_str (-4)).

Definition year_in_range (m : Match) : bool :=
  (1940 <=? year_of (group m))%Z && (year_of (group m) <=? 2015)%Z.

(** The body of the loop of [find_dates_of_birth]. *)
Definition dob_step (entities : list Entity) (m : Match)
  : result (list Entity) :=
  let date_str := group m in
  year <- Py.int (if Py.contains "/" date_str
                  then Py.last_item (Py.split_on "/" date_str)
                  else Py.last_item (Py.split_on "-" date_str)) ;;
  Ok (if (1940 <=? year)%Z && (year <=? 2015)%Z
      then entities ++ [dob_entity m]
      else entities).

(** Every character of the first class belongs to the second. *)
Definition subclass (p q : ascii -> bool) : bool :=
  forallb (fun a => implb (p a) (q a)) all_chars.

(** One step of the loop of [find_dates_of_birth] on a date that can be
    read. *)
Definition dob_keep (entities : list Entity) (m : Match) : list Entity :=
  if year_in_range m then entities ++ [dob_entity m] else entities.

Definition bad_date (m : Match) : bool := slash_then_dash (group m).

(* ------------------------------------------------------------------ *)
(** * The scanning endpoint of [BackEnd/backend_main.py]               *)
(* ------------------------------------------------------------------ *)

(** An entry of the education database: keys [title], [risk],
    [why_risky] and [tips]. *)
Record EducationEntry : Type := MkEducation {
  ed_title : str;
  ed_risk : str;
  ed_why_risky : str;
  ed_tips : list str
}.

Definition education_database : list (str * EducationEntry) :=
  [("email" : str,
    MkEducation "Email Address Risk" "Medium"
      "Your email can be used to spam you, hack your accounts, or track you online."
      (map list_ascii_of_string
         ["Never share your email on public posts";
          "Use a separate email for signing up to websites";
          "Be careful who you give your email to"]));
   ("phone" : str,
    MkEducation "Phone Number Risk" "High"
      "Your phone number can be used to call or text you, track your location, or steal your identity."
      (map list_ascii_of_string
         ["Only share your number with people you trust";
          "Be aware of scam calls and texts";
          "Consider using messaging apps instead of giving out your number"]));
   ("ssn" : str,
    MkEducation "Social Security Number Risk" "Critical"
      "Your SSN can be used to steal your identity, open credit cards in your name, or commit fraud."
      (map list_ascii_of_string
         ["NEVER share your SSN online or with strangers";
          "Only provide it to trusted organizations when absolutely necessary";
          "Monitor your credit report for suspicious activity"]));
   ("credit_card" : str,
    MkEducation "Credit Card Risk" "Critical"
      "Someone can use your credit card number to make unauthorized purchases and steal money."
      (map list_ascii_of_string
         ["Never post pictures of your credit card";
          "Only enter card info on secure websites (https://)";
          "Report lost or stolen cards immediately"]));
   ("drivers_license" : str,
    MkEducation "Driver's License Risk" "High"
      "Your license number can be used for identity theft and contains personal information."
      (map list_ascii_of_string
         ["Don't post photos of your license on social media";
          "Cover your license number in photos";
          "Keep your physical license secure"]));
   ("name" : str,
    MkEducation "Full Name Risk" "Low-Medium"
      "Your name can be used to find more information about you online and track your activities."
      (map list_ascii_of_string
         ["Consider using a nickname on public profiles";
          "Be aware that your name is often publicly visible";
          "Combined with other info, names increase identity theft risk"]));
   ("address" : str,
    MkEducation "Physical Address Risk" "High"
      "Your address reveals where you live, which can lead to stalking, burglary, or unwanted visitors."
      (map list_ascii_of_string
         ["Never share your home address publicly";
          "Be careful about check-ins that reveal your location";
          "Consider using a P.O. box for online purchases"]));
   ("dob" : str,
    MkEducation "Date of Birth Risk" "Medium"
      "Your birthday is often used to verify your identity and can help hackers answer security questions."
      (map list_ascii_of_string
         ["Limit who can see your birthday on social media";
          "Don't use your real birthday for security questions";
          "Be aware that age can be calculated from your DOB"]))].

(** [d[key]] when [key in d], for the education database. *)
Fixpoint education_get (d : list (str * EducationEntry)) (key : str)
  : option EducationEntry :=
  match d with
  | [] => None
  | (k, v) :: d' => if Py.str_eqb key k then Some v else education_get d' key
  end.

(** The dictionary [generate_educational_content] returns: keys
    [summary], [details] and [total_items_found]. *)
Record EducationalInfo : Type := MkInfo {
  summary : str;
  details : list EducationEntry;
  total_items_found : Z
}.

(** One turn of the loop over the found entities; the state is
    [relevant_info] and the set [entity_types_found]. *)
Definition education_step (state : list EducationEntry * list str)
           (entity : Entity) : list EducationEntry * list str :=
  let (relevant_info, entity_types_found) := state in
  let entity_type := e_type entity in
  if negb (existsb (Py.str_eqb entity_type) entity_types_found) then
    let entity_types_found := entity_type :: entity_types_found in
    match education_get education_database entity_type with
    | Some info => (relevant_info ++ [info], entity_types_found)
    | None => (relevant_info, entity_types_found)
    end
  else (relevant_info, entity_types_found).

Definition generate_educational_content (found_entities : list Entity)
  : EducationalInfo :=
  let (relevant_info, _) :=
    fold_left education_step found_entities ([], []) in
  let count := Z.of_nat (List.length found_entities) in
  let summary : str :=
    if (count =? 0)%Z
    then "Great job! No sensitive information detected in your content."
    else if (count =? 1)%Z
    then "We found 1 piece of sensitive information. Review it below before sharing."
    else "We found " ++ Py.str_of_int count
         ++ " pieces of sensitive information. Review them below before sharing."
  in
  MkInfo summary relevant_info count.

(** A finding of the attachment scan: keys [type], [value], [location]
    and [risk]. *)
Record AttachmentFinding : Type := MkAttachment {
  a_type : str;
  a_value : str;
  a_location : str;
  a_risk : str
}.

Definition mock_attachment_scan (filename : option str)
  : list AttachmentFinding :=
  [MkAttachment "name" "Jennifer Martinez" "Page 1, Line 3" "Medium";
   MkAttachment "address" "456 Oak Street, Boston, MA 02101"
                "Page 1, Line 8" "High";
   MkAttachment "phone" "(617) 555-1234" "Page 2, Line 2" "High";
   MkAttachment "email" "jennifer.martinez@email.com" "Page 2, Line 5"
                "Medium";
   MkAttachment "dob" "03/15/2008" "Page 1, Line 12" "Medium"].

Record ScanRequest : Type := MkRequest {
  text_content : str;
  has_attachment : bool;
  attachment_name : option str
}.

Record ScanResponse : Type := MkResponse {
  found_entities : list Entity;
  risk_level : str;
  risk_score : Z;
  educational_info : EducationalInfo;
  masked_text : str;
  attachment_findings : option (list AttachmentFinding)
}.

(** How a call of the endpoint ends: with a response, with the
    [HTTPException] it raises itself, or with an exception of the scanner
    that it does not catch. *)
Inductive outcome : Type :=
| Responded (response : ScanResponse)
| HTTPException (status_code : Z) (detail : str)
| Uncaught (e : exn).

Definition max_length : Z := 100 * 1024.

Definition scan_content (request : ScanRequest) : outcome :=
  if (max_length <? Py.len (text_content request))%Z then
    HTTPException 400
      ("Text content too large. Maximum size is "
       ++ Py.str_of_int max_length ++ " characters.")
  else
    match scan_text_for_pii (text_content request) with
    | Raise e => Uncaught e
    | Ok found_entities =>
        let (risk_level, risk_score) := calculate_risk_level found_entities in
        let masked_text :=
          mask_sensitive_data (text_content request) found_entities in
        let educational_info := generate_educational_content found_entities in
        let attachment_findings :=
          if has_attachment request
          then Some (mock_attachment_scan (attachment_name request))
          else None in
        Responded (MkResponse found_entities risk_level risk_score
                              educational_info masked_text
                              attachment_findings)
    end.

(** The categories seen among the findings, as the loop collects them. *)
Definition education_state (fs : list Entity)
  : list EducationEntry * list str :=
  fold_left education_step fs ([], []).

(** ** Inputs of further examples *)

Definition name_text : str := "John Smith".

Definition name_finding : Entity := MkEntity "name" "John Smith" 0 10 "medium".

Definition card_body : str := "411111111111111".

Definition mixed_date_request : ScanRequest :=
  MkRequest mixed_date false None.

(* ------------------------------------------------------------------ *)
(** * The SSN recognizer on full Unicode text                          *)
(* ------------------------------------------------------------------ *)

(** The same recognizer with characters as Unicode code points, so that
    decimal digits of every script are in [\d].  The class tables are
    those of Unicode 14.0, which Python 3.11 carries; the matcher is the
    one of [Re] with code points for characters. *)
Module Uni.

Abbreviation ustr := (list N).

Definition in_ranges (table : list (N * N)) (c : N) : bool :=
  existsb (fun r => (fst r <=? c)%N && (c <=? snd r)%N) table.

(** [\d]: the decimal digits (general category Nd). *)
Definition decimal_ranges : list (N * N) :=
  [
   (48, 57); (1632, 1641); (1776, 1785); (1984, 1993); (2406, 2415);
   (2534, 2543); (2662, 2671); (2790, 2799); (2918, 2927); (3046, 3055);
   (3174, 3183); (3302, 3311); (3430, 3439); (3558, 3567); (3664, 3673);
   (3792, 3801); (3872, 3881); (4160, 4169); (4240, 4249); (6112, 6121);
   (6160, 6169); (6470, 6479); (6608, 6617); (6784, 6793); (6800, 6809);
   (6992, 7001); (7088, 7097); (7232, 7241); (7248, 7257); (42528, 42537);
   (43216, 43225); (43264, 43273); (43472, 43481); (43504, 43513); (43600, 43609);
   (44016, 44025); (65296, 65305); (66720, 66729); (68912, 68921); (69734, 69743);
   (69872, 69881); (69942, 69951); (70096, 70105); (70384, 70393); (70736, 70745);
   (70864, 70873); (71248, 71257); (71360, 71369); (71472, 71481); (71904, 71913);
   (72016, 72025); (72784, 72793); (73040, 73049); (73120, 73129); (92768, 92777);
   (92864, 92873); (93008, 93017); (120782, 120831); (123200, 123209); (123632, 123641);
   (125264, 125273); (130032, 130041)]%N.

(** [\w]: the alphanumeric characters and the underscore. *)
Definition word_ranges : list (N * N) :=
  [
   (48, 57); (65, 90); (95, 95); (97, 122); (170, 170);
   (178, 179); (181, 181); (185, 186); (188, 190); (192, 214);
   (216, 246); (248, 705); (710, 721); (736, 740); (748, 748);
   (750, 750); (880, 884); (886, 887); (890, 893); (895, 895);
   (902, 902); (904, 906); (908, 908); (910, 929); (931, 1013);
   (1015, 1153); (1162, 1327); (1329, 1366); (1369, 1369); (1376, 1416);
   (1488, 1514); (1519, 1522); (1568, 1610); (1632, 1641); (1646, 1647);
   (1649, 1747); (1749, 1749); (1765, 1766); (1774, 1788); (1791, 1791);
   (1808, 1808); (1810, 1839); (1869, 1957); (1969, 1969); (1984, 2026);
   (2036, 2037); (2042, 2042); (2048, 2069); (2074, 2074); (2084, 2084);
   (2088, 2088); (2112, 2136); (2144, 2154); (2160, 2183); (2185, 2190);
   (2208, 2249); (2308, 2361); (2365, 2365); (2384, 2384); (2392, 2401);
   (2406, 2415); (2417, 2432); (2437, 2444); (2447, 2448); (2451, 2472);
   (2474, 2480); (2482, 2482); (2486, 2489); (2493, 2493); (2510, 2510);
   (2524, 2525); (2527, 2529); (2534, 2545); (2548, 2553); (2556, 2556);
   (2565, 2570); (2575, 2576); (2579, 2600); (2602, 2608); (2610, 2611);
   (2613, 2614); (2616, 2617); (2649, 2652); (2654, 2654); (2662, 2671);
   (2674, 2676); (2693, 2701); (2703, 2705); (2707, 2728); (2730, 2736);
   (2738, 2739); (2741, 2745); (2749, 2749); (2768, 2768); (2784, 2785);
   (2790, 2799); (2809, 2809); (2821, 2828); (2831, 2832); (2835, 2856);
   (2858, 2864); (2866, 2867); (2869, 2873); (2877, 2877); (2908, 2909);
   (2911, 2913); (2918, 2927); (2929, 2935); (2947, 2947); (2949, 2954);
   (2958, 2960); (2962, 2965); (2969, 2970); (2972, 2972); (2974, 2975);
   (2979, 2980); (2984, 2986); (2990, 3001); (3024, 3024); (3046, 3058);
   (3077, 3084); (3086, 3088); (3090, 3112); (3114, 3129); (3133, 3133);
   (3160, 3162); (3165, 3165); (3168, 3169); (3174, 3183); (3192, 3198);
   (3200, 3200); (3205, 3212); (3214, 3216); (3218, 3240); (3242, 3251);
   (3253, 3257); (3261, 3261); (3293, 3294); (3296, 3297); (3302, 3311);
   (3313, 3314); (3332, 3340); (3342, 3344); (3346, 3386); (3389, 3389);
   (3406, 3406); (3412, 3414); (3416, 3425); (3430, 3448); (3450, 3455);
   (3461, 3478); (3482, 3505); (3507, 3515); (3517, 3517); (3520, 3526);
   (3558, 3567); (3585, 3632); (3634, 3635); (3648, 3654); (3664, 3673);
   (3713, 3714); (3716, 3716); (3718, 3722); (3724, 3747); (3749, 3749);
   (3751, 3760); (3762, 3763); (3773, 3773); (3776, 3780); (3782, 3782);
   (3792, 3801); (3804, 3807); (3840, 3840); (3872, 3891); (3904, 3911);
   (3913, 3948); (3976, 3980); (4096, 4138); (4159, 4169); (4176, 4181);
   (4186, 4189); (4193, 4193); (4197, 4198); (4206, 4208); (4213, 4225);
   (4238, 4238); (4240, 4249); (4256, 4293); (4295, 4295); (4301, 4301);
   (4304, 4346); (4348, 4680); (4682, 4685); (4688, 4694); (4696, 4696);
   (4698, 4701); (4704, 4744); (4746, 4749); (4752, 4784); (4786, 4789);
   (4792, 4798); (4800, 4800); (4802, 4805); (4808, 4822); (4824, 4880);
   (4882, 4885); (4888, 4954); (4969, 4988); (4992, 5007); (5024, 5109);
   (5112, 5117); (5121, 5740); (5743, 5759); (5761, 5786); (5792, 5866);
   (5870, 5880); (5888, 5905); (5919, 5937); (5952, 5969); (5984, 5996);
   (5998, 6000); (6016, 6067); (6103, 6103); (6108, 6108); (6112, 6121);
   (6128, 6137); (6160, 6169); (6176, 6264); (6272, 6276); (6279, 6312);
   (6314, 6314); (6320, 6389); (6400, 6430); (6470, 6509); (6512, 6516);
   (6528, 6571); (6576, 6601); (6608, 6618); (6656, 6678); (6688, 6740);
   (6784, 6793); (6800, 6809); (6823, 6823); (6917, 6963); (6981, 6988);
   (6992, 7001); (7043, 7072); (7086, 7141); (7168, 7203); (7232, 7241);
   (7245, 7293); (7296, 7304); (7312, 7354); (7357, 7359); (7401, 7404);
   (7406, 7411); (7413, 7414); (7418, 7418); (7424, 7615); (7680, 7957);
   (7960, 7965); (7968, 8005); (8008, 8013); (8016, 8023); (8025, 8025);
   (8027, 8027); (8029, 8029); (8031, 8061); (8064, 8116); (8118, 8124);
   (8126, 8126); (8130, 8132); (8134, 8140); (8144, 8147); (8150, 8155);
   (8160, 8172); (8178, 8180); (8182, 8188); (8304, 8305); (8308, 8313);
   (8319, 8329); (8336, 8348); (8450, 8450); (8455, 8455); (8458, 8467);
   (8469, 8469); (8473, 8477); (8484, 8484); (8486, 8486); (8488, 8488);
   (8490, 8493); (8495, 8505); (8508, 8511); (8517, 8521); (8526, 8526);
   (8528, 8585); (9312, 9371); (9450, 9471); (10102, 10131); (11264, 11492);
   (11499, 11502); (11506, 11507); (11517, 11517); (11520, 11557); (11559, 11559);
   (11565, 11565); (11568, 11623); (11631, 11631); (11648, 11670); (11680, 11686);
   (11688, 11694); (11696, 11702); (11704, 11710); (11712, 11718); (11720, 11726);
   (11728, 11734); (11736, 11742); (11823, 11823); (12293, 12295); (12321, 12329);
   (12337, 12341); (12344, 12348); (12353, 12438); (12445, 12447); (12449, 12538);
   (12540, 12543); (12549, 12591); (12593, 12686); (12690, 12693); (12704, 12735);
   (12784, 12799); (12832, 12841); (12872, 12879); (12881, 12895); (12928, 12937);
   (12977, 12991); (13312, 19903); (19968, 42124); (42192, 42237); (42240, 42508);
   (42512, 42539); (42560, 42606); (42623, 42653); (42656, 42735); (42775, 42783);
   (42786, 42888); (42891, 42954); (42960, 42961); (42963, 42963); (42965, 42969);
   (42994, 43009); (43011, 43013); (43015, 43018); (43020, 43042); (43056, 43061);
   (43072, 43123); (43138, 43187); (43216, 43225); (43250, 43255); (43259, 43259);
   (43261, 43262); (43264, 43301); (43312, 43334); (43360, 43388); (43396, 43442);
   (43471, 43481); (43488, 43492); (43494, 43518); (43520, 43560); (43584, 43586);
   (43588, 43595); (43600, 43609); (43616, 43638); (43642, 43642); (43646, 43695);
   (43697, 43697); (43701, 43702); (43705, 43709); (43712, 43712); (43714, 43714);
   (43739, 43741); (43744, 43754); (43762, 43764); (43777, 43782); (43785, 43790);
   (43793, 43798); (43808, 43814); (43816, 43822); (43824, 43866); (43868, 43881);
   (43888, 44002); (44016, 44025); (44032, 55203); (55216, 55238); (55243, 55291);
   (63744, 64109); (64112, 64217); (64256, 64262); (64275, 64279); (64285, 64285);
   (64287, 64296); (64298, 64310); (64312, 64316); (64318, 64318); (64320, 64321);
   (64323, 64324); (64326, 64433); (64467, 64829); (64848, 64911); (64914, 64967);
   (65008, 65019); (65136, 65140); (65142, 65276); (65296, 65305); (65313, 65338);
   (65345, 65370); (65382, 65470); (65474, 65479); (65482, 65487); (65490, 65495);
   (65498, 65500); (65536, 65547); (65549, 65574); (65576, 65594); (65596, 65597);
   (65599, 65613); (65616, 65629); (65664, 65786); (65799, 65843); (65856, 65912);
   (65930, 65931); (66176, 66204); (66208, 66256); (66273, 66299); (66304, 66339);
   (66349, 66378); (66384, 66421); (66432, 66461); (66464, 66499); (66504, 66511);
   (66513, 66517); (66560, 66717); (66720, 66729); (66736, 66771); (66776, 66811);
   (66816, 66855); (66864, 66915); (66928, 66938); (66940, 66954); (66956, 66962);
   (66964, 66965); (66967, 66977); (66979, 66993); (66995, 67001); (67003, 67004);
   (67072, 67382); (67392, 67413); (67424, 67431); (67456, 67461); (67463, 67504);
   (67506, 67514); (67584, 67589); (67592, 67592); (67594, 67637); (67639, 67640);
   (67644, 67644); (67647, 67669); (67672, 67702); (67705, 67742); (67751, 67759);
   (67808, 67826); (67828, 67829); (67835, 67867); (67872, 67897); (67968, 68023);
   (68028, 68047); (68050, 68096); (68112, 68115); (68117, 68119); (68121, 68149);
   (68160, 68168); (68192, 68222); (68224, 68255); (68288, 68295); (68297, 68324);
   (68331, 68335); (68352, 68405); (68416, 68437); (68440, 68466); (68472, 68497);
   (68521, 68527); (68608, 68680); (68736, 68786); (68800, 68850); (68858, 68899);
   (68912, 68921); (69216, 69246); (69248, 69289); (69296, 69297); (69376, 69415);
   (69424, 69445); (69457, 69460); (69488, 69505); (69552, 69579); (69600, 69622);
   (69635, 69687); (69714, 69743); (69745, 69746); (69749, 69749); (69763, 69807);
   (69840, 69864); (69872, 69881); (69891, 69926); (69942, 69951); (69956, 69956);
   (69959, 69959); (69968, 70002); (70006, 70006); (70019, 70066); (70081, 70084);
   (70096, 70106); (70108, 70108); (70113, 70132); (70144, 70161); (70163, 70187);
   (70272, 70278); (70280, 70280); (70282, 70285); (70287, 70301); (70303, 70312);
   (70320, 70366); (70384, 70393); (70405, 70412); (70415, 70416); (70419, 70440);
   (70442, 70448); (70450, 70451); (70453, 70457); (70461, 70461); (70480, 70480);
   (70493, 70497); (70656, 70708); (70727, 70730); (70736, 70745); (70751, 70753);
   (70784, 70831); (70852, 70853); (70855, 70855); (70864, 70873); (71040, 71086);
   (71128, 71131); (71168, 71215); (71236, 71236); (71248, 71257); (71296, 71338);
   (71352, 71352); (71360, 71369); (71424, 71450); (71472, 71483); (71488, 71494);
   (71680, 71723); (71840, 71922); (71935, 71942); (71945, 71945); (71948, 71955);
   (71957, 71958); (71960, 71983); (71999, 71999); (72001, 72001); (72016, 72025);
   (72096, 72103); (72106, 72144); (72161, 72161); (72163, 72163); (72192, 72192);
   (72203, 72242); (72250, 72250); (72272, 72272); (72284, 72329); (72349, 72349);
   (72368, 72440); (72704, 72712); (72714, 72750); (72768, 72768); (72784, 72812);
   (72818, 72847); (72960, 72966); (72968, 72969); (72971, 73008); (73030, 73030);
   (73040, 73049); (73056, 73061); (73063, 73064); (73066, 73097); (73112, 73112);
   (73120, 73129); (73440, 73458); (73648, 73648); (73664, 73684); (73728, 74649);
   (74752, 74862); (74880, 75075); (77712, 77808); (77824, 78894); (82944, 83526);
   (92160, 92728); (92736, 92766); (92768, 92777); (92784, 92862); (92864, 92873);
   (92880, 92909); (92928, 92975); (92992, 92995); (93008, 93017); (93019, 93025);
   (93027, 93047); (93053, 93071); (93760, 93846); (93952, 94026); (94032, 94032);
   (94099, 94111); (94176, 94177); (94179, 94179); (94208, 100343); (100352, 101589);
   (101632, 101640); (110576, 110579); (110581, 110587); (110589, 110590); (110592, 110882);
   (110928, 110930); (110948, 110951); (110960, 111355); (113664, 113770); (113776, 113788);
   (113792, 113800); (113808, 113817); (119520, 119539); (119648, 119672); (119808, 119892);
   (119894, 119964); (119966, 119967); (119970, 119970); (119973, 119974); (119977, 119980);
   (119982, 119993); (119995, 119995); (119997, 120003); (120005, 120069); (120071, 120074);
   (120077, 120084); (120086, 120092); (120094, 120121); (120123, 120126); (120128, 120132);
   (120134, 120134); (120138, 120144); (120146, 120485); (120488, 120512); (120514, 120538);
   (120540, 120570); (120572, 120596); (120598, 120628); (120630, 120654); (120656, 120686);
   (120688, 120712); (120714, 120744); (120746, 120770); (120772, 120779); (120782, 120831);
   (122624, 122654); (123136, 123180); (123191, 123197); (123200, 123209); (123214, 123214);
   (123536, 123565); (123584, 123627); (123632, 123641); (124896, 124902); (124904, 124907);
   (124909, 124910); (124912, 124926); (124928, 125124); (125127, 125135); (125184, 125251);
   (125259, 125259); (125264, 125273); (126065, 126123); (126125, 126127); (126129, 126132);
   (126209, 126253); (126255, 126269); (126464, 126467); (126469, 126495); (126497, 126498);
   (126500, 126500); (126503, 126503); (126505, 126514); (126516, 126519); (126521, 126521);
   (126523, 126523); (126530, 126530); (126535, 126535); (126537, 126537); (126539, 126539);
   (126541, 126543); (126545, 126546); (126548, 126548); (126551, 126551); (126553, 126553);
   (126555, 126555); (126557, 126557); (126559, 126559); (126561, 126562); (126564, 126564);
   (126567, 126570); (126572, 126578); (126580, 126583); (126585, 126588); (126590, 126590);
   (126592, 126601); (126603, 126619); (126625, 126627); (126629, 126633); (126635, 126651);
   (127232, 127244); (130032, 130041); (131072, 173791); (173824, 177976); (177984, 178205);
   (178208, 183969); (183984, 191456); (194560, 195101); (196608, 201546)]%N.

Definition isdigit (c : N) : bool := in_ranges decimal_ranges c.

Definition isword (c : N) : bool := in_ranges word_ranges c.

(** [int(c)] for a decimal digit [c]: its place in its block of ten. *)
Definition digit_value (c : N) : Z :=
  match find (fun r => (fst r <=? c)%N && (c <=? snd r)%N) decimal_ranges with
  | Some r => Z.of_N ((c - fst r) mod 10)
  | None => 0
  end.

Inductive regex : Type :=
| Eps
| Chr (p : N -> bool)
| Bnd
| Seq (r1 r2 : regex)
| Alt (r1 r2 : regex)
| Opt (r : regex)
| Rep (p : N -> bool) (lo : nat) (hi : option nat).

Record cursor : Type := Cur {
  c_pos : nat;
  c_prev : option N;
  c_rest : ustr
}.

Definition word_opt (o : option N) : bool :=
  match o with
  | Some a => isword a
  | None => false
  end.

Definition at_boundary (c : cursor) : bool :=
  xorb (word_opt (c_prev c)) (word_opt (hd_error (c_rest c))).

Fixpoint rep (p : N -> bool) (lo : nat) (hi : option nat)
         (pos : nat) (prev : option N) (rest : ustr)
         (k : cursor -> option nat) {struct rest} : option nat :=
  let stop := match lo with
              | O => k (Cur pos prev rest)
              | S _ => None
              end in
  match rest with
  | a :: rest' =>
      if p a && Re.may_repeat hi then
        match rep p (pred lo) (option_map pred hi) (S pos) (Some a) rest' k with
        | Some e => Some e
        | None => stop
        end
      else stop
  | [] => stop
  end.

Fixpoint exec (r : regex) (c : cursor) (k : cursor -> option nat)
  : option nat :=
  match r with
  | Eps => k c
  | Chr p =>
      match c_rest c with
      | a :: rest' =>
          if p a then k (Cur (S (c_pos c)) (Some a) rest') else None
      | [] => None
      end
  | Bnd => if at_boundary c then k c else None
  | Seq r1 r2 => exec r1 c (fun c1 => exec r2 c1 k)
  | Alt r1 r2 =>
      match exec r1 c k with
      | Some e => Some e
      | None => exec r2 c k
      end
  | Opt r1 =>
      match exec r1 c k with
      | Some e => Some e
      | None => k c
      end
  | Rep p lo hi => rep p lo hi (c_pos c) (c_prev c) (c_rest c) k
  end.

Definition match_at (r : regex) (c : cursor) : option nat :=
  exec r c (fun c' => Some (c_pos c')).

Record Match : Type := MkMatch {
  m_start : nat;
  m_end : nat;
  m_string : ustr
}.

(** [s[lo:hi]] *)
Definition slice (s : ustr) (lo hi : Z) : ustr :=
  let l := Py.index (List.length s) lo in
  let h := Py.index (List.length s) hi in
  firstn (h - l) (skipn l s).

(** [match.group()] *)
Definition group (m : Match) : ustr :=
  slice (m_string m) (Z.of_nat (m_start m)) (Z.of_nat (m_end m)).

Fixpoint scan_from (r : regex) (text : ustr) (pos : nat)
         (prev : option N) (rest : ustr) (skip : nat) : list Match :=
  match skip with
  | S skip' =>
      match rest with
      | a :: rest' => scan_from r text (S pos) (Some a) rest' skip'
      | [] => []
      end
  | O =>
      match match_at r (Cur pos prev rest) with
      | Some e =>
          MkMatch pos e text ::
          match rest with
          | a :: rest' => scan_from r text (S pos) (Some a) rest' (e - pos - 1)
          | [] => []
          end
      | None =>
          match rest with
          | a :: rest' => scan_from r text (S pos) (Some a) rest' 0
          | [] => []
          end
      end
  end.

(** [re.finditer(pattern, text)] *)
Definition finditer (r : regex) (text : ustr) : list Match :=
  scan_from r text 0 None text 0.

(** [re.sub(r'\D', '', s)] *)
Definition remove_non_digits (s : ustr) : ustr := filter isdigit s.

(** The code point of an ASCII character. *)
Definition chr (a : ascii) : N := N_of_ascii a.

Definition dash (c : N) : bool := (c =? chr "-")%N.

(** [\b\d{3}-?\d{2}-?\d{4}\b] *)
Definition SSN_PATTERN : regex :=
  Seq Bnd
   (Seq (Rep isdigit 3 (Some 3))
     (Seq (Opt (Chr dash))
       (Seq (Rep isdigit 2 (Some 2))
         (Seq (Opt (Chr dash))
           (Seq (Rep isdigit 4 (Some 4)) Bnd))))).

Record Entity : Type := MkEntity {
  e_type : str;
  e_value : ustr;
  e_start : Z;
  e_end : Z;
  e_risk : str
}.

(** [len(set(s))] *)
Definition distinct_count (s : ustr) : Z :=
  Z.of_nat (List.length (nodup N.eq_dec s)).

Definition ssn_entity (m : Match) : Entity :=
  MkEntity "ssn" (group m) (Z.of_nat (m_start m)) (Z.of_nat (m_end m))
           "critical".

Definition find_social_security_numbers (text : ustr) : list Entity :=
  fold_left
    (fun entities m =>
       let ssn := group m in
       let digits_only := remove_non_digits ssn in
       if (1 <? distinct_count digits_only)%Z
       then entities ++ [ssn_entity m]
       else entities)
    (finditer SSN_PATTERN text) [].

(** An 8-bit text as code points. *)
Definition of_str (s : str) : ustr := map chr s.

(** "111-11-111" followed by ARABIC-INDIC DIGIT ONE (U+0661). *)
Definition ones_in_two_scripts : ustr := of_str "111-11-111" ++ [1633%N].

End Uni.

(* ------------------------------------------------------------------ *)
(** * The matcher only reports words of the pattern's language         *)
(* ------------------------------------------------------------------ *)

Section Matcher.

Lemma after_app prev w1 w2 : after prev (w1 ++ w2) = after (after prev w1) w2.
Proof. apply fold_left_app. Qed.

Lemma cursor_same c : Cur (c_pos c + 0) (c_prev c) (c_rest c) = c.
Proof. destruct c; simpl; now rewrite Nat.add_0_r. Qed.

Lemma rep_sound p rest :
  forall lo hi pos prev k e,
    rep p lo hi pos prev rest k = Some e ->
    exists w nxt,
      rest = w ++ nxt /\
      lang (Rep p lo hi) prev w nxt /\
      k (Cur (pos + List.length w) (after prev w) nxt) = Some e.
Proof.
  assert (Hstop : forall lo hi pos prev rest0 (k : cursor -> option nat) e,
             match lo with
             | O => k (Cur pos prev rest0)
             | S _ => None
             end = Some e ->
             exists w nxt,
               rest0 = w ++ nxt /\
               lang (Rep p lo hi) prev w nxt /\
               k (Cur (pos + List.length w) (after prev w) nxt) = Some e).
  { intros lo hi pos prev rest0 k e H. destruct lo; [|discriminate].
    exists [], rest0. simpl. rewrite Nat.add_0_r. repeat split; auto.
    constructor; simpl; auto. destruct hi; simpl; lia. }
  induction rest as [|a rest' IH]; intros lo hi pos prev k e H; simpl in H.
  - now apply Hstop.
  - destruct (p a && may_repeat hi) eqn:Hgo; [|now apply Hstop].
    destruct (rep p (pred lo) (option_map pred hi) (S pos) (Some a) rest' k)
      as [e'|] eqn:Hin; [|now apply Hstop].
    inversion H; subst e'; clear H.
    apply andb_prop in Hgo. destruct Hgo as [Hpa Hhi].
    apply IH in Hin. destruct Hin as (w & nxt & Hrest & Hl & Hk).
    exists (a :: w), nxt. simpl. subst rest'. split; [reflexivity|]. split.
    + inversion Hl; subst. constructor.
      * constructor; assumption.
      * simpl. lia.
      * destruct hi as [[|h]|]; simpl in *; try discriminate; lia.
    + rewrite <- Hk. f_equal. f_equal. lia.
Qed.

Lemma exec_sound r :
  forall c k e,
    exec r c k = Some e ->
    exists w nxt,
      c_rest c = w ++ nxt /\
      lang r (c_prev c) w nxt /\
      k (Cur (c_pos c + List.length w) (after (c_prev c) w) nxt) = Some e.
Proof.
  induction r as [|p| |r1 IH1 r2 IH2|r1 IH1 r2 IH2|r1 IH1|p lo hi];
    intros c k e H; simpl in H.
  - exists [], (c_rest c). simpl. rewrite cursor_same.
    repeat split; auto. constructor.
  - destruct (c_rest c) as [|a rest'] eqn:Hr; [discriminate|].
    destruct (p a) eqn:Hpa; [|discriminate].
    exists [a], rest'. simpl. repeat split.
    + now constructor.
    + rewrite <- H. f_equal. f_equal. lia.
  - destruct (at_boundary c) eqn:Hb; [|discriminate].
    exists [], (c_rest c). simpl. rewrite cursor_same.
    repeat split; auto. constructor. exact Hb.
  - apply IH1 in H. destruct H as (w1 & nxt1 & Hr1 & Hl1 & H).
    apply IH2 in H. simpl in H. destruct H as (w2 & nxt & Hr2 & Hl2 & H).
    exists (w1 ++ w2), nxt. subst nxt1. rewrite <- app_assoc. split; auto.
    split.
    + now constructor.
    + rewrite after_app, length_app, Nat.add_assoc. exact H.
  - destruct (exec r1 c k) as [e1|] eqn:H1.
    + inversion H; subst e1. apply IH1 in H1.
      destruct H1 as (w & nxt & ? & ? & ?). exists w, nxt.
      repeat split; auto. now apply L_AltL.
    + apply IH2 in H. destruct H as (w & nxt & ? & ? & ?). exists w, nxt.
      repeat split; auto. now apply L_AltR.
  - destruct (exec r1 c k) as [e1|] eqn:H1.
    + inversion H; subst e1. apply IH1 in H1.
      destruct H1 as (w & nxt & ? & ? & ?). exists w, nxt.
      repeat split; auto. now apply L_OptSome.
    + exists [], (c_rest c). simpl. rewrite cursor_same.
      repeat split; auto. apply L_OptNone.
  - now apply rep_sound.
Qed.

Lemma match_at_sound r c e :
  match_at r c = Some e ->
  exists w nxt,
    c_rest c = w ++ nxt /\
    lang r (c_prev c) w nxt /\
    e = c_pos c + List.length w.
Proof.
  intros H. apply exec_sound in H. destruct H as (w & nxt & Hr & Hl & He).
  simpl in He. inversion He. eauto.
Qed.

Lemma after_snoc pre a : after None (pre ++ [a]) = Some a.
Proof. unfold after. now rewrite fold_left_app. Qed.

Lemma scan_from_sound r text rest :
  forall pre prev skip m,
    text = pre ++ rest ->
    prev = after None pre ->
    In m (scan_from r text (List.length pre) prev rest skip) ->
    match_of r text m.
Proof.
  induction rest as [|a rest' IH]; intros pre prev skip m Ht Hp Hin.
  - destruct skip; simpl in Hin; [|contradiction].
    destruct (match_at r (Cur (List.length pre) prev [])) as [e|] eqn:Hm;
      [|contradiction].
    destruct Hin as [Hin|[]]. subst m. apply match_at_sound in Hm.
    destruct Hm as (w & nxt & Hr & Hl & He). simpl in *.
    split; [reflexivity|]. exists pre, w, nxt. subst prev.
    rewrite <- Hr. auto.
  - assert (Hnext : forall skip',
               In m (scan_from r text (S (List.length pre)) (Some a)
                               rest' skip') ->
               match_of r text m).
    { intros skip' H. apply (IH (pre ++ [a]) (Some a) skip').
      - now rewrite <- app_assoc.
      - now rewrite after_snoc.
      - now rewrite length_app, Nat.add_1_r. }
    destruct skip; simpl in Hin; [|now apply Hnext in Hin].
    destruct (match_at r (Cur (List.length pre) prev (a :: rest')))
      as [e|] eqn:Hm; [|now apply Hnext in Hin].
    destruct Hin as [Hin|Hin]; [|now apply Hnext in Hin].
    subst m. apply match_at_sound in Hm.
    destruct Hm as (w & nxt & Hr & Hl & He). simpl in *.
    split; [reflexivity|]. exists pre, w, nxt. subst prev.
    rewrite <- Hr. auto.
Qed.

Lemma finditer_sound r text m : In m (finditer r text) -> match_of r text m.
Proof.
  intros H. now apply (@scan_from_sound r text text [] None 0 m).
Qed.

(** A match consumes at least [minlen] characters. *)
Lemma lang_minlen r prev w nxt : lang r prev w nxt -> minlen r <= List.length w.
Proof.
  induction 1; simpl; try lia.
  rewrite length_app. lia.
Qed.

Lemma lang_starts Q r prev w nxt :
  lang r prev w nxt -> starts Q r ->
  forall a w', w = a :: w' -> Q a.
Proof.
  induction 1; simpl; intros HQ b w' Hw; try discriminate.
  - inversion Hw; subst. auto.
  - destruct HQ as [HQ1 HQ2]. destruct w1 as [|a1 w1'].
    + simpl in Hw. apply (IHlang2 (HQ2 ltac:(apply lang_minlen in H; simpl in H; lia)) b w' Hw).
    + simpl in Hw. inversion Hw; subst. now apply (IHlang1 HQ1 b w1').
  - destruct HQ. eauto.
  - destruct HQ. eauto.
  - eauto.
  - subst w. inversion H; subst. auto.
Qed.

Lemma lang_ends Q r prev w nxt :
  lang r prev w nxt -> ends Q r ->
  forall a w', w = w' ++ [a] -> Q a.
Proof.
  induction 1; simpl; intros HQ b w' Hw.
  - now destruct w'.
  - destruct w' as [|? [|]]; inversion Hw; subst. auto.
  - now destruct w'.
  - destruct HQ as [HQ2 HQ1]. destruct (rev w2) as [|a2 w2'] eqn:Hrev.
    + apply (f_equal (@rev ascii)) in Hrev. rewrite rev_involutive in Hrev.
      simpl in Hrev. subst w2. rewrite app_nil_r in Hw.
      apply (IHlang1 (HQ1 ltac:(apply lang_minlen in H0; simpl in H0; lia)) b w' Hw).
    + apply (f_equal (@rev ascii)) in Hrev. rewrite rev_involutive in Hrev.
      simpl in Hrev. subst w2. rewrite app_assoc in Hw.
      apply app_inj_tail in Hw. destruct Hw; subst.
      now apply (IHlang2 HQ2 b (rev w2')).
  - destruct HQ. eauto.
  - destruct HQ. eauto.
  - eauto.
  - now destruct w'.
  - subst w. rewrite Forall_app in H. destruct H as [_ H].
    inversion H; subst. auto.
Qed.

End Matcher.

(* ------------------------------------------------------------------ *)
(** * Slices, strips and character classes                             *)
(* ------------------------------------------------------------------ *)

Section Strings.

Lemma index_of_nat n i : i <= n -> Py.index n (Z.of_nat i) = i.
Proof.
  intros H. unfold Py.index.
  destruct (Z.ltb_spec (Z.of_nat i) 0); lia.
Qed.

Lemma slice_span (pre w post : str) :
  Py.slice (pre ++ w ++ post) (Z.of_nat (List.length pre))
           (Z.of_nat (List.length pre + List.length w)) = w.
Proof.
  unfold Py.slice.
  rewrite !index_of_nat by (rewrite !length_app; lia).
  rewrite skipn_app, skipn_all, Nat.sub_diag. simpl.
  replace (List.length pre + List.length w - List.length pre)
    with (List.length w + 0) by lia.
  rewrite firstn_app_2. simpl. apply app_nil_r.
Qed.

Lemma strip_fixed (w : str) a w1 b w2 :
  w = a :: w1 -> w = w2 ++ [b] ->
  Char.isspace a = false -> Char.isspace b = false ->
  Py.strip w = w.
Proof.
  intros Ha Hb Hsa Hsb. unfold Py.strip, Py.strip_with.
  rewrite Ha at 1. simpl. rewrite Hsa. rewrite <- Ha.
  rewrite Hb at 1. rewrite rev_app_distr. simpl. rewrite Hsb.
  change (b :: rev w2) with (rev [b] ++ rev w2).
  rewrite <- rev_app_distr, rev_involutive. now rewrite <- Hb.
Qed.

Lemma all_chars_complete a : In a all_chars.
Proof.
  unfold all_chars. rewrite <- (ascii_nat_embedding a).
  apply in_map, in_seq. pose proof (nat_ascii_bounded a). lia.
Qed.

Lemma disjoint_sound p q :
  disjoint p q = true -> forall a, p a = true -> q a = false.
Proof.
  unfold disjoint. rewrite forallb_forall. intros H a Hp.
  specialize (H a (all_chars_complete a)). rewrite Hp in H.
  now destruct (q a).
Qed.

End Strings.

(* ------------------------------------------------------------------ *)
(** * The recognizers as filters over the raw matches                  *)
(* ------------------------------------------------------------------ *)

Section Recognizers.

Lemma fold_append_filter {A B : Type} (c : A -> bool) (f : A -> B) ms :
  forall init,
    fold_left (fun acc m => if c m then acc ++ [f m] else acc) ms init
    = init ++ map f (filter c ms).
Proof.
  induction ms as [|m ms IH]; intros init; simpl.
  - now rewrite app_nil_r.
  - rewrite IH. destruct (c m); simpl; auto. now rewrite <- app_assoc.
Qed.

Lemma fold_append_map {A B : Type} (f : A -> B) ms :
  forall init,
    fold_left (fun acc m => acc ++ [f m]) ms init = init ++ map f ms.
Proof.
  induction ms as [|m ms IH]; intros init; simpl.
  - now rewrite app_nil_r.
  - rewrite IH. now rewrite <- app_assoc.
Qed.

Lemma for_each_ok {A B : Type} (body : B -> A -> result B) (g : B -> A -> B) ms :
  forall init,
    (forall acc m, In m ms -> body acc m = Ok (g acc m)) ->
    for_each ms init body = Ok (fold_left g ms init).
Proof.
  induction ms as [|m ms IH]; intros init H; simpl; auto.
  rewrite H by (now left). simpl. apply IH. intros; apply H. now right.
Qed.

Lemma for_each_members {A B : Type} (body : list B -> A -> result (list B))
      (f : A -> B) ms :
  (forall acc m acc',
      body acc m = Ok acc' -> acc' = acc \/ acc' = acc ++ [f m]) ->
  forall init res,
    for_each ms init body = Ok res ->
    forall x, In x res -> In x init \/ exists m, In m ms /\ x = f m.
Proof.
  intros Hbody. induction ms as [|m ms IH]; intros init res H x Hx; simpl in H.
  - inversion H; subst. now left.
  - destruct (body init m) as [acc'|] eqn:Hb; simpl in H; [|discriminate].
    destruct (IH _ _ H x Hx) as [Hin|(m' & Hm' & ->)].
    + destruct (Hbody _ _ _ Hb) as [->| ->]; auto.
      apply in_app_or in Hin. destruct Hin as [|[<-|[]]]; auto.
      right. exists m. split; auto. now left.
    + right. exists m'. split; auto. now right.
Qed.

Lemma find_social_security_numbers_filter text :
  find_social_security_numbers text
  = map ssn_entity
        (filter (fun m => (1 <? distinct_count (remove_non_digits (group m)))%Z)
                (finditer SSN_PATTERN text)).
Proof. unfold find_social_security_numbers. now rewrite fold_append_filter. Qed.

Lemma find_phone_numbers_filter text :
  find_phone_numbers text
  = map phone_entity
        (filter (fun m =>
                   (10 <=? Py.len (remove_non_digits (group m)))%Z
                   && (Py.len (remove_non_digits (group m)) <=? 11)%Z)
                (finditer PHONE_PATTERN text)).
Proof. unfold find_phone_numbers. now rewrite fold_append_filter. Qed.

Lemma find_names_ai_style_filter text :
  find_names_ai_style text
  = map name_entity
        (filter (fun m =>
                   negb (existsb
                           (fun word =>
                              existsb (Py.str_eqb word) (Py.split (group m)))
                           common_words))
                (finditer name_pattern text)).
Proof. unfold find_names_ai_style. now rewrite fold_append_filter. Qed.

Lemma from_filter r mk c text f :
  In f (map mk (filter c (finditer r text))) -> from_match r mk text f.
Proof.
  rewrite in_map_iff. intros (m & <- & Hm). apply filter_In in Hm.
  exists m. split; auto. apply finditer_sound. tauto.
Qed.

Lemma from_fold r mk text f :
  In f (fold_left (fun acc m => acc ++ [mk m]) (finditer r text) []) ->
  from_match r mk text f.
Proof.
  rewrite fold_append_map. simpl. rewrite in_map_iff. intros (m & <- & Hm).
  exists m. split; auto. now apply finditer_sound.
Qed.

Lemma from_for_each r mk text body fs f :
  (forall acc m acc',
      body acc m = Ok acc' -> acc' = acc \/ acc' = acc ++ [mk m]) ->
  for_each (finditer r text) [] body = Ok fs ->
  In f fs -> from_match r mk text f.
Proof.
  intros Hb H Hin.
  destruct (for_each_members body mk (finditer r text) Hb [] H f Hin)
    as [[]|(m & Hm & ->)].
  exists m. split; auto. now apply finditer_sound.
Qed.

(** A match of a pattern that cannot match the empty string is a
    non-empty slice of the text, and [group] is that slice. *)
Lemma match_placed r text m ty risk :
  match_of r text m -> 1 <= minlen r ->
  well_placed text (MkEntity ty (group m) (start_of m) (end_of m) risk).
Proof.
  intros [Hs (pre & w & post & Ht & Hst & Hen & Hl)] Hmin.
  apply lang_minlen in Hl. unfold well_placed, group, start_of, end_of, Py.len.
  simpl. rewrite Hs. split; [reflexivity|].
  assert (List.length text
          = List.length pre + (List.length w + List.length post))
    by (rewrite Ht, !length_app; reflexivity).
  lia.
Qed.

Lemma match_group r text m :
  match_of r text m ->
  exists pre w post,
    text = pre ++ w ++ post /\ group m = w /\ lang r (after None pre) w post.
Proof.
  intros [Hs (pre & w & post & Ht & Hst & Hen & Hl)].
  exists pre, w, post. repeat split; auto.
  unfold group. rewrite Hs, Hst, Hen, Ht. apply slice_span.
Qed.

End Recognizers.

(* ------------------------------------------------------------------ *)
(** * Offsets of the findings                                          *)
(* ------------------------------------------------------------------ *)

Section Offsets.

(** Settles a [starts] or [ends] statement of a concrete pattern. *)
Ltac class_shape :=
  simpl;
  repeat match goal with
    | |- _ /\ _ => split
    | |- True => exact I
    | |- S _ = 0 -> _ => discriminate
    | |- 0 = 0 -> _ => intros _
    | |- forall a : ascii, _ = true -> _ = false =>
        apply disjoint_sound; vm_compute; reflexivity
    end.

Lemma phone_starts : starts (fun a => Char.isspace a = false) PHONE_PATTERN.
Proof. unfold PHONE_PATTERN. class_shape. Qed.

Lemma phone_ends : ends (fun a => Char.isspace a = false) PHONE_PATTERN.
Proof. unfold PHONE_PATTERN. class_shape. Qed.

(** A phone match neither begins nor ends with whitespace, so the
    [strip()] of the recognizer leaves it as it is. *)
Lemma phone_strip text m :
  match_of PHONE_PATTERN text m -> Py.strip (group m) = group m.
Proof.
  intros H. destruct (match_group H) as (pre & w & post & _ & -> & Hl).
  pose proof (lang_minlen Hl) as Hlen.
  change (minlen PHONE_PATTERN) with 7 in Hlen.
  destruct w as [|a w1]; [simpl in Hlen; lia|].
  destruct (exists_last (l := a :: w1) ltac:(discriminate)) as (w2 & b & Hw).
  apply (@strip_fixed (a :: w1) a w1 b w2 eq_refl Hw).
  - exact (@lang_starts (fun c => Char.isspace c = false) _ _ _ _
                        Hl phone_starts a w1 eq_refl).
  - exact (@lang_ends (fun c => Char.isspace c = false) _ _ _ _
                      Hl phone_ends b w2 Hw).
Qed.

Lemma phone_placed text f :
  from_match PHONE_PATTERN phone_entity text f -> well_placed text f.
Proof.
  intros (m & Hm & ->).
  pose proof (@match_placed PHONE_PATTERN text m "phone" "high" Hm) as H.
  unfold phone_entity. rewrite (phone_strip Hm).
  apply H. vm_compute. lia.
Qed.

Lemma plain_placed r ty risk text f :
  1 <= minlen r ->
  from_match r (fun m => MkEntity ty (group m) (start_of m) (end_of m) risk)
             text f ->
  well_placed text f.
Proof.
  intros Hmin (m & Hm & ->). now apply match_placed with (r := r).
Qed.

Lemma credit_card_body acc m acc' :
  (let card_num := group m in
   let digits := remove_non_digits card_num in
   if (13 <=? Py.len digits)%Z && (Py.len digits <=? 16)%Z
   then valid <- luhn_check digits ;;
        Ok (if valid then acc ++ [card_entity m] else acc)
   else Ok acc) = Ok acc' ->
  acc' = acc \/ acc' = acc ++ [card_entity m].
Proof.
  simpl. destruct (_ && _).
  - destruct (luhn_check _) as [[|]|]; simpl; intros H; inversion H; auto.
  - intros H; inversion H; auto.
Qed.

Lemma dob_body acc m acc' :
  (let date_str := group m in
   year <- Py.int (if Py.contains "/" date_str
                   then Py.last_item (Py.split_on "/" date_str)
                   else Py.last_item (Py.split_on "-" date_str)) ;;
   Ok (if (1940 <=? year)%Z && (year <=? 2015)%Z
       then acc ++ [dob_entity m]
       else acc)) = Ok acc' ->
  acc' = acc \/ acc' = acc ++ [dob_entity m].
Proof.
  simpl. destruct (Py.int _) as [year|]; simpl; [|discriminate].
  destruct (_ && _); intros H; inversion H; auto.
Qed.

End Offsets.

(** C3. For every text on which [scan_text_for_pii] returns and for every
    finding [f] of the returned list, [text[f.start:f.end]] equals
    [f.value] and [0 <= f.start < f.end <= len(text)]; this covers all nine
    recognizers, the phone recognizer with its [strip()]-ed value
    included. *)
Theorem scan_offsets_correct (text : str) (fs : list Entity) (f : Entity) :
  scan_text_for_pii text = Ok fs ->
  In f fs ->
  Py.slice text (e_start f) (e_end f) = e_value f /\
  (0 <= e_start f)%Z /\ (e_start f < e_end f)%Z /\
  (e_end f <= Py.len text)%Z.
Proof.
  unfold scan_text_for_pii. intros Hscan Hin.
  destruct (find_credit_cards text) as [cards|] eqn:Hcards;
    simpl in Hscan; [|discriminate].
  destruct (find_dates_of_birth text) as [dobs|] eqn:Hdobs;
    simpl in Hscan; [|discriminate].
  inversion Hscan; subst fs; clear Hscan.
  change (well_placed text f).
  repeat (apply in_app_or in Hin; destruct Hin as [Hin|Hin]).
  - rewrite find_social_security_numbers_filter in Hin.
    apply from_filter in Hin.
    apply (@plain_placed SSN_PATTERN "ssn" "critical"); auto.
    vm_compute; lia.
  - rewrite find_phone_numbers_filter in Hin.
    apply from_filter in Hin. now apply phone_placed.
  - apply from_fold in Hin.
    apply (@plain_placed EMAIL_PATTERN "email" "medium"); auto.
    vm_compute; lia.
  - apply (@plain_placed CREDIT_CARD_PATTERN "credit_card" "critical");
      [vm_compute; lia|].
    unfold find_credit_cards in Hcards.
    exact (@from_for_each _ card_entity _ _ _ _ credit_card_body Hcards Hin).
  - apply (@plain_placed DOB_PATTERN "dob" "medium"); [vm_compute; lia|].
    unfold find_dates_of_birth in Hdobs.
    exact (@from_for_each _ dob_entity _ _ _ _ dob_body Hdobs Hin).
  - apply from_fold in Hin.
    apply (@plain_placed DRIVERS_LICENSE_PATTERN "drivers_license" "high");
      auto.
    vm_compute; lia.
  - apply from_fold in Hin.
    apply (@plain_placed ZIP_PATTERN "zip" "low"); auto. vm_compute; lia.
  - rewrite find_names_ai_style_filter in Hin. apply from_filter in Hin.
    apply (@plain_placed name_pattern "name" "medium"); auto.
    vm_compute; lia.
  - apply from_fold in Hin.
    apply (@plain_placed (ignorecase address_pattern) "address" "high"); auto.
    vm_compute; lia.
Qed.

(* ------------------------------------------------------------------ *)
(** * The risk score                                                   *)
(* ------------------------------------------------------------------ *)

Section Risk.

Lemma str_eqb_eq s : forall t, Py.str_eqb s t = true <-> s = t.
Proof.
  induction s as [|a s IH]; destruct t as [|b t]; simpl;
    try (split; [discriminate|discriminate]); try tauto.
  rewrite andb_true_iff, Ascii.eqb_eq, IH. split.
  - intros [-> ->]. reflexivity.
  - intros H. inversion H. auto.
Qed.

Lemma dict_get_absent (d : list (str * Z)) key :
  ~ In key (map fst d) -> dict_get d key = None.
Proof.
  induction d as [|[k v] d IH]; simpl; intros H; auto.
  destruct (Py.str_eqb key k) eqn:E.
  - apply str_eqb_eq in E. subst. tauto.
  - apply IH. tauto.
Qed.

(** The dictionary of the code is the table of the specification. *)
Lemma risk_weights_table category :
  match dict_get risk_weights category with
  | Some w => w
  | None => 0%Z
  end = category_weight category.
Proof.
  unfold category_weight, risk_weights. simpl.
  repeat match goal with
         | |- context [Py.str_eqb category ?s] =>
             destruct (Py.str_eqb category s)
         end; reflexivity.
Qed.

Lemma category_weight_nonneg category : (0 <= category_weight category)%Z.
Proof.
  unfold category_weight.
  repeat match goal with
         | |- context [Py.str_eqb category ?s] =>
             destruct (Py.str_eqb category s)
         end; lia.
Qed.

Lemma weight_sum_nonneg fs : (0 <= weight_sum fs)%Z.
Proof.
  induction fs as [|f fs IH]; simpl; [lia|].
  pose proof (category_weight_nonneg (e_type f)). lia.
Qed.

Lemma weight_sum_app fs gs :
  weight_sum (fs ++ gs) = (weight_sum fs + weight_sum gs)%Z.
Proof. induction fs as [|f fs IH]; simpl; [reflexivity|]. rewrite IH. lia. Qed.

Lemma total_score_sum fs :
  forall acc,
    fold_left
      (fun total_score entity =>
         match dict_get risk_weights (e_type entity) with
         | Some w => (total_score + w)%Z
         | None => total_score
         end) fs acc
    = (acc + weight_sum fs)%Z.
Proof.
  induction fs as [|f fs IH]; intros acc.
  - simpl. lia.
  - cbn [fold_left]. rewrite IH.
    change (weight_sum (f :: fs))
      with (category_weight (e_type f) + weight_sum fs)%Z.
    rewrite <- (risk_weights_table (e_type f)).
    destruct (dict_get risk_weights (e_type f)); lia.
Qed.

Lemma calculate_risk_level_cons f fs :
  calculate_risk_level (f :: fs)
  = (level_of (Z.min (weight_sum (f :: fs)) 100),
     Z.min (weight_sum (f :: fs)) 100).
Proof.
  unfold calculate_risk_level. rewrite total_score_sum.
  rewrite Z.add_0_l. reflexivity.
Qed.

Lemma calculate_risk_level_score fs :
  snd (calculate_risk_level fs) = Z.min (weight_sum fs) 100.
Proof.
  destruct fs as [|f fs]; [reflexivity|].
  now rewrite calculate_risk_level_cons.
Qed.

End Risk.

(** C5. On the empty list the result is [("Safe", 0)]; on a non-empty list
    the score is the sum of the per-category weights of the table (absent
    categories count 0), clamped to at most 100, and the level is Critical
    iff [score >= 60], High iff [40 <= score < 60], Medium iff
    [20 <= score < 40] and Low otherwise. *)
Theorem risk_level_by_table :
  calculate_risk_level [] = ("Safe" : str, 0%Z) /\
  forall f fs,
    let score := Z.min (weight_sum (f :: fs)) 100 in
    let level := fst (calculate_risk_level (f :: fs)) in
    snd (calculate_risk_level (f :: fs)) = score /\
    (level = "Critical" <-> (60 <= score)%Z) /\
    (level = "High" <-> (40 <= score)%Z /\ (score < 60)%Z) /\
    (level = "Medium" <-> (20 <= score)%Z /\ (score < 40)%Z) /\
    (level = "Low" <-> (score < 20)%Z).
Proof.
  split; [reflexivity|]. intros f fs score level.
  subst level. rewrite calculate_risk_level_cons. fold score.
  cbn [fst snd]. split; [reflexivity|]. unfold level_of.
  destruct (Z.leb_spec 60 score); [|destruct (Z.leb_spec 40 score);
    [|destruct (Z.leb_spec 20 score)]];
    repeat split; intros; try lia; try reflexivity;
    try (exfalso; lia); try discriminate.
Qed.

(** C7. Appending a finding whose category has positive weight never
    lowers the score, and the score always lies in [[0,100]]. *)
Theorem risk_score_monotone_bounded :
  (forall fs f,
      (0 < category_weight (e_type f))%Z ->
      (snd (calculate_risk_level fs)
       <= snd (calculate_risk_level (fs ++ [f])))%Z) /\
  (forall fs,
      (0 <= snd (calculate_risk_level fs))%Z /\
      (snd (calculate_risk_level fs) <= 100)%Z).
Proof.
  split.
  - intros fs f Hpos. rewrite !calculate_risk_level_score, weight_sum_app.
    simpl. lia.
  - intros fs. rewrite calculate_risk_level_score.
    pose proof (weight_sum_nonneg fs). lia.
Qed.

(** C10. A non-empty list all of whose categories are outside the weight
    table gets [("Low", 0)]; the level Safe is returned for the empty
    list only. *)
Theorem unknown_categories_low :
  (forall fs,
      fs <> [] ->
      Forall (fun f => ~ In (e_type f) (map fst risk_weights)) fs ->
      calculate_risk_level fs = ("Low" : str, 0%Z)) /\
  (forall fs, fst (calculate_risk_level fs) = "Safe" -> fs = []).
Proof.
  split.
  - intros [|f fs] Hne Hall; [congruence|].
    rewrite calculate_risk_level_cons.
    assert (Hz : weight_sum (f :: fs) = 0%Z).
    { clear Hne. induction Hall as [|g gs Hg _ IH]; [reflexivity|].
      change (weight_sum (g :: gs))
        with (category_weight (e_type g) + weight_sum gs)%Z.
      rewrite IH, <- risk_weights_table, (dict_get_absent _ _ Hg).
      reflexivity. }
    rewrite Hz. reflexivity.
  - intros [|f fs]; [reflexivity|]. rewrite calculate_risk_level_cons.
    cbn [fst]. unfold level_of.
    repeat match goal with |- context [if ?b then _ else _] => destruct b end;
      discriminate.
Qed.

(* ------------------------------------------------------------------ *)
(** * The Luhn check of the credit-card recognizer                     *)
(* ------------------------------------------------------------------ *)

Section Luhn.

Lemma int_of_digit a :
  Char.isdigit a = true -> Py.int [a] = Ok (Char.digit_value a).
Proof.
  destruct a as [[] [] [] [] [] [] [] []]; vm_compute; intros H;
    first [discriminate H | reflexivity].
Qed.

Lemma digit_value_range a :
  Char.isdigit a = true -> is_digit_value (Char.digit_value a).
Proof.
  unfold Char.isdigit, Char.between, Char.digit_value, is_digit_value.
  rewrite andb_true_iff, !Nat.leb_le. lia.
Qed.

Lemma digits_of_digits s :
  forallb Char.isdigit s = true ->
  digits_of s = Ok (map Char.digit_value s).
Proof.
  induction s as [|a s IH]; simpl; [reflexivity|].
  rewrite andb_true_iff. intros [Ha Hs].
  change (Py.int [a]) with (Py.int (a :: nil)).
  rewrite (int_of_digit a Ha). simpl. now rewrite IH.
Qed.

Lemma remove_non_digits_digits s :
  forallb Char.isdigit (remove_non_digits s) = true.
Proof.
  apply forallb_forall. intros a Ha. apply filter_In in Ha. tauto.
Qed.

Lemma doubled_digit d :
  is_digit_value d ->
  exists ds, digits_of (Py.str_of_int (d * 2)) = Ok ds
             /\ Py.sum ds = digit_sum (2 * d).
Proof.
  intros [H0 H9].
  assert (Hd : (d = 0 \/ d = 1 \/ d = 2 \/ d = 3 \/ d = 4 \/ d = 5 \/ d = 6
                \/ d = 7 \/ d = 8 \/ d = 9)%Z) by lia.
  repeat (destruct Hd as [->|Hd]); try subst d;
    eexists; split; reflexivity.
Qed.

Lemma sum_plain l : forall acc, fold_left Z.add l acc = (acc + plain_sum l)%Z.
Proof.
  induction l as [|d l IH]; intros acc; simpl; [lia|]. rewrite IH. lia.
Qed.

Lemma checksum_loop evens :
  Forall is_digit_value evens ->
  forall acc,
    for_each evens acc
      (fun checksum d =>
         ds <- digits_of (Py.str_of_int (d * 2)) ;;
         Ok (checksum + Py.sum ds)%Z)
    = Ok (acc + doubled_sum evens)%Z.
Proof.
  induction 1 as [|d evens Hd _ IH]; intros acc; cbn [for_each].
  - f_equal. change (doubled_sum []) with 0%Z. lia.
  - destruct (doubled_digit Hd) as (ds & -> & Hs). cbn [bind].
    rewrite IH, Hs. f_equal.
    change (doubled_sum (d :: evens))
      with (digit_sum (2 * d) + doubled_sum evens)%Z. lia.
Qed.

Lemma every_other_cons {A : Type} (a : A) t :
  every_other (a :: t) = a :: every_other (tl t).
Proof. destruct t; reflexivity. Qed.

Lemma every_other_incl {A : Type} (P : A -> Prop) :
  forall n (l : list A),
    List.length l <= n -> Forall P l -> Forall P (every_other l).
Proof.
  induction n as [|n IH]; intros l Hn Hl.
  - destruct l; [constructor|simpl in Hn; lia].
  - destruct l as [|a [|b t]]; simpl; auto.
    inversion Hl as [|? ? Ha Ht]; subst.
    inversion Ht as [|? ? Hb Ht']; subst.
    constructor; auto. apply IH; auto. simpl in Hn. lia.
Qed.

(** The two sums of [luhn_check] add up to the total of the
    specification, whichever parity the first position has. *)
Lemma luhn_total_split l :
  forall position,
    luhn_total l position
    = if Nat.odd position
      then (plain_sum (every_other l) + doubled_sum (every_other (tl l)))%Z
      else (doubled_sum (every_other l) + plain_sum (every_other (tl l)))%Z.
Proof.
  induction l as [|d t IH]; intros position.
  - simpl. now destruct (Nat.odd position).
  - cbn [luhn_total tl]. rewrite IH, every_other_cons, Nat.odd_succ.
    rewrite <- Nat.negb_odd.
    destruct (Nat.odd position); cbn [negb].
    + change (plain_sum (d :: every_other (tl t)))
        with (d + plain_sum (every_other (tl t)))%Z. lia.
    + change (doubled_sum (d :: every_other (tl t)))
        with (digit_sum (2 * d) + doubled_sum (every_other (tl t)))%Z. lia.
Qed.

Lemma luhn_check_digits s :
  forallb Char.isdigit s = true -> luhn_check s = Ok (luhn_passes s).
Proof.
  intros Hs. unfold luhn_check, luhn_passes.
  rewrite (digits_of_digits s Hs). cbn [bind].
  set (ds := map Char.digit_value s).
  assert (Hds : Forall is_digit_value (rev ds)).
  { apply Forall_rev. subst ds. apply Forall_forall. intros d Hd.
    apply in_map_iff in Hd. destruct Hd as (a & <- & Ha).
    apply digit_value_range. rewrite forallb_forall in Hs. auto. }
  rewrite checksum_loop.
  - cbn [bind]. unfold Py.sum. rewrite sum_plain, Z.add_0_l.
    now rewrite (luhn_total_split (rev ds) 1).
  - apply every_other_incl with (n := List.length (tl (rev ds))); auto.
    destruct (rev ds); [constructor|]. now inversion Hds.
Qed.

Lemma find_credit_cards_filter text :
  find_credit_cards text
  = Ok (map card_entity
            (filter card_accepted (finditer CREDIT_CARD_PATTERN text))).
Proof.
  unfold find_credit_cards.
  rewrite for_each_ok
    with (g := fun acc m =>
                 if card_accepted m then acc ++ [card_entity m] else acc).
  - now rewrite fold_append_filter.
  - intros acc m _. cbv zeta. unfold card_accepted.
    rewrite (luhn_check_digits _ (remove_non_digits_digits (group m))).
    destruct (_ && _); reflexivity.
Qed.

End Luhn.

(** C4. The credit-card recognizer keeps exactly the raw matches whose
    digit string has 13 to 16 digits and passes the Luhn checksum as the
    specification words it; "4111 1111 1111 1111" is accepted, and
    "4111 1111 1111 1112" matches the pattern but is rejected. *)
Theorem credit_card_recognizer_luhn :
  (forall text,
      find_credit_cards text
      = Ok (map card_entity
                (filter card_accepted (finditer CREDIT_CARD_PATTERN text)))) /\
  find_credit_cards visa_test_card
  = Ok [MkEntity "credit_card" visa_test_card 0 19 "critical"] /\
  finditer CREDIT_CARD_PATTERN visa_bad_check_digit
  = [MkMatch 0 19 visa_bad_check_digit] /\
  find_credit_cards visa_bad_check_digit = Ok [].
Proof.
  split; [exact find_credit_cards_filter|].
  repeat split; vm_compute; reflexivity.
Qed.

(* ------------------------------------------------------------------ *)
(** * The digit guard of the SSN recognizer                            *)
(* ------------------------------------------------------------------ *)

Section Ssn.

Lemma has_two_distinct_spec ds :
  has_two_distinct ds = true <->
  exists a b, In a ds /\ In b ds /\ a <> b.
Proof.
  unfold has_two_distinct. rewrite existsb_exists. split.
  - intros (a & Ha & H). apply existsb_exists in H.
    destruct H as (b & Hb & Hab). exists a, b. repeat split; auto.
    intros ->. now rewrite Ascii.eqb_refl in Hab.
  - intros (a & b & Ha & Hb & Hab). exists a. split; auto.
    apply existsb_exists. exists b. split; auto.
    destruct (Ascii.eqb a b) eqn:E; auto. apply Ascii.eqb_eq in E. tauto.
Qed.

Lemma distinct_count_spec ds :
  (1 < distinct_count ds)%Z <->
  exists a b, In a ds /\ In b ds /\ a <> b.
Proof.
  unfold distinct_count.
  pose proof (NoDup_nodup ascii_dec ds) as Hnd.
  pose proof (nodup_In ascii_dec ds) as Hin.
  destruct (nodup ascii_dec ds) as [|x [|y l]]; simpl; split.
  - lia.
  - intros (a & _ & Ha & _). now apply Hin in Ha.
  - lia.
  - intros (a & b & Ha & Hb & Hab). apply Hin in Ha, Hb.
    destruct Ha as [<-|[]], Hb as [<-|[]]. tauto.
  - intros _. exists x, y. repeat split.
    + apply Hin. now left.
    + apply Hin. right. now left.
    + inversion Hnd as [|? ? Hx _]; subst. intros ->. apply Hx. now left.
  - lia.
Qed.

Lemma guard_agrees ds :
  (1 <? distinct_count ds)%Z = has_two_distinct ds.
Proof.
  apply eq_true_iff_eq.
  rewrite Z.ltb_lt, distinct_count_spec, has_two_distinct_spec. tauto.
Qed.

End Ssn.

(** On 8-bit text, where the only digits are 0 to 9, the SSN recognizer
    keeps exactly the raw matches whose digit string holds two different
    digit characters; "000-00-0000" matches the pattern and is rejected,
    "123-45-6789" is accepted with severity critical. *)
Lemma ssn_recognizer_distinct_digits :
  (forall text,
      find_social_security_numbers text
      = map ssn_entity (filter ssn_accepted (finditer SSN_PATTERN text))) /\
  (forall digits,
      has_two_distinct digits = true <->
      exists a b, In a digits /\ In b digits /\ a <> b) /\
  finditer SSN_PATTERN "000-00-0000" = [MkMatch 0 11 "000-00-0000"] /\
  find_social_security_numbers "000-00-0000" = [] /\
  find_social_security_numbers "123-45-6789"
  = [MkEntity "ssn" "123-45-6789" 0 11 "critical"].
Proof.
  split.
  - intros text. rewrite find_social_security_numbers_filter. f_equal.
    apply filter_ext. intros m. apply guard_agrees.
  - split; [exact has_two_distinct_spec|].
    repeat split; vm_compute; reflexivity.
Qed.

Lemma unicode_tables_on_latin1 :
  forallb (fun a => Bool.eqb (Uni.isdigit (Uni.chr a)) (Char.isdigit a)
                    && Bool.eqb (Uni.isword (Uni.chr a)) (Char.isword a))
          all_chars = true.
Proof. vm_compute. reflexivity. Qed.

(** C6. On "111-11-111" followed by the Arabic-Indic digit one, the SSN
    pattern matches the whole text and every digit of the match has the
    value 1, yet the recognizer emits the finding: its guard counts two
    distinct characters in the digit string.  "000-00-0000" is rejected
    and "123-45-6789" is accepted with severity critical. *)
Theorem ssn_guard_counts_characters :
  Uni.finditer Uni.SSN_PATTERN Uni.ones_in_two_scripts
  = [Uni.MkMatch 0 11 Uni.ones_in_two_scripts] /\
  map Uni.digit_value (Uni.remove_non_digits Uni.ones_in_two_scripts)
  = [1; 1; 1; 1; 1; 1; 1; 1; 1]%Z /\
  Uni.distinct_count (Uni.remove_non_digits Uni.ones_in_two_scripts) = 2%Z /\
  Uni.find_social_security_numbers Uni.ones_in_two_scripts
  = [Uni.MkEntity "ssn" Uni.ones_in_two_scripts 0 11 "critical"] /\
  Uni.find_social_security_numbers (Uni.of_str "000-00-0000") = [] /\
  Uni.find_social_security_numbers (Uni.of_str "123-45-6789")
  = [Uni.MkEntity "ssn" (Uni.of_str "123-45-6789") 0 11 "critical"].
Proof. repeat split; vm_compute; reflexivity. Qed.

(* ------------------------------------------------------------------ *)
(** * Worked examples and empty inputs                                 *)
(* ------------------------------------------------------------------ *)

(** C1. On the contact text the scan returns exactly the phone and the
    email finding, the risk is Medium with score 25, and the masked text
    keeps the first letter of the mailbox and the last two digits of the
    phone number. *)
Theorem contact_scenario :
  scan_text_for_pii contact_text = Ok [contact_phone; contact_email] /\
  calculate_risk_level [contact_phone; contact_email] = ("Medium" : str, 25%Z) /\
  mask_sensitive_data contact_text [contact_phone; contact_email]
  = "Contact me at j***@example.com or call ***-***-**67".
Proof. repeat split; vm_compute; reflexivity. Qed.

(** C8. The empty text has no findings, the empty findings list is Safe
    with score 0, and masking any text with no findings returns the text
    unchanged. *)
Theorem empty_inputs :
  scan_text_for_pii "" = Ok [] /\
  calculate_risk_level [] = ("Safe" : str, 0%Z) /\
  (forall text, mask_sensitive_data text [] = text) /\
  mask_sensitive_data "" [] = "".
Proof. repeat split. Qed.

(** C9. On "12345-6789" the scan returns an ssn finding followed by a zip
    finding, both over the span [0,10); the risk is Medium with score 35;
    and the masked text is "<ZIP>9": the ssn mask is written first and
    the zip replacement overwrites its first ten characters. *)
Theorem zip4_scenario :
  scan_text_for_pii zip4_text = Ok [zip4_ssn; zip4_zip] /\
  calculate_risk_level [zip4_ssn; zip4_zip] = ("Medium" : str, 35%Z) /\
  sorted_by_start_reverse [zip4_ssn; zip4_zip] = [zip4_ssn; zip4_zip] /\
  mask_sensitive_data zip4_text [zip4_ssn] = "***-**-**89" /\
  mask_sensitive_data zip4_text [zip4_ssn; zip4_zip] = "<ZIP>9".
Proof. repeat split; vm_compute; reflexivity. Qed.

(** C2. The date pattern matches a date whose separators differ, and on
    such a text the date recognizer, and with it the scan, raises
    [ValueError]: after splitting at the slash the year is read from
    "15-1999". *)
Theorem scan_raises_on_mixed_separators :
  finditer DOB_PATTERN mixed_date = [MkMatch 0 10 mixed_date] /\
  Py.last_item (Py.split_on "/" mixed_date) = "15-1999" /\
  find_dates_of_birth mixed_date = Raise ValueError /\
  scan_text_for_pii mixed_date = Raise ValueError.
Proof. repeat split; vm_compute; reflexivity. Qed.

(* ------------------------------------------------------------------ *)
(** * Instances                                                        *)
(* ------------------------------------------------------------------ *)

Lemma scan_offsets_correct_witness :
  Py.slice contact_text (e_start contact_phone) (e_end contact_phone)
  = e_value contact_phone /\
  (0 <= e_start contact_phone)%Z /\
  (e_start contact_phone < e_end contact_phone)%Z /\
  (e_end contact_phone <= Py.len contact_text)%Z.
Proof.
  apply (@scan_offsets_correct contact_text [contact_phone; contact_email]).
  - vm_compute. reflexivity.
  - simpl. left. reflexivity.
Defined.

Lemma risk_score_monotone_bounded_witness :
  (snd (calculate_risk_level [contact_email])
   <= snd (calculate_risk_level ([contact_email] ++ [contact_phone])))%Z.
Proof.
  apply (proj1 risk_score_monotone_bounded [contact_email] contact_phone).
  vm_compute. reflexivity.
Defined.

Lemma unknown_categories_low_witness :
  calculate_risk_level [MkEntity "passport" "X1" 0 2 "high"]
  = ("Low" : str, 0%Z).
Proof.
  apply (proj1 unknown_categories_low).
  - discriminate.
  - constructor; [|constructor]. vm_compute.
    intros H. repeat (destruct H as [H|H]; [discriminate H|]). exact H.
Defined.

(* ------------------------------------------------------------------ *)
(** * Where findings come from, and what the score makes of them       *)
(* ------------------------------------------------------------------ *)

Section Findings.

Lemma scan_sources text fs f :
  scan_text_for_pii text = Ok fs -> In f fs -> scan_source text f.
Proof.
  unfold scan_text_for_pii, scan_source. intros Hscan Hin.
  destruct (find_credit_cards text) as [cards|] eqn:Hcards;
    simpl in Hscan; [|discriminate].
  destruct (find_dates_of_birth text) as [dobs|] eqn:Hdobs;
    simpl in Hscan; [|discriminate].
  inversion Hscan; subst fs; clear Hscan.
  repeat (apply in_app_or in Hin; destruct Hin as [Hin|Hin]).
  - rewrite find_social_security_numbers_filter in Hin.
    apply from_filter in Hin. tauto.
  - rewrite find_phone_numbers_filter in Hin. apply from_filter in Hin. tauto.
  - apply from_fold in Hin. tauto.
  - unfold find_credit_cards in Hcards.
    pose proof (@from_for_each _ card_entity _ _ _ _
                               credit_card_body Hcards Hin). tauto.
  - unfold find_dates_of_birth in Hdobs.
    pose proof (@from_for_each _ dob_entity _ _ _ _ dob_body Hdobs Hin).
    tauto.
  - apply from_fold in Hin. tauto.
  - apply from_fold in Hin. tauto.
  - rewrite find_names_ai_style_filter in Hin. apply from_filter in Hin. tauto.
  - apply from_fold in Hin. tauto.
Qed.

Lemma weight_sum_perm fs gs :
  Permutation fs gs -> weight_sum fs = weight_sum gs.
Proof.
  induction 1 as [|f fs gs _ IH|f g fs|fs gs hs _ IH1 _ IH2].
  - reflexivity.
  - change (weight_sum (f :: fs))
      with (category_weight (e_type f) + weight_sum fs)%Z.
    change (weight_sum (f :: gs))
      with (category_weight (e_type f) + weight_sum gs)%Z.
    now rewrite IH.
  - change (weight_sum (g :: f :: fs))
      with (category_weight (e_type g)
            + (category_weight (e_type f) + weight_sum fs))%Z.
    change (weight_sum (f :: g :: fs))
      with (category_weight (e_type f)
            + (category_weight (e_type g) + weight_sum fs))%Z.
    lia.
  - now rewrite IH1.
Qed.

End Findings.

(** X1. Every finding of a scan carries one of the nine categories
    together with the severity label fixed for that category. *)
Theorem scan_categories_closed (text : str) (fs : list Entity) (f : Entity) :
  scan_text_for_pii text = Ok fs ->
  In f fs ->
  In (e_type f, e_risk f) category_severity.
Proof.
  intros Hscan Hin. pose proof (@scan_sources text fs f Hscan Hin) as H.
  unfold scan_source in H.
  repeat destruct H as [H|H]; destruct H as (m & _ & ->);
    cbn [e_type e_risk ssn_entity phone_entity email_entity card_entity
         dob_entity license_entity zip_entity name_entity address_entity];
    unfold category_severity; simpl; tauto.
Qed.

(** X2. A scan that finds anything is scored at least 5 and is never
    reported as Safe. *)
Theorem scan_findings_score_at_least_5 (text : str) (fs : list Entity) :
  scan_text_for_pii text = Ok fs ->
  fs <> [] ->
  (5 <= snd (calculate_risk_level fs))%Z /\
  fst (calculate_risk_level fs) <> "Safe".
Proof.
  intros Hscan Hne. destruct fs as [|f fs]; [congruence|]. split.
  - rewrite calculate_risk_level_score.
    change (weight_sum (f :: fs))
      with (category_weight (e_type f) + weight_sum fs)%Z.
    pose proof (weight_sum_nonneg fs).
    assert (5 <= category_weight (e_type f))%Z; [|lia].
    pose proof (@scan_categories_closed text (f :: fs) f Hscan
                                        (or_introl eq_refl)) as Hc.
    unfold category_severity in Hc. simpl in Hc.
    repeat destruct Hc as [Hc|Hc]; try contradiction;
      injection Hc as Ht _; rewrite <- Ht; vm_compute; discriminate.
  - rewrite calculate_risk_level_cons. cbn [fst]. unfold level_of.
    repeat match goal with |- context [if ?b then _ else _] => destruct b end;
      discriminate.
Qed.

(** X3. The risk level and score do not depend on the order of the
    findings. *)
Theorem risk_level_order_independent (fs gs : list Entity) :
  Permutation fs gs ->
  calculate_risk_level fs = calculate_risk_level gs.
Proof.
  intros H. destruct fs as [|f fs].
  - apply Permutation_nil in H. now subst.
  - destruct gs as [|g gs].
    + apply Permutation_sym, Permutation_nil in H. discriminate.
    + rewrite !calculate_risk_level_cons. now rewrite (weight_sum_perm H).
Qed.

(* ------------------------------------------------------------------ *)
(** * The sort of the masking engine                                   *)
(* ------------------------------------------------------------------ *)

Section Sorting.

Lemma insert_by_start_perm x l : Permutation (insert_by_start x l) (x :: l).
Proof.
  induction l as [|h t IH]; simpl; auto.
  destruct (e_start x <? e_start h)%Z; auto.
  rewrite IH. apply perm_swap.
Qed.

Lemma insert_by_start_hd x l h :
  HdRel starts_descend h l -> (e_start x <= e_start h)%Z ->
  HdRel starts_descend h (insert_by_start x l).
Proof.
  intros Hl Hx. destruct l as [|g t]; simpl.
  - now constructor.
  - destruct (e_start x <? e_start g)%Z; constructor; auto.
    now inversion Hl.
Qed.

Lemma insert_by_start_sorted x l :
  Sorted starts_descend l -> Sorted starts_descend (insert_by_start x l).
Proof.
  induction 1 as [|h t Ht IH Hh]; simpl.
  - repeat constructor.
  - destruct (Z.ltb_spec (e_start x) (e_start h)).
    + constructor; auto. apply insert_by_start_hd; auto. lia.
    + constructor; [now constructor|]. constructor. unfold starts_descend. lia.
Qed.

Lemma insert_by_start_stable s x l :
  starting_at s (insert_by_start x l) = starting_at s (x :: l).
Proof.
  unfold starting_at. induction l as [|h t IH]; [reflexivity|].
  cbn [insert_by_start]. destruct (Z.ltb_spec (e_start x) (e_start h)); auto.
  cbn [filter] in *. rewrite IH.
  destruct (Z.eqb_spec (e_start x) s), (Z.eqb_spec (e_start h) s);
    auto; lia.
Qed.

End Sorting.

(** X4. The sort of the masking engine returns the same entities, in
    descending order of [start], and keeps entities with equal [start]
    in the order they were given. *)
Theorem sorted_by_start_reverse_correct (l : list Entity) :
  Permutation (sorted_by_start_reverse l) l /\
  Sorted starts_descend (sorted_by_start_reverse l) /\
  forall s, starting_at s (sorted_by_start_reverse l) = starting_at s l.
Proof.
  unfold sorted_by_start_reverse.
  induction l as [|x l (IHp & IHs & IHst)]; cbn [fold_right].
  - repeat split; constructor.
  - split; [|split].
    + rewrite insert_by_start_perm. now constructor.
    + now apply insert_by_start_sorted.
    + intros s. rewrite insert_by_start_stable. unfold starting_at in *.
      cbn [filter]. now rewrite IHst.
Qed.

(* ------------------------------------------------------------------ *)
(** * What the masks show                                              *)
(* ------------------------------------------------------------------ *)

Section Masks.

Lemma filter_all {A : Type} (p : A -> bool) l :
  forallb p l = true -> filter p l = l.
Proof.
  induction l as [|a l IH]; simpl; auto.
  rewrite andb_true_iff. intros [-> H]. now rewrite IH.
Qed.

Lemma forallb_skipn {A : Type} (p : A -> bool) n :
  forall l, forallb p l = true -> forallb p (skipn n l) = true.
Proof.
  induction n as [|n IH]; intros [|a l]; simpl; auto.
  rewrite andb_true_iff. intros [_ H]. auto.
Qed.

Lemma last_two_digits s :
  remove_non_digits (Py.slice_from (remove_non_digits s) (-2))
  = Py.slice_from (remove_non_digits s) (-2).
Proof.
  unfold Py.slice_from. apply filter_all, forallb_skipn.
  apply remove_non_digits_digits.
Qed.

Ltac mask_digits :=
  unfold digits_shown; cbv zeta;
  repeat match goal with
         | |- context [if ?b then _ else _] => destruct b
         end;
  try reflexivity;
  unfold remove_non_digits at 1; rewrite filter_app;
  match goal with
  | |- context [filter Char.isdigit (list_ascii_of_string ?x)] =>
      change (filter Char.isdigit (list_ascii_of_string x)) with (@nil ascii)
  end;
  apply last_two_digits.

Lemma mask_ssn_digits s : remove_non_digits (mask_ssn s) = digits_shown s.
Proof. unfold mask_ssn. mask_digits. Qed.

Lemma mask_phone_digits s : remove_non_digits (mask_phone s) = digits_shown s.
Proof. unfold mask_phone. mask_digits. Qed.

Lemma mask_credit_card_digits s :
  remove_non_digits (mask_credit_card s) = digits_shown s.
Proof. unfold mask_credit_card. mask_digits. Qed.

End Masks.

(** X5. The masks of an SSN, a phone number and a card number show no
    digit of the original except its last two (none when the original has
    fewer than two digits). *)
Theorem number_masks_show_last_two_digits (s : str) :
  remove_non_digits (mask_ssn s) = digits_shown s /\
  remove_non_digits (mask_phone s) = digits_shown s /\
  remove_non_digits (mask_credit_card s) = digits_shown s.
Proof.
  repeat split.
  - apply mask_ssn_digits.
  - apply mask_phone_digits.
  - apply mask_credit_card_digits.
Qed.

(** X6. The licence mask keeps the length, leaves no digit behind, does
    not touch a value without digits, and masking twice changes nothing
    more. *)
Theorem mask_drivers_license_hides_digits (s : str) :
  List.length (mask_drivers_license s) = List.length s /\
  remove_non_digits (mask_drivers_license s) = [] /\
  (remove_non_digits s = [] -> mask_drivers_license s = s) /\
  mask_drivers_license (mask_drivers_license s) = mask_drivers_license s.
Proof.
  unfold mask_drivers_license, replace_digits, remove_non_digits.
  repeat split.
  - apply length_map.
  - induction s as [|a s IH]; simpl; auto.
    destruct (Char.isdigit a) eqn:E; simpl; [auto|]. now rewrite E.
  - induction s as [|a s IH]; simpl; auto.
    destruct (Char.isdigit a) eqn:E; [discriminate|].
    intros H. now rewrite IH.
  - induction s as [|a s IH]; simpl; auto. rewrite IH. f_equal.
    destruct (Char.isdigit a) eqn:E; [reflexivity|]. now rewrite E.
Qed.

(* ------------------------------------------------------------------ *)
(** * Masking findings that do not overlap                             *)
(* ------------------------------------------------------------------ *)

Section Splicing.

Lemma index_in_range n i :
  (0 <= i)%Z -> (i <= Z.of_nat n)%Z -> Py.index n i = Z.to_nat i.
Proof.
  intros H0 Hn. unfold Py.index. destruct (Z.ltb_spec i 0); lia.
Qed.

Lemma separated_weaken n lo lo' fs :
  (lo' <= lo)%Z -> separated n lo fs -> separated n lo' fs.
Proof. destruct fs; simpl; auto. intros H (? & ? & ? & ?). repeat split; auto. lia. Qed.

Lemma separated_lower n fs :
  forall lo, separated n lo fs -> Forall (fun g => (lo <= e_start g)%Z) fs.
Proof.
  induction fs as [|f rest IH]; intros lo H; constructor.
  - simpl in H. tauto.
  - simpl in H. destruct H as (H1 & H2 & _ & H). apply IH in H.
    eapply Forall_impl; [|exact H]. simpl. intros. lia.
Qed.

Lemma firstn_split {A : Type} (l : list A) :
  forall lo s,
    lo <= s -> firstn s l = firstn lo l ++ firstn (s - lo) (skipn lo l).
Proof.
  induction l as [|a l IH]; intros lo s H.
  - now rewrite !firstn_nil, skipn_nil, firstn_nil.
  - destruct lo as [|lo]; [now rewrite Nat.sub_0_r|].
    destruct s as [|s]; [lia|]. cbn [firstn skipn Nat.sub app].
    f_equal. apply IH. lia.
Qed.

(** Right to left, each replacement leaves the text before its span as
    it was. *)
Lemma replace_right_to_left text fs :
  forall lo,
    (0 <= lo)%Z ->
    separated (Py.len text) lo fs ->
    fold_right (fun f acc => replace_span acc f) text fs
    = Py.slice_to text lo ++ splice text lo fs.
Proof.
  induction fs as [|f rest IH]; intros lo Hlo Hsep.
  - simpl. unfold Py.slice_to, Py.slice_from. now rewrite firstn_skipn.
  - destruct Hsep as (Hs & Hse & Hen & Hrest). cbn [fold_right splice].
    rewrite (IH (e_end f)) by (auto; lia).
    unfold replace_span, Py.slice_to, Py.slice_from, Py.slice, Py.len in *.
    set (tail := splice text (e_end f) rest).
    assert (Hidx_e : Py.index (List.length text) (e_end f)
                     = Z.to_nat (e_end f))
      by (apply index_in_range; lia).
    assert (Hidx_s : Py.index (List.length text) (e_start f)
                     = Z.to_nat (e_start f))
      by (apply index_in_range; lia).
    assert (Hidx_lo : Py.index (List.length text) lo = Z.to_nat lo)
      by (apply index_in_range; lia).
    rewrite Hidx_e, Hidx_s, Hidx_lo.
    assert (Hlen : List.length (firstn (Z.to_nat (e_end f)) text)
                   = Z.to_nat (e_end f))
      by (rewrite length_firstn; lia).
    rewrite !index_in_range by (rewrite ?length_app, ?Hlen; lia).
    rewrite firstn_app, Hlen, firstn_firstn.
    replace (Z.to_nat (e_start f) - Z.to_nat (e_end f)) with 0 by lia.
    rewrite Nat.min_l by lia. cbn [firstn]. rewrite app_nil_r.
    rewrite skipn_app, Hlen, Nat.sub_diag. cbn [skipn].
    rewrite skipn_all2 by lia. cbn [app].
    rewrite (@firstn_split _ text (Z.to_nat lo) (Z.to_nat (e_start f)))
      by lia.
    now rewrite <- app_assoc.
Qed.

Lemma descending_unique (l1 l2 : list Entity) :
  Permutation l1 l2 ->
  StronglySorted starts_descend l1 ->
  StronglySorted (fun a b => (e_start b < e_start a)%Z) l2 ->
  l1 = l2.
Proof.
  revert l1. induction l2 as [|b l2 IH]; intros l1 Hp H1 H2.
  - now apply Permutation_sym, Permutation_nil in Hp.
  - destruct l1 as [|a l1]; [now apply Permutation_nil in Hp|].
    inversion H1 as [|? ? H1' Ha]; subst.
    inversion H2 as [|? ? H2' Hb]; subst.
    assert (a = b).
    { assert (Hain : In a (b :: l2))
        by (eapply Permutation_in; [exact Hp|now left]).
      assert (Hbin : In b (a :: l1))
        by (eapply Permutation_in;
            [apply Permutation_sym; exact Hp|now left]).
      destruct Hain as [->|Hain]; auto.
      destruct Hbin as [->|Hbin]; auto.
      rewrite Forall_forall in Ha, Hb.
      specialize (Ha b Hbin). specialize (Hb a Hain).
      unfold starts_descend in Ha. lia. }
    subst b. f_equal. apply IH; auto.
    now apply Permutation_cons_inv in Hp.
Qed.

Lemma separated_rev_sorted n fs :
  forall lo,
    separated n lo fs ->
    StronglySorted (fun a b => (e_start b < e_start a)%Z) (rev fs).
Proof.
  induction fs as [|f rest IH]; intros lo H; cbn [rev]; [constructor|].
  destruct H as (H1 & H2 & H3 & H).
  pose proof (separated_lower _ _ _ H) as Hl.
  specialize (IH _ H). clear H.
  assert (Hall : Forall (fun g => (e_start f < e_start g)%Z) (rev rest)).
  { apply Forall_rev. eapply Forall_impl; [|exact Hl]. simpl. intros. lia. }
  clear Hl. induction IH as [|g l Hg IHl Hgl]; cbn [app].
  - repeat constructor.
  - inversion Hall; subst. constructor; auto.
    apply Forall_app. split; auto.
Qed.

Lemma sort_perm gs : Permutation (sorted_by_start_reverse gs) gs.
Proof.
  unfold sorted_by_start_reverse.
  induction gs as [|x l IH]; cbn [fold_right]; auto.
  rewrite insert_by_start_perm. now constructor.
Qed.

Lemma sort_sorted gs : Sorted starts_descend (sorted_by_start_reverse gs).
Proof.
  unfold sorted_by_start_reverse.
  induction gs as [|x l IH]; cbn [fold_right]; [constructor|].
  now apply insert_by_start_sorted.
Qed.

Lemma sorted_of_separated n lo fs gs :
  separated n lo fs -> Permutation gs fs ->
  sorted_by_start_reverse gs = rev fs.
Proof.
  intros Hsep Hp. apply descending_unique.
  - rewrite sort_perm, Hp. apply Permutation_rev.
  - apply Sorted_StronglySorted.
    + intros a b c. unfold starts_descend. lia.
    + apply sort_sorted.
  - eapply separated_rev_sorted; eauto.
Qed.

Lemma mask_of_separated text fs gs :
  separated (Py.len text) 0 fs ->
  Permutation gs fs ->
  mask_sensitive_data text gs = splice text 0 fs.
Proof.
  intros Hsep Hp. unfold mask_sensitive_data.
  rewrite (@sorted_of_separated _ _ fs gs Hsep Hp).
  change (fun masked_text entity =>
            Py.slice_to masked_text (e_start entity)
            ++ masked_value_of entity
            ++ Py.slice_from masked_text (e_end entity))
    with (fun masked_text entity => replace_span masked_text entity).
  rewrite <- fold_left_rev_right, rev_involutive.
  rewrite (@replace_right_to_left text fs 0%Z) by (auto; lia).
  unfold Py.slice_to. rewrite index_in_range by lia. reflexivity.
Qed.

End Splicing.

(** X7. When the findings, given in any order, have non-empty spans
    inside the text that do not overlap, masking replaces every span by
    the mask of its finding and leaves the rest of the text as it was. *)
Theorem mask_replaces_separate_spans (text : str) (fs gs : list Entity) :
  separated (Py.len text) 0 fs ->
  Permutation gs fs ->
  mask_sensitive_data text gs = splice text 0 fs.
Proof. apply mask_of_separated. Qed.

(* ------------------------------------------------------------------ *)
(** * The findings of one recognizer                                   *)
(* ------------------------------------------------------------------ *)

Section Chains.

Lemma match_chain_weaken n lo lo' ms :
  lo' <= lo -> match_chain n lo ms -> match_chain n lo' ms.
Proof.
  destruct ms; simpl; auto. intros H (? & ? & ? & ?). repeat split; auto. lia.
Qed.

Lemma match_at_bounds r c e :
  match_at r c = Some e ->
  c_pos c + minlen r <= e /\ e <= c_pos c + List.length (c_rest c).
Proof.
  intros H. apply match_at_sound in H.
  destruct H as (w & nxt & Hr & Hl & ->). apply lang_minlen in Hl.
  rewrite Hr, length_app. lia.
Qed.

Lemma scan_from_chain r text rest :
  1 <= minlen r ->
  forall pre prev skip,
    text = pre ++ rest ->
    match_chain (List.length text) (List.length pre + skip)
                (scan_from r text (List.length pre) prev rest skip).
Proof.
  intros Hmin. induction rest as [|a rest' IH]; intros pre prev skip Ht.
  - destruct skip; simpl; auto.
    destruct (match_at r (Cur (List.length pre) prev [])) as [e|] eqn:Hm;
      simpl; auto.
    apply match_at_bounds in Hm. simpl in Hm. lia.
  - assert (Hnext : forall prev' skip',
               match_chain (List.length text) (S (List.length pre) + skip')
                 (scan_from r text (S (List.length pre)) prev' rest' skip')).
    { intros prev' skip'.
      specialize (IH (pre ++ [a]) prev' skip').
      rewrite length_app, Nat.add_1_r in IH. apply IH.
      now rewrite <- app_assoc. }
    destruct skip as [|skip]; cbn [scan_from].
    + destruct (match_at r (Cur (List.length pre) prev (a :: rest')))
        as [e|] eqn:Hm.
      * apply match_at_bounds in Hm. cbn [c_pos c_rest] in Hm.
        cbn [match_chain m_start m_end].
        assert (Hlen : List.length text
                       = List.length pre + List.length (a :: rest'))
          by (rewrite Ht, length_app; reflexivity).
        repeat split; try lia.
        eapply match_chain_weaken; [|apply Hnext]. lia.
      * eapply match_chain_weaken; [|apply Hnext]. lia.
    + eapply match_chain_weaken; [|apply Hnext]. lia.
Qed.

Lemma finditer_chain r text :
  1 <= minlen r -> match_chain (List.length text) 0 (finditer r text).
Proof.
  intros Hmin. apply (@scan_from_chain r text text Hmin [] None 0).
  reflexivity.
Qed.

Lemma chain_entities mk (c : Match -> bool) n ms :
  keeps_span mk ->
  forall lo,
    match_chain n lo ms ->
    separated (Z.of_nat n) (Z.of_nat lo) (map mk (filter c ms)).
Proof.
  intros Hmk. induction ms as [|m ms IH]; intros lo H; simpl; auto.
  destruct H as (H1 & H2 & H3 & H). specialize (IH _ H).
  destruct (c m).
  - cbn [map separated]. destruct (Hmk m) as [-> ->].
    unfold start_of, end_of. repeat split; try lia. exact IH.
  - eapply separated_weaken; [|exact IH]. lia.
Qed.

Lemma for_each_filter {A B : Type} (body : list B -> A -> result (list B))
      (mk : A -> B) (c : A -> bool) ms :
  (forall acc m acc',
      body acc m = Ok acc' -> acc' = if c m then acc ++ [mk m] else acc) ->
  forall init res,
    for_each ms init body = Ok res ->
    res = init ++ map mk (filter c ms).
Proof.
  intros Hbody. induction ms as [|m ms IH]; intros init res H; simpl in H.
  - inversion H. now rewrite app_nil_r.
  - destruct (body init m) as [acc'|] eqn:Hb; simpl in H; [|discriminate].
    apply Hbody in Hb. apply IH in H. subst. simpl.
    destruct (c m); simpl; auto. now rewrite <- app_assoc.
Qed.

Lemma find_dates_of_birth_filter text fs :
  find_dates_of_birth text = Ok fs ->
  fs = map dob_entity (filter dob_year_ok (finditer DOB_PATTERN text)).
Proof.
  unfold find_dates_of_birth. intros H.
  apply (for_each_filter _ dob_entity dob_year_ok) in H; auto.
  intros acc m acc'. unfold dob_year_ok. cbv zeta.
  destruct (Py.int _) as [year|]; simpl; [|discriminate].
  intros Hok. inversion Hok. reflexivity.
Qed.

Lemma filter_true {A : Type} (l : list A) : filter (fun _ => true) l = l.
Proof. induction l; simpl; congruence. Qed.

Lemma pattern_findings_separated r mk c text :
  1 <= minlen r -> keeps_span mk ->
  separated (Py.len text) 0 (map mk (filter c (finditer r text))).
Proof.
  intros Hmin Hmk.
  apply (@chain_entities mk c (List.length text) (finditer r text) Hmk 0).
  now apply finditer_chain.
Qed.

Lemma recognizer_output_separated text out fs :
  In out (recognizer_outputs text) -> out = Ok fs ->
  separated (Py.len text) 0 fs.
Proof.
  unfold recognizer_outputs. intros Hin Hout.
  repeat (destruct Hin as [Hin|Hin]); try contradiction; subst out.
  - inversion Hout. rewrite find_social_security_numbers_filter.
    apply pattern_findings_separated; [vm_compute; lia|now split].
  - inversion Hout. rewrite find_phone_numbers_filter.
    apply pattern_findings_separated; [vm_compute; lia|now split].
  - inversion Hout. unfold find_email_addresses.
    rewrite fold_append_map, <- (filter_true (finditer _ _)). cbn [app].
    apply pattern_findings_separated; [vm_compute; lia|now split].
  - rewrite find_credit_cards_filter in Hout. inversion Hout.
    apply pattern_findings_separated; [vm_compute; lia|now split].
  - apply find_dates_of_birth_filter in Hout. subst fs.
    apply pattern_findings_separated; [vm_compute; lia|now split].
  - inversion Hout. unfold find_drivers_licenses.
    rewrite fold_append_map, <- (filter_true (finditer _ _)). cbn [app].
    apply pattern_findings_separated; [vm_compute; lia|now split].
  - inversion Hout. unfold find_zip_codes.
    rewrite fold_append_map, <- (filter_true (finditer _ _)). cbn [app].
    apply pattern_findings_separated; [vm_compute; lia|now split].
  - inversion Hout. rewrite find_names_ai_style_filter.
    apply pattern_findings_separated; [vm_compute; lia|now split].
  - inversion Hout. unfold find_addresses_ai_style.
    rewrite fold_append_map, <- (filter_true (finditer _ _)). cbn [app].
    apply pattern_findings_separated; [vm_compute; lia|now split].
Qed.

End Chains.

(** X8. The findings one recognizer returns for a text are listed from
    left to right, with non-empty spans inside the text that do not
    overlap; masking the text with them replaces each span in place. *)
Theorem recognizer_findings_in_order (text : str)
        (out : result (list Entity)) (fs : list Entity) :
  In out (recognizer_outputs text) ->
  out = Ok fs ->
  separated (Py.len text) 0 fs /\
  mask_sensitive_data text fs = splice text 0 fs.
Proof.
  intros Hin Hout.
  pose proof (@recognizer_output_separated text out fs Hin Hout) as Hsep.
  split; auto. apply mask_of_separated with (fs := fs); auto.
Qed.

(* ------------------------------------------------------------------ *)
(** * What the Luhn check detects                                      *)
(* ------------------------------------------------------------------ *)

Section LuhnErrors.

Lemma luhn_total_app l1 d l2 :
  forall position,
    luhn_total (l1 ++ d :: l2) position
    = (luhn_total l1 position
       + luhn_term (position + List.length l1) d
       + luhn_total l2 (S (position + List.length l1)))%Z.
Proof.
  induction l1 as [|x l1 IH]; intros position.
  - cbn [app luhn_total List.length]. rewrite Nat.add_0_r.
    unfold luhn_term. lia.
  - cbn [app luhn_total List.length]. rewrite IH.
    replace (S position + List.length l1)
      with (position + S (List.length l1)) by lia.
    lia.
Qed.

Lemma luhn_term_injective position d1 d2 :
  is_digit_value d1 -> is_digit_value d2 -> d1 <> d2 ->
  ((luhn_term position d1 - luhn_term position d2) mod 10 <> 0)%Z.
Proof.
  unfold is_digit_value, luhn_term, digit_sum. intros [H1 H1'] [H2 H2'] Hne.
  assert (Hd1 : (d1 = 0 \/ d1 = 1 \/ d1 = 2 \/ d1 = 3 \/ d1 = 4 \/ d1 = 5
                 \/ d1 = 6 \/ d1 = 7 \/ d1 = 8 \/ d1 = 9)%Z) by lia.
  assert (Hd2 : (d2 = 0 \/ d2 = 1 \/ d2 = 2 \/ d2 = 3 \/ d2 = 4 \/ d2 = 5
                 \/ d2 = 6 \/ d2 = 7 \/ d2 = 8 \/ d2 = 9)%Z) by lia.
  destruct (Nat.odd position);
    repeat (destruct Hd1 as [->|Hd1]); try subst d1;
    repeat (destruct Hd2 as [->|Hd2]); try subst d2;
    first [congruence | vm_compute; discriminate].
Qed.

Lemma digit_value_injective a b :
  Char.isdigit a = true -> Char.isdigit b = true ->
  Char.digit_value a = Char.digit_value b -> a = b.
Proof.
  unfold Char.isdigit, Char.between, Char.digit_value, Char.code.
  rewrite !andb_true_iff, !Nat.leb_le. intros [Ha _] [Hb _] H.
  rewrite <- (ascii_nat_embedding a), <- (ascii_nat_embedding b).
  f_equal. lia.
Qed.

Lemma luhn_total_of_string pre a post :
  luhn_total (rev (map Char.digit_value (pre ++ a :: post))) 1
  = (luhn_total (rev (map Char.digit_value post)) 1
     + luhn_term (1 + List.length post) (Char.digit_value a)
     + luhn_total (rev (map Char.digit_value pre))
                  (S (1 + List.length post)))%Z.
Proof.
  rewrite map_app, rev_app_distr. cbn [map rev]. rewrite <- app_assoc.
  cbn [app]. rewrite luhn_total_app. now rewrite length_rev, length_map.
Qed.

Lemma all_digits_app s t :
  all_digits (s ++ t) <-> all_digits s /\ all_digits t.
Proof. unfold all_digits. now rewrite forallb_app, andb_true_iff. Qed.

Lemma all_digits_cons a s :
  all_digits (a :: s) <-> Char.isdigit a = true /\ all_digits s.
Proof. unfold all_digits. simpl. now rewrite andb_true_iff. Qed.

Lemma luhn_single_digit pre a b post :
  all_digits pre -> all_digits post ->
  Char.isdigit a = true -> Char.isdigit b = true -> a <> b ->
  luhn_passes (pre ++ a :: post) = true ->
  luhn_passes (pre ++ b :: post) = false.
Proof.
  intros Hpre Hpost Ha Hb Hne. unfold luhn_passes.
  rewrite !luhn_total_of_string, Z.eqb_eq. intros Hpass.
  apply Z.eqb_neq.
  pose proof (@luhn_term_injective (1 + List.length post)
                (Char.digit_value b) (Char.digit_value a)
                (digit_value_range b Hb) (digit_value_range a Ha)) as Hinj.
  assert (Hd : Char.digit_value b <> Char.digit_value a).
  { intros E. apply Hne. symmetry. now apply digit_value_injective. }
  specialize (Hinj Hd).
  set (ta := luhn_term (1 + List.length post) (Char.digit_value a)) in *.
  set (tb := luhn_term (1 + List.length post) (Char.digit_value b)) in *.
  set (x := luhn_total (rev (map Char.digit_value post)) 1) in *.
  set (y := luhn_total (rev (map Char.digit_value pre))
                       (S (1 + List.length post))) in *.
  intros Hb0. apply Hinj.
  replace (tb - ta)%Z with ((x + tb + y) - (x + ta + y))%Z by lia.
  rewrite Zminus_mod, Hb0, Hpass. reflexivity.
Qed.

Lemma digit_char_digit d :
  is_digit_value d ->
  Char.isdigit (digit_char d) = true /\ Char.digit_value (digit_char d) = d.
Proof.
  intros [H0 H9].
  assert (Hd : (d = 0 \/ d = 1 \/ d = 2 \/ d = 3 \/ d = 4 \/ d = 5 \/ d = 6
                \/ d = 7 \/ d = 8 \/ d = 9)%Z) by lia.
  repeat (destruct Hd as [->|Hd]); try subst d; split; reflexivity.
Qed.

End LuhnErrors.

(** X9. On strings of digits, [luhn_check] detects every single wrong
    digit: if a number passes, the number with one digit replaced by a
    different digit fails. *)
Theorem luhn_detects_single_digit_errors (pre post : str) (a b : ascii) :
  all_digits pre -> all_digits post ->
  Char.isdigit a = true -> Char.isdigit b = true -> a <> b ->
  luhn_check (pre ++ a :: post) = Ok true ->
  luhn_check (pre ++ b :: post) = Ok false.
Proof.
  intros Hpre Hpost Ha Hb Hne.
  assert (Hsa : forallb Char.isdigit (pre ++ a :: post) = true)
    by (apply all_digits_app; split; auto; now apply all_digits_cons).
  assert (Hsb : forallb Char.isdigit (pre ++ b :: post) = true)
    by (apply all_digits_app; split; auto; now apply all_digits_cons).
  rewrite (luhn_check_digits _ Hsa), (luhn_check_digits _ Hsb).
  intros H. inversion H as [Hpass]. f_equal.
  now apply luhn_single_digit with (a := a).
Qed.

(** X10. Every string of digits is completed to a number that passes
    [luhn_check] by exactly one final digit. *)
Theorem luhn_check_digit_unique (body : str) :
  all_digits body ->
  exists c,
    Char.isdigit c = true /\
    luhn_check (body ++ [c]) = Ok true /\
    forall c',
      Char.isdigit c' = true ->
      luhn_check (body ++ [c']) = Ok true -> c' = c.
Proof.
  intros Hbody.
  set (rest := luhn_total (rev (map Char.digit_value body)) 2).
  set (d := ((10 - rest mod 10) mod 10)%Z).
  assert (Hd : is_digit_value d).
  { unfold is_digit_value, d.
    pose proof (Z.mod_pos_bound (10 - rest mod 10) 10). lia. }
  destruct (digit_char_digit Hd) as [Hc Hv].
  assert (Hpass : luhn_passes (body ++ [digit_char d]) = true).
  { unfold luhn_passes. rewrite luhn_total_of_string, Hv.
    cbn [map rev List.length luhn_total Nat.add]. fold rest.
    unfold luhn_term. cbn [Nat.odd Nat.even negb].
    apply Z.eqb_eq. unfold d. clear. Z.div_mod_to_equations. lia. }
  assert (Hall : forall c, Char.isdigit c = true ->
                           forallb Char.isdigit (body ++ [c]) = true).
  { intros c Hcd. apply all_digits_app. split; auto.
    apply all_digits_cons. split; auto. reflexivity. }
  exists (digit_char d). split; auto. split.
  - rewrite (luhn_check_digits _ (Hall _ Hc)). now rewrite Hpass.
  - intros c' Hc' Hok. rewrite (luhn_check_digits _ (Hall _ Hc')) in Hok.
    inversion Hok as [Hp'].
    destruct (ascii_dec c' (digit_char d)) as [|Hne]; auto.
    assert (Hfail : luhn_passes (body ++ c' :: []) = false).
    { apply luhn_single_digit with (a := digit_char d); auto.
      reflexivity. }
    rewrite Hfail in Hp'. discriminate.
Qed.

(* ------------------------------------------------------------------ *)
(** * The shape of matched values                                      *)
(* ------------------------------------------------------------------ *)

Section Shapes.

Lemma lang_seq_inv r1 r2 prev w nxt :
  lang (Seq r1 r2) prev w nxt ->
  exists w1 w2,
    w = w1 ++ w2 /\ lang r1 prev w1 (w2 ++ nxt)
    /\ lang r2 (after prev w1) w2 nxt.
Proof. inversion 1; subst. eauto. Qed.

Lemma lang_chr_inv p prev w nxt :
  lang (Chr p) prev w nxt -> exists a, w = [a] /\ p a = true.
Proof. inversion 1; subst. eauto. Qed.

Lemma lang_bnd_inv prev w nxt : lang Bnd prev w nxt -> w = [].
Proof. now inversion 1. Qed.

Lemma lang_rep_inv p lo hi prev w nxt :
  lang (Rep p lo hi) prev w nxt ->
  Forall (fun a => p a = true) w /\ lo <= List.length w
  /\ within hi (List.length w).
Proof. inversion 1; subst. auto. Qed.

Lemma lang_every Q r prev w nxt :
  lang r prev w nxt -> every Q r -> Forall Q w.
Proof.
  induction 1; simpl; intros HQ; auto.
  - destruct HQ. apply Forall_app. split; auto.
  - destruct HQ. auto.
  - destruct HQ. auto.
  - eapply Forall_impl; [|exact H]. auto.
Qed.

Lemma lacks_forall c s :
  Forall (fun a => Char.is_chr c a = false) s -> lacks c s.
Proof.
  unfold lacks, Py.contains. induction 1 as [|a s Ha _ IH]; simpl; auto.
  now rewrite Ha.
Qed.

Lemma lacks_app c s t : lacks c (s ++ t) <-> lacks c s /\ lacks c t.
Proof.
  unfold lacks, Py.contains. rewrite existsb_app, orb_false_iff. tauto.
Qed.

Lemma lacks_cons c a s :
  lacks c (a :: s) <-> Char.is_chr c a = false /\ lacks c s.
Proof. unfold lacks, Py.contains. simpl. now rewrite orb_false_iff. Qed.

Lemma split_on_lacks c s : lacks c s -> Py.split_on c s = [s].
Proof.
  induction s as [|a s IH]; [reflexivity|].
  rewrite lacks_cons. intros [Ha Hs]. cbn [Py.split_on].
  unfold Char.is_chr in Ha. rewrite Ha, (IH Hs). reflexivity.
Qed.

Lemma split_on_app c u v :
  lacks c u -> Py.split_on c (u ++ c :: v) = u :: Py.split_on c v.
Proof.
  induction u as [|a u IH]; intros Hu.
  - cbn [app Py.split_on]. now rewrite Ascii.eqb_refl.
  - apply lacks_cons in Hu. destruct Hu as [Ha Hu].
    cbn [app Py.split_on]. unfold Char.is_chr in Ha.
    rewrite Ha, (IH Hu). reflexivity.
Qed.

Lemma split_on_length c s :
  List.length (Py.split_on c s) = S (count_occ ascii_dec s c).
Proof.
  induction s as [|a s IH]; [reflexivity|]. cbn [Py.split_on count_occ].
  destruct (Ascii.eqb_spec a c) as [->|Hne].
  - destruct (ascii_dec c c); [|congruence]. simpl. now rewrite IH.
  - destruct (ascii_dec a c); [congruence|].
    destruct (Py.split_on c s); simpl in *; auto. discriminate.
Qed.

End Shapes.

(* ------------------------------------------------------------------ *)
(** * The mask of an e-mail address                                    *)
(* ------------------------------------------------------------------ *)

Section Email.

Ltac class_facts :=
  simpl;
  repeat match goal with
    | |- _ /\ _ => split
    | |- True => exact I
    | |- forall a : ascii, _ = true -> _ = false =>
        apply disjoint_sound; vm_compute; reflexivity
    end.

Lemma mask_email_parts first username domain :
  Char.is_chr "@" first = false ->
  lacks "@" username -> lacks "@" domain ->
  mask_email ((first :: username) ++ "@" ++ domain)
  = first :: "***@" ++ domain.
Proof.
  intros Hf Hu Hd. unfold mask_email.
  change ((first :: username) ++ "@" ++ domain)
    with (first :: username ++ "@"%char :: domain).
  cbn [Py.split_on]. unfold Char.is_chr in Hf. rewrite Hf.
  rewrite split_on_app, split_on_lacks by auto. reflexivity.
Qed.

Lemma email_shape prev w nxt :
  lang EMAIL_PATTERN prev w nxt ->
  exists first username domain,
    w = (first :: username) ++ "@" ++ domain
    /\ Char.is_chr "@" first = false
    /\ lacks "@" username /\ lacks "@" domain.
Proof.
  unfold EMAIL_PATTERN. cbn [cat]. intros H.
  apply lang_seq_inv in H. destruct H as (w0 & w1 & -> & H0 & H).
  apply lang_bnd_inv in H0. subst w0.
  apply lang_seq_inv in H. destruct H as (l & w2 & -> & Hl & H).
  apply lang_seq_inv in H. destruct H as (at_ & d & -> & Hat & Hd).
  apply lang_chr_inv in Hat. destruct Hat as (a & -> & Ha).
  apply Ascii.eqb_eq in Ha. subst a.
  pose proof (lang_minlen Hl) as Hlen.
  assert (Hln : Forall (fun a => Char.is_chr "@" a = false) l).
  { apply (@lang_every (fun a => Char.is_chr "@" a = false) _ _ _ _ Hl).
    unfold plus, at_least. class_facts. }
  assert (Hdn : Forall (fun a => Char.is_chr "@" a = false) d).
  { apply (@lang_every (fun a => Char.is_chr "@" a = false) _ _ _ _ Hd).
    unfold plus, at_least, lit. class_facts. }
  destruct l as [|first username]; [simpl in Hlen; lia|].
  inversion Hln; subst.
  exists first, username, d. repeat split; auto; now apply lacks_forall.
Qed.

End Email.

(** X11. [mask_email] shows the first character of the mailbox, three
    stars and the domain unchanged when the address has exactly one at-sign
    after a non-empty mailbox; an address with no at-sign or with more
    than one gets the constant "***@***.com". *)
Theorem mask_email_cases :
  (forall first username domain,
      Char.is_chr "@" first = false ->
      lacks "@" username -> lacks "@" domain ->
      mask_email ((first :: username) ++ "@" ++ domain)
      = first :: "***@" ++ domain) /\
  (forall email,
      count_occ ascii_dec email "@"%char <> 1 ->
      mask_email email = "***@***.com") /\
  (forall domain, mask_email ("@" ++ domain) = "***@***.com").
Proof.
  split; [|split].
  - intros. now apply mask_email_parts.
  - intros email Hc. unfold mask_email.
    pose proof (split_on_length "@" email) as Hlen.
    destruct (Py.split_on "@" email) as [|u [|d [|x l]]]; auto.
    simpl in Hlen. congruence.
  - intros domain. unfold mask_email.
    change ("@" ++ domain) with ("@"%char :: domain).
    cbn [Py.split_on]. rewrite Ascii.eqb_refl.
    destruct (Py.split_on "@" domain) as [|d [|x l]]; reflexivity.
Qed.

(** X12. Every e-mail finding of the scanner has one at-sign after a
    non-empty mailbox, so its mask is never the fallback constant: it is
    the first character, three stars, and the domain in clear. *)
Theorem email_findings_keep_domain (text : str) (f : Entity) :
  In f (find_email_addresses text) ->
  exists first username domain,
    e_value f = (first :: username) ++ "@" ++ domain /\
    masked_value_of f = first :: "***@" ++ domain.
Proof.
  intros Hin. apply from_fold in Hin. destruct Hin as (m & Hm & ->).
  destruct (match_group Hm) as (pre & w & post & _ & Hg & Hl).
  apply email_shape in Hl.
  destruct Hl as (first & username & domain & -> & Hf & Hu & Hd).
  exists first, username, domain.
  unfold masked_value_of. cbn [email_entity e_type e_value].
  rewrite Hg. split; [reflexivity|].
  change (Py.str_eqb "email" "email") with true. cbv iota.
  now apply mask_email_parts.
Qed.

(* ------------------------------------------------------------------ *)
(** * The mask of a name                                               *)
(* ------------------------------------------------------------------ *)

Section Names.

Ltac class_false :=
  simpl;
  repeat match goal with
    | |- _ /\ _ => split
    | |- True => exact I
    | |- forall a : ascii, _ = true -> _ = false =>
        apply disjoint_sound; vm_compute; reflexivity
    end.

Lemma split_word u :
  u <> [] -> Forall (fun c => Char.isspace c = false) u ->
  forall a s, Char.isspace a = true ->
              Py.split (u ++ a :: s) = u :: Py.split s.
Proof.
  induction u as [|x u IH]; [congruence|]. intros _ Hu a s Ha.
  inversion Hu as [|? ? Hx Hu']; subst.
  destruct u as [|y u].
  - cbn [app Py.split]. now rewrite Hx, Ha.
  - inversion Hu' as [|? ? Hy _]; subst.
    change ((x :: y :: u) ++ a :: s) with (x :: y :: (u ++ a :: s)).
    cbn [Py.split]. rewrite Hx, Hy.
    change (y :: u ++ a :: s) with ((y :: u) ++ a :: s) in *.
    specialize (IH ltac:(discriminate) Hu' a s Ha).
    change ((y :: u) ++ a :: s) with (y :: u ++ a :: s) in IH.
    cbn [Py.split] in IH. rewrite Hy in IH. rewrite IH. reflexivity.
Qed.

Lemma split_spaces sp :
  Forall (fun c => Char.isspace c = true) sp ->
  forall s, Py.split (sp ++ s) = Py.split s.
Proof.
  induction 1 as [|a sp Ha _ IH]; intros s; [reflexivity|].
  cbn [app Py.split]. now rewrite Ha.
Qed.

Lemma split_single u :
  u <> [] -> Forall (fun c => Char.isspace c = false) u -> Py.split u = [u].
Proof.
  induction u as [|x u IH]; [congruence|]. intros _ Hu.
  inversion Hu as [|? ? Hx Hu']; subst.
  destruct u as [|y u].
  - cbn [Py.split]. now rewrite Hx.
  - inversion Hu' as [|? ? Hy _]; subst.
    specialize (IH ltac:(discriminate) Hu').
    cbn [Py.split] in *. rewrite Hx, Hy. rewrite Hy in IH.
    rewrite IH. reflexivity.
Qed.

Lemma name_shape prev w nxt :
  lang name_pattern prev w nxt ->
  exists first1 rest1 gap first2 rest2,
    w = (first1 :: rest1) ++ gap ++ (first2 :: rest2)
    /\ Forall (fun c => Char.isspace c = false) (first1 :: rest1)
    /\ gap <> [] /\ Forall (fun c => Char.isspace c = true) gap
    /\ Forall (fun c => Char.isspace c = false) (first2 :: rest2).
Proof.
  unfold name_pattern. cbn [cat]. intros H.
  apply lang_seq_inv in H. destruct H as (w0 & w1 & -> & H0 & H).
  apply lang_bnd_inv in H0. subst w0.
  apply lang_seq_inv in H. destruct H as (u1 & w2 & -> & Hu1 & H).
  apply lang_chr_inv in Hu1. destruct Hu1 as (a1 & -> & Ha1).
  apply lang_seq_inv in H. destruct H as (l1 & w3 & -> & Hl1 & H).
  apply lang_seq_inv in H. destruct H as (sp & w4 & -> & Hsp & H).
  apply lang_seq_inv in H. destruct H as (u2 & w5 & -> & Hu2 & H).
  apply lang_chr_inv in Hu2. destruct Hu2 as (a2 & -> & Ha2).
  apply lang_seq_inv in H. destruct H as (l2 & w6 & -> & Hl2 & H).
  apply lang_bnd_inv in H. subst w6.
  pose proof (lang_minlen Hsp) as Hsplen.
  apply lang_rep_inv in Hsp. destruct Hsp as (Hsp & _ & _).
  assert (Hup : forall a, Char.isupper_az a = true -> Char.isspace a = false)
    by class_false.
  assert (Hlow : every (fun c => Char.isspace c = false)
                       (plus Char.islower_az))
    by (unfold plus, at_least; class_false).
  pose proof (@lang_every _ _ _ _ _ Hl1 Hlow) as H1.
  pose proof (@lang_every _ _ _ _ _ Hl2 Hlow) as H2.
  exists a1, l1, sp, a2, l2. rewrite app_nil_r. repeat split; auto.
  intros ->. simpl in Hsplen. lia.
Qed.

Lemma mask_name_two_words first1 rest1 gap first2 rest2 :
  Forall (fun c => Char.isspace c = false) (first1 :: rest1) ->
  gap <> [] -> Forall (fun c => Char.isspace c = true) gap ->
  Forall (fun c => Char.isspace c = false) (first2 :: rest2) ->
  mask_name ((first1 :: rest1) ++ gap ++ (first2 :: rest2))
  = [first1] ++ "*** " ++ [first2] ++ "***".
Proof.
  intros H1 Hne Hg H2. unfold mask_name.
  destruct gap as [|a gap]; [congruence|]. inversion Hg; subst.
  change ((a :: gap) ++ first2 :: rest2)
    with (a :: (gap ++ first2 :: rest2)).
  rewrite split_word by (auto; discriminate).
  rewrite split_spaces by auto.
  rewrite split_single by (auto; discriminate).
  reflexivity.
Qed.

End Names.

Lemma name_words prev w nxt :
  lang name_pattern prev w nxt ->
  exists first1 rest1 gap first2 rest2,
    w = (first1 :: rest1) ++ gap ++ (first2 :: rest2)
    /\ Char.isupper_az first1 = true
    /\ rest1 <> [] /\ Forall (fun c => Char.islower_az c = true) rest1
    /\ gap <> [] /\ Forall (fun c => Char.isspace c = true) gap
    /\ Char.isupper_az first2 = true
    /\ rest2 <> [] /\ Forall (fun c => Char.islower_az c = true) rest2.
Proof.
  unfold name_pattern. cbn [cat]. intros H.
  apply lang_seq_inv in H. destruct H as (w0 & w1 & -> & H0 & H).
  apply lang_bnd_inv in H0. subst w0.
  apply lang_seq_inv in H. destruct H as (u1 & w2 & -> & Hu1 & H).
  apply lang_chr_inv in Hu1. destruct Hu1 as (a1 & -> & Ha1).
  apply lang_seq_inv in H. destruct H as (l1 & w3 & -> & Hl1 & H).
  apply lang_seq_inv in H. destruct H as (sp & w4 & -> & Hsp & H).
  apply lang_seq_inv in H. destruct H as (u2 & w5 & -> & Hu2 & H).
  apply lang_chr_inv in Hu2. destruct Hu2 as (a2 & -> & Ha2).
  apply lang_seq_inv in H. destruct H as (l2 & w6 & -> & Hl2 & H).
  apply lang_bnd_inv in H. subst w6.
  apply lang_rep_inv in Hl1, Hsp, Hl2.
  destruct Hl1 as (Hl1 & Hn1 & _), Hsp as (Hsp & Hns & _),
           Hl2 as (Hl2 & Hn2 & _).
  exists a1, l1, sp, a2, l2. rewrite app_nil_r.
  repeat split; auto; intros ->; simpl in *; lia.
Qed.

Lemma letters_not_space :
  (forall c, Char.isupper_az c = true -> Char.isspace c = false) /\
  (forall c, Char.islower_az c = true -> Char.isspace c = false).
Proof. split; apply disjoint_sound; vm_compute; reflexivity. Qed.

(** X13. Every name finding of the scanner is a capital letter and
    lowercase letters, then whitespace, then again a capital letter and
    lowercase letters; its mask is the two capital letters, each followed
    by three stars, joined by a single space whatever whitespace separated
    the words. *)
Theorem name_findings_mask_to_initials (text : str) (f : Entity) :
  In f (find_names_ai_style text) ->
  exists first1 rest1 gap first2 rest2,
    e_value f = (first1 :: rest1) ++ gap ++ (first2 :: rest2) /\
    Char.isupper_az first1 = true /\
    rest1 <> [] /\ Forall (fun c => Char.islower_az c = true) rest1 /\
    gap <> [] /\ Forall (fun c => Char.isspace c = true) gap /\
    Char.isupper_az first2 = true /\
    rest2 <> [] /\ Forall (fun c => Char.islower_az c = true) rest2 /\
    masked_value_of f = [first1] ++ "*** " ++ [first2] ++ "***".
Proof.
  intros Hin. rewrite find_names_ai_style_filter in Hin.
  apply from_filter in Hin. destruct Hin as (m & Hm & ->).
  destruct (match_group Hm) as (pre & w & post & _ & Hg & Hl).
  apply name_words in Hl.
  destruct Hl as (a1 & l1 & sp & a2 & l2 & -> & Ha1 & Hn1 & Hl1 & Hne & Hsp
                  & Ha2 & Hn2 & Hl2).
  exists a1, l1, sp, a2, l2.
  unfold masked_value_of. cbn [name_entity e_type e_value].
  rewrite Hg. repeat (split; [assumption || reflexivity|]).
  change (Py.str_eqb "name" "email") with false.
  change (Py.str_eqb "name" "phone") with false.
  change (Py.str_eqb "name" "ssn") with false.
  change (Py.str_eqb "name" "credit_card") with false.
  change (Py.str_eqb "name" "drivers_license") with false.
  change (Py.str_eqb "name" "name") with true. cbv iota.
  destruct letters_not_space as [Hup Hlow].
  apply mask_name_two_words; auto.
  - constructor; auto. eapply Forall_impl; [|exact Hl1]. exact Hlow.
  - constructor; auto. eapply Forall_impl; [|exact Hl2]. exact Hlow.
Qed.

(* ------------------------------------------------------------------ *)
(** * The dates the date recognizer can and cannot read                *)
(* ------------------------------------------------------------------ *)

Section Dates.

Lemma subclass_sound p q :
  subclass p q = true -> forall a, p a = true -> q a = true.
Proof.
  unfold subclass. rewrite forallb_forall. intros H a Hp.
  specialize (H a (all_chars_complete a)). now rewrite Hp in H.
Qed.

Ltac class_true :=
  simpl;
  repeat match goal with
    | |- _ /\ _ => split
    | |- True => exact I
    | |- forall a : ascii, _ = true -> _ = true =>
        apply subclass_sound; vm_compute; reflexivity
    end.

Lemma all_digits_forall s :
  Forall (fun a => Char.isdigit a = true) s -> all_digits s.
Proof. unfold all_digits. rewrite forallb_forall, Forall_forall. auto. Qed.

Lemma lang_alt_inv r1 r2 prev w nxt :
  lang (Alt r1 r2) prev w nxt -> lang r1 prev w nxt \/ lang r2 prev w nxt.
Proof. inversion 1; subst; auto. Qed.

Lemma two_chars p q prev w nxt :
  lang (Seq (Chr p) (Chr q)) prev w nxt -> List.length w = 2.
Proof.
  intros H. apply lang_seq_inv in H. destruct H as (u & v & -> & Hu & Hv).
  apply lang_chr_inv in Hu, Hv. destruct Hu as (a & -> & _).
  destruct Hv as (b & -> & _). reflexivity.
Qed.

Lemma dob_shape prev w nxt :
  lang DOB_PATTERN prev w nxt ->
  exists mo s1 da s2 y4,
    w = mo ++ s1 :: da ++ s2 :: y4
    /\ all_digits mo /\ all_digits da /\ da <> []
    /\ date_sep s1 = true /\ date_sep s2 = true
    /\ all_digits y4 /\ List.length y4 = 4.
Proof.
  unfold DOB_PATTERN. cbn [cat]. intros H.
  apply lang_seq_inv in H. destruct H as (w0 & w1 & -> & H0 & H).
  apply lang_bnd_inv in H0. subst w0.
  apply lang_seq_inv in H. destruct H as (mo & w2 & -> & Hmo & H).
  apply lang_seq_inv in H. destruct H as (u1 & w3 & -> & Hs1 & H).
  apply lang_chr_inv in Hs1. destruct Hs1 as (s1 & -> & Hs1).
  apply lang_seq_inv in H. destruct H as (da & w4 & -> & Hda & H).
  apply lang_seq_inv in H. destruct H as (u2 & w5 & -> & Hs2 & H).
  apply lang_chr_inv in Hs2. destruct Hs2 as (s2 & -> & Hs2).
  apply lang_seq_inv in H. destruct H as (ce & w6 & -> & Hce & H).
  apply lang_seq_inv in H. destruct H as (yy & w7 & -> & Hyy & H).
  apply lang_bnd_inv in H. subst w7.
  exists mo, s1, da, s2, (ce ++ yy ++ []).
  pose proof (lang_minlen Hda) as Hdalen.
  assert (Hd : forall r pv x nx,
             lang r pv x nx -> every (fun a => Char.isdigit a = true) r ->
             all_digits x).
  { intros r pv x nx Hl He. apply all_digits_forall.
    exact (@lang_every _ _ _ _ _ Hl He). }
  repeat split; auto.
  - apply (Hd _ _ _ _ Hmo). unfold lit. class_true.
  - apply (Hd _ _ _ _ Hda). unfold lit. class_true.
  - intros ->. simpl in Hdalen. lia.
  - rewrite app_nil_r. apply all_digits_app. split.
    + apply (Hd _ _ _ _ Hce). unfold lit. class_true.
    + apply (Hd _ _ _ _ Hyy). unfold exactly, times. class_true.
  - rewrite app_nil_r, length_app.
    apply lang_rep_inv in Hyy. destruct Hyy as (_ & Hlo & Hhi).
    simpl in Hhi.
    assert (List.length ce = 2).
    { cbn [alt word] in Hce. apply lang_alt_inv in Hce.
      destruct Hce as [Hce|Hce]; exact (two_chars Hce). }
    lia.
Qed.

Lemma digit_not_special a :
  Char.isdigit a = true ->
  Char.is_chr "/" a = false /\ Char.is_chr "-" a = false
  /\ Char.is_chr "+" a = false /\ Char.is_int_space a = false.
Proof.
  intros H. repeat split; revert a H; apply disjoint_sound;
    vm_compute; reflexivity.
Qed.

Lemma digits_lack c s :
  (forall a, Char.isdigit a = true -> Char.is_chr c a = false) ->
  all_digits s -> lacks c s.
Proof.
  intros Hc Hs. apply lacks_forall. unfold all_digits in Hs.
  rewrite forallb_forall in Hs. apply Forall_forall. auto.
Qed.

Lemma digits_lack_slash s : all_digits s -> lacks "/" s.
Proof. apply digits_lack. intros a H. now apply digit_not_special. Qed.

Lemma digits_lack_dash s : all_digits s -> lacks "-" s.
Proof. apply digits_lack. intros a H. now apply digit_not_special. Qed.

Lemma date_sep_cases s : date_sep s = true -> s = "-"%char \/ s = "/"%char.
Proof.
  unfold date_sep, one_of, Char.is_chr. simpl.
  rewrite orb_false_r, orb_true_iff, !Ascii.eqb_eq. tauto.
Qed.

Lemma strip_with_fixed p (w : str) a w1 b w2 :
  w = a :: w1 -> w = w2 ++ [b] -> p a = false -> p b = false ->
  Py.strip_with p w = w.
Proof.
  intros Ha Hb Hsa Hsb. unfold Py.strip_with.
  rewrite Ha at 1. simpl. rewrite Hsa. rewrite <- Ha.
  rewrite Hb at 1. rewrite rev_app_distr. simpl. rewrite Hsb.
  change (b :: rev w2) with (rev [b] ++ rev w2).
  rewrite <- rev_app_distr, rev_involutive. now rewrite <- Hb.
Qed.

Lemma int_digits_digits s :
  all_digits s ->
  forall acc,
    Py.int_digits s acc true
    = Some (fold_left (fun x a => (10 * x + Char.digit_value a)%Z) s acc).
Proof.
  induction s as [|a s IH]; intros Hs acc; [reflexivity|].
  apply all_digits_cons in Hs. destruct Hs as [Ha Hs].
  cbn [Py.int_digits fold_left]. rewrite Ha. now apply IH.
Qed.

Lemma int_digits_dash da :
  all_digits da ->
  forall rest acc b, Py.int_digits (da ++ "-"%char :: rest) acc b = None.
Proof.
  induction da as [|a da IH]; intros Hda rest acc b.
  - reflexivity.
  - apply all_digits_cons in Hda. destruct Hda as [Ha Hda].
    cbn [app Py.int_digits]. rewrite Ha. now apply IH.
Qed.

(** [int] reads a non-empty string of digits as its decimal value. *)
Lemma int_of_digits y :
  all_digits y -> y <> [] -> Py.int y = Ok (decimal y).
Proof.
  intros Hy Hne. unfold Py.int.
  destruct y as [|a y1]; [congruence|].
  destruct (exists_last (l := a :: y1) ltac:(discriminate)) as (y2 & b & Hb).
  assert (Ha : Char.isdigit a = true) by (now apply all_digits_cons in Hy).
  assert (Hbd : Char.isdigit b = true).
  { rewrite Hb in Hy. apply all_digits_app in Hy. destruct Hy as [_ Hy].
    now apply all_digits_cons in Hy. }
  rewrite (@strip_with_fixed _ (a :: y1) a y1 b y2 eq_refl Hb)
    by now apply digit_not_special.
  destruct (digit_not_special a Ha) as (_ & Hm & Hp & _).
  rewrite Hp, Hm. cbn [Py.int_digits]. rewrite Ha.
  apply all_digits_cons in Hy. destruct Hy as [_ Hy].
  rewrite (int_digits_digits Hy). reflexivity.
Qed.

Lemma int_of_dashed da y :
  all_digits da -> da <> [] -> all_digits y -> y <> [] ->
  Py.int (da ++ "-"%char :: y) = Raise ValueError.
Proof.
  intros Hda Hne Hy Hyne. unfold Py.int.
  destruct da as [|a da1]; [congruence|].
  destruct (exists_last Hyne) as (y2 & b & Hb).
  assert (Ha : Char.isdigit a = true) by (now apply all_digits_cons in Hda).
  assert (Hbd : Char.isdigit b = true).
  { rewrite Hb in Hy. apply all_digits_app in Hy. destruct Hy as [_ Hy].
    now apply all_digits_cons in Hy. }
  assert (Hw : (a :: da1) ++ "-"%char :: y
               = ((a :: da1) ++ "-"%char :: y2) ++ [b]).
  { rewrite Hb, <- app_assoc. reflexivity. }
  rewrite (@strip_with_fixed _ _ a (da1 ++ "-"%char :: y) b _ eq_refl Hw)
    by now apply digit_not_special.
  destruct (digit_not_special a Ha) as (_ & Hm & Hp & _).
  cbn [app]. rewrite Hp, Hm.
  change (a :: da1 ++ "-"%char :: y) with ((a :: da1) ++ "-"%char :: y).
  now rewrite int_digits_dash.
Qed.

Lemma split_on_nonempty c s : Py.split_on c s <> [].
Proof.
  intros H. pose proof (split_on_length c s) as Hl. rewrite H in Hl.
  discriminate.
Qed.

Lemma last_item_after c v :
  lacks c v ->
  forall u, Py.last_item (Py.split_on c (u ++ c :: v)) = v.
Proof.
  intros Hv. induction u as [|a u IH].
  - cbn [app Py.split_on]. rewrite Ascii.eqb_refl.
    now rewrite split_on_lacks.
  - pose proof (split_on_length c (u ++ c :: v)) as Hlen.
    rewrite count_occ_app, count_occ_cons_eq in Hlen by reflexivity.
    cbn [app Py.split_on]. unfold Py.last_item in *.
    destruct (Py.split_on c (u ++ c :: v)) as [|w [|x ws]];
      simpl in Hlen; try lia.
    destruct (Ascii.eqb a c); exact IH.
Qed.

Lemma nth_after (u : str) a v d : nth (List.length u) (u ++ a :: v) d = a.
Proof. rewrite app_nth2, Nat.sub_diag by lia. reflexivity. Qed.

Lemma contains_false c s : lacks c s -> Py.contains c s = false.
Proof. auto. Qed.

Lemma contains_true c u v : Py.contains c (u ++ c :: v) = true.
Proof.
  unfold Py.contains. rewrite existsb_app. simpl.
  unfold Char.is_chr. rewrite Ascii.eqb_refl. apply orb_true_r.
Qed.

Lemma year_of_tail u s y4 :
  List.length y4 = 4 -> year_of (u ++ s :: y4) = decimal y4.
Proof.
  intros H. unfold year_of, Py.slice_from, Py.index. f_equal.
  rewrite length_app. cbn [List.length]. rewrite H.
  change (-4 <? 0)%Z with true. cbv iota.
  replace (Z.to_nat (Z.max 0 (Z.of_nat (List.length u + 5) + -4)))
    with (List.length u + 1) by lia.
  rewrite skipn_app. rewrite skipn_all2 by lia.
  replace (List.length u + 1 - List.length u) with 1 by lia. reflexivity.
Qed.

Lemma sep_of_tail u s y4 :
  List.length y4 = 4 ->
  nth (List.length (u ++ s :: y4) - 5) (u ++ s :: y4) " "%char = s.
Proof.
  intros H. rewrite length_app. cbn [List.length]. rewrite H.
  replace (List.length u + 5 - 5) with (List.length u) by lia.
  apply nth_after.
Qed.

(** What one step of the loop does with a matched date. *)
Lemma dob_step_cases text m acc :
  match_of DOB_PATTERN text m ->
  dob_step acc m
  = if bad_date m then Raise ValueError else Ok (dob_keep acc m).
Proof.
  intros Hm. destruct (match_group Hm) as (pre & w & post & _ & Hg & Hl).
  apply dob_shape in Hl.
  destruct Hl as (mo & s1 & da & s2 & y4 & -> & Hmo & Hda & Hne & Hs1 & Hs2
                  & Hy & Hlen).
  assert (Hyne : y4 <> []) by (intros ->; discriminate).
  unfold dob_step, dob_keep, bad_date, slash_then_dash, year_in_range.
  cbv zeta. rewrite Hg. clear Hg.
  set (W := mo ++ s1 :: da ++ s2 :: y4).
  assert (Hw : W = (mo ++ s1 :: da) ++ s2 :: y4)
    by (unfold W; rewrite <- app_assoc; reflexivity).
  assert (Hsep : nth (List.length W - 5) W " "%char = s2)
    by (rewrite Hw; now apply sep_of_tail).
  assert (Hyear : year_of W = decimal y4)
    by (rewrite Hw; now apply year_of_tail).
  rewrite Hsep, !Hyear.
  apply date_sep_cases in Hs1, Hs2.
  destruct Hs2 as [-> | ->].
  - destruct Hs1 as [-> | ->].
    + assert (Hno : lacks "/" W).
      { unfold W. apply lacks_app. split; [now apply digits_lack_slash|].
        apply lacks_cons. split; [reflexivity|].
        apply lacks_app. split; [now apply digits_lack_slash|].
        apply lacks_cons. split; [reflexivity|].
        now apply digits_lack_slash. }
      rewrite (contains_false Hno). cbn [andb].
      rewrite Hw, last_item_after by (now apply digits_lack_dash).
      rewrite int_of_digits by auto. reflexivity.
    + assert (Hyes : Py.contains "/" W = true) by apply contains_true.
      rewrite Hyes. change (Char.is_chr "-" "-") with true. cbn [andb].
      unfold W. rewrite last_item_after.
      * rewrite int_of_dashed by auto. reflexivity.
      * apply lacks_app. split; [now apply digits_lack_slash|].
        apply lacks_cons. split; [reflexivity|].
        now apply digits_lack_slash.
  - assert (Hyes : Py.contains "/" W = true)
      by (rewrite Hw; apply contains_true).
    rewrite Hyes. change (Char.is_chr "-" "/") with false. cbn [andb].
    rewrite Hw, last_item_after by (now apply digits_lack_slash).
    rewrite int_of_digits by auto. reflexivity.
Qed.

Lemma for_each_cases {A B : Type} (body : B -> A -> result B)
      (bad : A -> bool) (g : B -> A -> B) ms :
  (forall acc m,
      In m ms ->
      body acc m = if bad m then Raise ValueError else Ok (g acc m)) ->
  forall init,
    for_each ms init body
    = if existsb bad ms then Raise ValueError
      else Ok (fold_left g ms init).
Proof.
  induction ms as [|m ms IH]; intros Hb init; [reflexivity|].
  cbn [for_each existsb fold_left]. rewrite Hb by (now left).
  destruct (bad m); [reflexivity|]. cbn [bind orb].
  apply IH. intros. apply Hb. now right.
Qed.

Lemma find_dates_of_birth_cases text :
  find_dates_of_birth text
  = if existsb bad_date (finditer DOB_PATTERN text)
    then Raise ValueError
    else Ok (map dob_entity
                 (filter year_in_range (finditer DOB_PATTERN text))).
Proof.
  unfold find_dates_of_birth.
  change (for_each (finditer DOB_PATTERN text) [] dob_step
          = if existsb bad_date (finditer DOB_PATTERN text)
            then Raise ValueError
            else Ok (map dob_entity
                         (filter year_in_range
                                 (finditer DOB_PATTERN text)))).
  rewrite (for_each_cases dob_step bad_date dob_keep).
  - unfold dob_keep. now rewrite fold_append_filter.
  - intros acc m Hin. apply dob_step_cases with (text := text).
    now apply finditer_sound.
Qed.

End Dates.

(** X14. The date recognizer raises [ValueError] exactly when some matched
    date has a slash and a dash as its second separator; otherwise it
    returns the matches whose last four digits are a year from 1940 to
    2015, in text order. *)
Theorem date_recognizer_cases (text : str) :
  find_dates_of_birth text
  = if existsb (fun m => slash_then_dash (group m))
               (finditer DOB_PATTERN text)
    then Raise ValueError
    else Ok (map dob_entity
                 (filter year_in_range (finditer DOB_PATTERN text))).
Proof. apply find_dates_of_birth_cases. Qed.

(** X15. A scan raises exactly when the text holds a date written with a
    slash and then a dash as second separator; on every other text it
    returns a list of findings. *)
Theorem scan_raises_only_on_slash_dash_dates (text : str) :
  (scan_text_for_pii text = Raise ValueError <->
   exists m, In m (finditer DOB_PATTERN text)
             /\ slash_then_dash (group m) = true) /\
  (scan_text_for_pii text <> Raise ValueError ->
   exists fs, scan_text_for_pii text = Ok fs).
Proof.
  unfold scan_text_for_pii.
  rewrite find_credit_cards_filter, find_dates_of_birth_cases.
  cbn [bind]. unfold bad_date.
  destruct (existsb (fun m => slash_then_dash (group m))
                    (finditer DOB_PATTERN text)) eqn:E; cbn [bind].
  - split; [|congruence]. split; [|reflexivity].
    intros _. apply existsb_exists in E. exact E.
  - split; [|eauto]. split; [discriminate|].
    intros H. apply existsb_exists in H. congruence.
Qed.

(* ------------------------------------------------------------------ *)
(** * The educational content                                          *)
(* ------------------------------------------------------------------ *)

Section Education.

Lemma education_get_in d key info :
  education_get d key = Some info -> In (key, info) d.
Proof.
  induction d as [|[k v] d IH]; simpl; [discriminate|].
  destruct (Py.str_eqb key k) eqn:E.
  - apply str_eqb_eq in E. intros H. inversion H; subst. now left.
  - intros H. right. auto.
Qed.

Lemma values_injective {K V : Type} (d : list (K * V)) :
  NoDup (map snd d) ->
  forall a b v, In (a, v) d -> In (b, v) d -> a = b.
Proof.
  induction d as [|[k x] d IH]; intros Hnd a b v Ha Hb; [contradiction|].
  cbn [map snd] in Hnd. inversion Hnd as [|? ? Hx Hnd']; subst.
  destruct Ha as [Ha|Ha], Hb as [Hb|Hb].
  - congruence.
  - inversion Ha; subst. exfalso. apply Hx.
    change v with (snd (b, v)). now apply in_map.
  - inversion Hb; subst. exfalso. apply Hx.
    change v with (snd (a, v)). now apply in_map.
  - eauto.
Qed.

Lemma education_entries_distinct : NoDup (map snd education_database).
Proof.
  unfold education_database. cbn [map snd].
  repeat constructor; simpl; intros H;
    repeat (destruct H as [H|H];
            [apply (f_equal ed_title) in H; vm_compute in H;
             discriminate H|]);
    exact H.
Qed.

(** No two categories share an entry of the database. *)
Lemma education_get_injective t1 t2 info :
  education_get education_database t1 = Some info ->
  education_get education_database t2 = Some info ->
  t1 = t2.
Proof.
  intros H1 H2. apply education_get_in in H1, H2.
  exact (@values_injective _ _ _ education_entries_distinct _ _ _ H1 H2).
Qed.

Lemma seen_spec t seen :
  existsb (Py.str_eqb t) seen = true <-> In t seen.
Proof.
  rewrite existsb_exists. split.
  - intros (x & Hx & E). apply str_eqb_eq in E. now subst.
  - intros H. exists t. split; auto. now apply str_eqb_eq.
Qed.

Lemma education_fold fs :
  forall infos seen,
    NoDup infos ->
    (forall info,
        In info infos <->
        exists t, In t seen /\ education_get education_database t = Some info) ->
    NoDup (fst (fold_left education_step fs (infos, seen))) /\
    (forall info,
        In info (fst (fold_left education_step fs (infos, seen))) <->
        exists t,
          (In t seen \/ exists f, In f fs /\ e_type f = t)
          /\ education_get education_database t = Some info).
Proof.
  induction fs as [|f fs IH]; intros infos seen Hnd Hin.
  - cbn [fold_left fst]. split; auto. intros info. rewrite Hin.
    split; intros (t & Ht & Hg); exists t; split; auto.
    destruct Ht as [|(f & [] & _)]; auto.
  - cbn [fold_left].
    destruct (education_step (infos, seen) f) as [infos' seen'] eqn:Estep.
    unfold education_step in Estep. cbv zeta in Estep.
    destruct (existsb (Py.str_eqb (e_type f)) seen) eqn:Es;
      cbn [negb] in Estep.
    + inversion Estep; subst infos' seen'; clear Estep.
      apply seen_spec in Es.
      destruct (IH infos seen Hnd Hin) as [IH1 IH2]. split; auto.
      intros info. rewrite IH2.
      split; intros (t & Ht & Hg); exists t; split; auto.
      * destruct Ht as [|(g & Hg' & <-)]; auto.
        right. exists g. split; auto. now right.
      * destruct Ht as [|(g & [<-|Hg'] & <-)]; auto.
        right. eauto.
    + assert (Hns : ~ In (e_type f) seen).
      { intros H. apply seen_spec in H. congruence. }
      destruct (education_get education_database (e_type f))
        as [entry|] eqn:Eg;
        inversion Estep; subst infos' seen'; clear Estep.
      * assert (Hnew : ~ In entry infos).
        { intros H. apply Hin in H. destruct H as (t & Ht & Hg).
          rewrite (education_get_injective _ _ Hg Eg) in Ht. auto. }
        destruct (IH (infos ++ [entry]) (e_type f :: seen)) as [IH1 IH2].
        { apply NoDup_app; repeat split; auto.
          - repeat constructor. auto.
          - intros x Hx [<-|[]]. auto. }
        { intros info. rewrite in_app_iff, Hin. split.
          - intros [(t & Ht & Hg)|[<-|[]]].
            + exists t. split; auto. now right.
            + exists (e_type f). split; auto. now left.
          - intros (t & [<-|Ht] & Hg).
            + right. left. congruence.
            + left. eauto. }
        split; auto. intros info. rewrite IH2.
        split; intros (t & Ht & Hg); exists t; split; auto.
        -- destruct Ht as [[<-|Ht]|(g & Hg' & <-)]; auto.
           ++ right. exists f. split; auto. now left.
           ++ right. exists g. split; auto. now right.
        -- destruct Ht as [Ht|(g & [<-|Hg'] & <-)].
           ++ left. now right.
           ++ left. now left.
           ++ right. eauto.
      * destruct (IH infos (e_type f :: seen) Hnd) as [IH1 IH2].
        { intros info. rewrite Hin. split.
          - intros (t & Ht & Hg). exists t. split; auto. now right.
          - intros (t & [<-|Ht] & Hg); [congruence|eauto]. }
        split; auto. intros info. rewrite IH2.
        split; intros (t & Ht & Hg); exists t; split; auto.
        -- destruct Ht as [[<-|Ht]|(g & Hg' & <-)]; auto.
           ++ right. exists f. split; auto. now left.
           ++ right. exists g. split; auto. now right.
        -- destruct Ht as [Ht|(g & [<-|Hg'] & <-)].
           ++ left. now right.
           ++ left. now left.
           ++ right. eauto.
Qed.

Lemma details_fold fs :
  details (generate_educational_content fs)
  = fst (fold_left education_step fs ([], [])).
Proof.
  unfold generate_educational_content.
  now destruct (fold_left education_step fs ([], [])).
Qed.

Lemma total_items fs :
  total_items_found (generate_educational_content fs)
  = Z.of_nat (List.length fs).
Proof.
  unfold generate_educational_content.
  now destruct (fold_left education_step fs ([], [])).
Qed.

End Education.

(** X16. The educational content counts every finding, and its details
    hold exactly the database entries of the categories found, none of
    them twice; findings of a category without an entry, such as zip, add
    nothing to the details. *)
Theorem educational_content_details (fs : list Entity) :
  total_items_found (generate_educational_content fs)
  = Z.of_nat (List.length fs) /\
  NoDup (details (generate_educational_content fs)) /\
  (forall entry,
      In entry (details (generate_educational_content fs)) <->
      exists f, In f fs
                /\ education_get education_database (e_type f) = Some entry) /\
  ((forall f, In f fs -> e_type f = "zip") ->
   details (generate_educational_content fs) = []).
Proof.
  destruct (@education_fold fs [] []) as [Hnd Hin].
  { constructor. }
  { intros info. split; [intros []|intros (t & [] & _)]. }
  rewrite <- details_fold in Hnd, Hin.
  assert (Hspec : forall entry,
             In entry (details (generate_educational_content fs)) <->
             exists f, In f fs
                       /\ education_get education_database (e_type f)
                          = Some entry).
  { intros entry. rewrite Hin. split.
    - intros (t & [[]|(f & Hf & <-)] & Hg). eauto.
    - intros (f & Hf & Hg). exists (e_type f). split; auto. right. eauto. }
  repeat split; auto; try apply Hspec.
  - apply total_items.
  - intros Hzip.
    destruct (details (generate_educational_content fs)) as [|entry l] eqn:E;
      auto.
    destruct (proj1 (Hspec entry) (or_introl eq_refl)) as (f & Hf & Hg).
    rewrite (Hzip f Hf) in Hg. discriminate.
Qed.

(* ------------------------------------------------------------------ *)
(** * The scanning endpoint                                            *)
(* ------------------------------------------------------------------ *)

Section Endpoint.

Lemma scan_well_placed text fs f :
  scan_text_for_pii text = Ok fs -> In f fs -> well_placed text f.
Proof.
  intros Hscan Hin. pose proof (@scan_sources text fs f Hscan Hin) as H.
  unfold scan_source in H.
  destruct H as [H|[H|[H|[H|[H|[H|[H|[H|H]]]]]]]].
  - apply (@plain_placed SSN_PATTERN "ssn" "critical"); auto.
    vm_compute; lia.
  - now apply phone_placed.
  - apply (@plain_placed EMAIL_PATTERN "email" "medium"); auto.
    vm_compute; lia.
  - apply (@plain_placed CREDIT_CARD_PATTERN "credit_card" "critical"); auto.
    vm_compute; lia.
  - apply (@plain_placed DOB_PATTERN "dob" "medium"); auto. vm_compute; lia.
  - apply (@plain_placed DRIVERS_LICENSE_PATTERN "drivers_license" "high");
      auto.
    vm_compute; lia.
  - apply (@plain_placed ZIP_PATTERN "zip" "low"); auto. vm_compute; lia.
  - apply (@plain_placed name_pattern "name" "medium"); auto.
    vm_compute; lia.
  - apply (@plain_placed (ignorecase address_pattern) "address" "high"); auto.
    vm_compute; lia.
Qed.

Lemma scan_raises_iff text :
  scan_text_for_pii text = Raise ValueError <->
  exists m, In m (finditer DOB_PATTERN text)
            /\ slash_then_dash (group m) = true.
Proof.
  unfold scan_text_for_pii.
  rewrite find_credit_cards_filter, find_dates_of_birth_cases.
  cbn [bind]. unfold bad_date.
  destruct (existsb (fun m => slash_then_dash (group m))
                    (finditer DOB_PATTERN text)) eqn:E; cbn [bind].
  - split; [|reflexivity]. intros _. apply existsb_exists in E. exact E.
  - split; [discriminate|]. intros H. apply existsb_exists in H. congruence.
Qed.

Lemma safe_only_empty fs :
  fst (calculate_risk_level fs) = "Safe" <-> fs = [].
Proof.
  split.
  - destruct fs as [|f fs]; [reflexivity|].
    rewrite calculate_risk_level_cons. cbn [fst]. unfold level_of.
    repeat match goal with |- context [if ?b then _ else _] => destruct b end;
      discriminate.
  - intros ->. reflexivity.
Qed.

End Endpoint.

(** X17. The endpoint rejects a text of more than 102400 characters with
    status 400 before scanning it; on a shorter text it ends with an
    uncaught [ValueError] exactly when the text holds a date with a slash
    and then a dash; and a response it returns carries the findings of the
    scan, each inside the text at its offsets, a score from 0 to 100, the
    level Safe exactly when nothing was found, the masked text, the count
    of the findings, and attachment findings exactly when an attachment
    was announced. *)
Theorem scan_content_outcomes (request : ScanRequest) :
  ((max_length < Py.len (text_content request))%Z ->
   scan_content request
   = HTTPException
       400 "Text content too large. Maximum size is 102400 characters.") /\
  ((Py.len (text_content request) <= max_length)%Z ->
   (scan_content request = Uncaught ValueError <->
    exists m, In m (finditer DOB_PATTERN (text_content request))
              /\ slash_then_dash (group m) = true)) /\
  (forall response,
      scan_content request = Responded response ->
      (Py.len (text_content request) <= max_length)%Z /\
      scan_text_for_pii (text_content request)
      = Ok (found_entities response) /\
      (forall f, In f (found_entities response) ->
                 well_placed (text_content request) f) /\
      (0 <= risk_score response)%Z /\ (risk_score response <= 100)%Z /\
      (risk_level response = "Safe" <-> found_entities response = []) /\
      masked_text response
      = mask_sensitive_data (text_content request) (found_entities response) /\
      total_items_found (educational_info response)
      = Z.of_nat (List.length (found_entities response)) /\
      (attachment_findings response = None <->
       has_attachment request = false)).
Proof.
  unfold scan_content.
  destruct (Z.ltb_spec max_length (Py.len (text_content request)))
    as [Hbig|Hsmall].
  - split; [|split].
    + intros _. reflexivity.
    + intros H. lia.
    + intros response H. discriminate.
  - split; [intros H; lia|]. split.
    + intros _. rewrite <- scan_raises_iff.
      destruct (scan_text_for_pii (text_content request)) as [fs|[]].
      * destruct (calculate_risk_level fs). split; discriminate.
      * split; reflexivity.
    + intros response H.
      destruct (scan_text_for_pii (text_content request)) as [fs|e] eqn:Hscan;
        [|discriminate].
      pose proof (calculate_risk_level_score fs) as Hscore.
      pose proof (safe_only_empty fs) as Hsafe.
      pose proof (weight_sum_nonneg fs) as Hpos.
      destruct (calculate_risk_level fs) as [level score].
      cbn [fst snd] in Hscore, Hsafe.
      inversion H; subst response; clear H.
      cbn [found_entities risk_score risk_level masked_text
           educational_info attachment_findings].
      split; [exact Hsmall|]. split; [reflexivity|].
      split; [intros f Hf; exact (@scan_well_placed _ fs f Hscan Hf)|].
      split; [lia|]. split; [lia|]. split; [exact Hsafe|].
      split; [reflexivity|]. split; [apply total_items|].
      destruct (has_attachment request); split; intros; congruence.
Qed.

(* ------------------------------------------------------------------ *)
(** * Further instances                                                *)
(* ------------------------------------------------------------------ *)

Ltac decide_order :=
  vm_compute; first [reflexivity | exact I | intro; discriminate].

Lemma scan_categories_closed_witness :
  In (e_type contact_phone, e_risk contact_phone) category_severity.
Proof.
  apply (@scan_categories_closed contact_text [contact_phone; contact_email]).
  - vm_compute. reflexivity.
  - simpl. left. reflexivity.
Defined.

Lemma scan_findings_score_at_least_5_witness :
  (5 <= snd (calculate_risk_level [contact_phone; contact_email]))%Z /\
  fst (calculate_risk_level [contact_phone; contact_email]) <> "Safe".
Proof.
  apply (@scan_findings_score_at_least_5 contact_text).
  - vm_compute. reflexivity.
  - discriminate.
Defined.

Lemma risk_level_order_independent_witness :
  calculate_risk_level [contact_phone; contact_email]
  = calculate_risk_level [contact_email; contact_phone].
Proof.
  apply risk_level_order_independent. apply perm_swap.
Defined.

Lemma mask_drivers_license_hides_digits_witness :
  mask_drivers_license "AB" = "AB".
Proof.
  apply (proj1 (proj2 (proj2 (mask_drivers_license_hides_digits "AB")))).
  vm_compute. reflexivity.
Defined.

Lemma mask_replaces_separate_spans_witness :
  mask_sensitive_data contact_text [contact_phone; contact_email]
  = splice contact_text 0 [contact_email; contact_phone].
Proof.
  apply mask_replaces_separate_spans.
  - cbn [separated]. repeat split; decide_order.
  - apply perm_swap.
Defined.

Lemma recognizer_findings_in_order_witness :
  separated (Py.len contact_text) 0 [contact_email] /\
  mask_sensitive_data contact_text [contact_email]
  = splice contact_text 0 [contact_email].
Proof.
  apply (@recognizer_findings_in_order
           contact_text (Ok (find_email_addresses contact_text))).
  - unfold recognizer_outputs. simpl. right. right. left. reflexivity.
  - vm_compute. reflexivity.
Defined.

Lemma luhn_detects_single_digit_errors_witness :
  luhn_check (card_body ++ "2"%char :: []) = Ok false.
Proof.
  apply (@luhn_detects_single_digit_errors card_body [] "1" "2").
  - vm_compute. reflexivity.
  - vm_compute. reflexivity.
  - vm_compute. reflexivity.
  - vm_compute. reflexivity.
  - discriminate.
  - vm_compute. reflexivity.
Defined.

Lemma luhn_check_digit_unique_witness :
  exists c,
    Char.isdigit c = true /\
    luhn_check (card_body ++ [c]) = Ok true /\
    forall c',
      Char.isdigit c' = true ->
      luhn_check (card_body ++ [c']) = Ok true -> c' = c.
Proof.
  apply luhn_check_digit_unique. vm_compute. reflexivity.
Defined.

Lemma mask_email_cases_witness :
  mask_email (("j"%char :: "ohn") ++ "@" ++ "example.com")
  = "j"%char :: "***@" ++ "example.com".
Proof.
  apply (proj1 mask_email_cases); vm_compute; reflexivity.
Defined.

Lemma email_findings_keep_domain_witness :
  exists first username domain,
    e_value contact_email = (first :: username) ++ "@" ++ domain /\
    masked_value_of contact_email = first :: "***@" ++ domain.
Proof.
  apply (@email_findings_keep_domain contact_text).
  vm_compute. left. reflexivity.
Defined.

Lemma name_findings_mask_to_initials_witness :
  exists first1 rest1 gap first2 rest2,
    e_value name_finding = (first1 :: rest1) ++ gap ++ (first2 :: rest2) /\
    Char.isupper_az first1 = true /\
    rest1 <> [] /\ Forall (fun c => Char.islower_az c = true) rest1 /\
    gap <> [] /\ Forall (fun c => Char.isspace c = true) gap /\
    Char.isupper_az first2 = true /\
    rest2 <> [] /\ Forall (fun c => Char.islower_az c = true) rest2 /\
    masked_value_of name_finding = [first1] ++ "*** " ++ [first2] ++ "***".
Proof.
  apply (@name_findings_mask_to_initials name_text).
  vm_compute. left. reflexivity.
Defined.

Lemma scan_raises_only_on_slash_dash_dates_witness :
  exists fs, scan_text_for_pii contact_text = Ok fs.
Proof.
  apply (proj2 (scan_raises_only_on_slash_dash_dates contact_text)).
  vm_compute. discriminate.
Defined.

Lemma educational_content_details_witness :
  details (generate_educational_content [zip4_zip]) = [].
Proof.
  apply (proj2 (proj2 (proj2 (educational_content_details [zip4_zip])))).
  intros f [<-|[]]. reflexivity.
Defined.

Lemma scan_content_outcomes_witness :
  scan_content mixed_date_request = Uncaught ValueError <->
  exists m, In m (finditer DOB_PATTERN (text_content mixed_date_request))
            /\ slash_then_dash (group m) = true.
Proof.
  apply (proj1 (proj2 (scan_content_outcomes mixed_date_request))).
  vm_compute. discriminate.
Defined.
